(** * Sales dashboard pipeline: schema check, normalisation, date filter, KPIs

    A shallow embedding of [dashboard_app.py]: the schema validator
    [_check_required_columns], the normaliser ([_normalize_categoricals] and
    the body of [load_data]), the range filter [apply_date_filter], the KPI
    computation [compute_kpis] and the two grouped summaries built by
    [chart_category_revenue] and [chart_daily_revenue], together with the CSV
    export used by [main].

    The program is written against pandas.  A [DataFrame] is modelled as
    pandas stores it: a list of column names and, per name, the column's
    cells.  Cells are dynamically typed ([Cell]).  Numbers are exact
    rationals ([Qc]); the rounding error of binary floating point is outside
    the model.  Timestamps are tz-naive wall-clock nanoseconds since the
    epoch.  The repository pins no version of pandas; where the major
    versions differ ([astype(str)] on a missing value) the model follows the
    version it is given. *)

From Stdlib Require Import Ascii String QArith Qcanon Qabs.
From stdpp Require Import gmap strings list fin_maps numbers sorting pretty.
Close Scope Qc_scope.
Close Scope Q_scope.
Open Scope string_scope.

(** ** Exceptions *)

Inductive Complaint :=
| MissingColumns (missing expected found : list string)
    (* the message built by [load_data]: the delta, the expected and the found columns *)
| MissingParseDates (c : string)
    (* read_csv: a column named in [parse_dates] is not in the file *)
| UnknownDatetime (s : string).
    (* to_datetime, errors="raise": the text is no date *)

Inductive Error :=
| FileNotFoundError (path : string)
| ValueError (why : Complaint)
| KeyError (c : string)
| TypeError.

Inductive Result (A : Type) :=
| Ok (a : A)
| Raise (e : Error).
Arguments Ok {A} a.
Arguments Raise {A} e.

#[global] Instance Result_ret : MRet Result := λ A a, Ok a.
#[global] Instance Result_bind : MBind Result := λ A B f m,
  match m with Ok a => f a | Raise e => Raise e end.
#[global] Instance Result_fmap : FMap Result := λ A B f m,
  match m with Ok a => Ok (f a) | Raise e => Raise e end.

(** ** Cells and frames *)

(** The three missing markers of pandas: [pd.NA] (string dtype), the float
    [nan] and the datetime [NaT]. *)
Inductive Missing := NA | NaN | NaT.

Inductive Cell :=
| Str (s : string)
| Num (x : Qc)
| Time (t : Z)
| Miss (m : Missing).

#[global] Instance Missing_eq_dec : EqDecision Missing.
Proof. solve_decision. Defined.
#[global] Instance Cell_eq_dec : EqDecision Cell.
Proof. solve_decision. Defined.
#[global] Instance Cell_inhabited : Inhabited Cell := populate (Miss NaN).

Definition isna (c : Cell) : bool :=
  match c with Miss _ => true | _ => false end.

Record DataFrame := {
  columns : list string;               (* df.columns, in order *)
  data : gmap string (list Cell);      (* df[c] *)
  nrows : nat                          (* len(df.index) *)
}.

(** Every listed column has a value list, one cell per index entry. *)
Record wf (df : DataFrame) : Prop := {
  wf_dom : ∀ c, c ∈ columns df ↔ is_Some (data df !! c);
  wf_len : ∀ c xs, data df !! c = Some xs → length xs = nrows df
}.

(** [df[c]] *)
Definition getitem (df : DataFrame) (c : string) : Result (list Cell) :=
  match data df !! c with
  | Some xs => Ok xs
  | None => Raise (KeyError c)
  end.

(** [df[c] = xs] *)
Definition add_column (cols : list string) (c : string) : list string :=
  if decide (c ∈ cols) then cols else cols ++ [c].

Definition setitem (df : DataFrame) (c : string) (xs : list Cell) : DataFrame :=
  {| columns := add_column (columns df) c;
     data := <[c := xs]> (data df);
     nrows := nrows df |}.

(** [df.empty]: some axis has length 0. *)
Definition df_empty (df : DataFrame) : bool :=
  bool_decide (nrows df = 0) || bool_decide (columns df = []).

(** ** Constants *)

Definition DATA_PATH : string := "data/sample_sales.csv".

Definition REQUIRED_COLUMNS : list string :=
  [ "date"; "category"; "units"; "unit_price"; "region"; "sales_channel";
    "customer_segment"; "revenue" ].

(** ** Schema validator *)

Definition _check_required_columns (df : DataFrame) : bool * list string :=
  let missing := filter (λ c, c ∉ columns df) REQUIRED_COLUMNS in
  (bool_decide (length missing = 0), missing).

(** ** What is taken from pandas

    Reading a number or a date from text, and writing one, is done inside
    pandas, and [astype(str)] is not the same in every version of it.  The
    development is parametric in the version and in the four text functions;
    the instance [iso_text] below is used to run the model on examples. *)

Inductive PandasVersion :=
| Pandas2    (* 1.x and 2.x: astype(str) makes every cell a Python str *)
| Pandas3.   (* 3.x: str is the string dtype, a missing cell stays missing *)

Class TextLayer := {
  pandas_version : PandasVersion;
  parse_number : string → option Qc;   (* the number a text denotes, if it is numeric *)
  parse_datetime : string → option Z;  (* the timestamp a text denotes, if it is a date *)
  str_number : Qc → string;            (* str(x), also what to_csv writes *)
  str_datetime : Z → string            (* str(t), also what to_csv writes *)
}.

(** The texts read_csv takes for a missing value by default. *)
Definition STR_NA_VALUES : list string :=
  [ ""; "#N/A"; "#N/A N/A"; "#NA"; "-1.#IND"; "-1.#QNAN"; "-NaN"; "-nan";
    "1.#IND"; "1.#QNAN"; "<NA>"; "N/A"; "NA"; "NULL"; "NaN"; "None"; "n/a";
    "nan"; "null" ].

Definition is_na_value (s : string) : bool := bool_decide (s ∈ STR_NA_VALUES).

(** The texts to_datetime takes for [NaT]. *)
Definition NAT_STRINGS : list string :=
  [ ""; "NaT"; "nat"; "NAT"; "nan"; "NaN"; "NAN" ].

(** str(m) of a missing marker. *)
Definition repr_missing (m : Missing) : string :=
  match m with NA => "<NA>" | NaN => "nan" | NaT => "NaT" end.

(** ** str.strip *)

(** Python's ASCII white space: tab, line feed, vertical tab, form feed,
    carriage return, the four separators 0x1c-0x1f and the space. *)
Definition isspace (a : ascii) : bool :=
  let n := N_of_ascii a in
  ((9 <=? n) && (n <=? 13) || (28 <=? n) && (n <=? 32))%N.

Fixpoint lstrip (s : string) : string :=
  match s with
  | "" => ""
  | String a s' => if isspace a then lstrip s' else s
  end.

Fixpoint rstrip (s : string) : string :=
  match s with
  | "" => ""
  | String a s' =>
      match rstrip s' with
      | "" => if isspace a then "" else String a ""
      | r => String a r
      end
  end.

Definition strip (s : string) : string := rstrip (lstrip s).

(** ** Column operations *)

Section Pandas.
Context `{TextLayer}.

(** Series.astype(str).  Up to pandas 2.x every cell becomes a Python str,
    a missing marker its rendering; from pandas 3.0 on the result has the
    string dtype, in which a missing cell stays missing (as [nan]). *)
Definition astype_str (xs : list Cell) : list Cell :=
  (λ c, match c with
        | Str s => Str s
        | Num x => Str (str_number x)
        | Time t => Str (str_datetime t)
        | Miss m => match pandas_version with
                    | Pandas2 => Str (repr_missing m)
                    | Pandas3 => Miss NaN
                    end
        end) <$> xs.

(** Series.str.strip(): a cell that is no str becomes [nan]. *)
Definition str_strip (xs : list Cell) : list Cell :=
  (λ c, match c with Str s => Str (strip s) | _ => Miss NaN end) <$> xs.

(** pd.to_numeric(xs, errors="coerce"): a text that is no number becomes
    [nan]; a datetime is its nanosecond count. *)
Definition to_numeric_coerce (xs : list Cell) : list Cell :=
  (λ c, match c with
        | Num x => Num x
        | Str s => match parse_number s with Some x => Num x | None => Miss NaN end
        | Time t => Num (Q2Qc (inject_Z t))
        | Miss _ => Miss NaN
        end) <$> xs.

(** Python's int(x): the integer part, towards zero. *)
Definition int (x : Qc) : Z := Z.quot (Qnum x) (Zpos (Qden x)).

(** pd.to_datetime(xs), errors="raise" by default: one text that is no date
    makes the whole call raise. *)
Definition to_datetime_cell (c : Cell) : Result Cell :=
  match c with
  | Time t => Ok (Time t)
  | Miss _ => Ok (Miss NaT)
  | Num x => Ok (Time (int x))
  | Str s =>
      if decide (s ∈ NAT_STRINGS) then Ok (Miss NaT)
      else match parse_datetime s with
           | Some t => Ok (Time t)
           | None => Raise (ValueError (UnknownDatetime s))
           end
  end.

Definition to_datetime (xs : list Cell) : Result (list Cell) :=
  mapM to_datetime_cell xs.

(** Series.dt.tz_localize(None) drops the zone and keeps the wall clock;
    timestamps are wall-clock values here, so nothing changes. *)
Definition tz_localize_none (xs : list Cell) : list Cell := xs.

Definition DAY : Z := 86400000000000.

(** Series.dt.normalize(): midnight of the same day. *)
Definition dt_normalize (xs : list Cell) : list Cell :=
  (λ c, match c with Time t => Time (t `div` DAY * DAY) | _ => c end) <$> xs.

(** A Python [for] loop over [xs] that rebinds one variable and may raise. *)
Fixpoint for_ {A S : Type} (xs : list A) (body : S → A → Result S) (s : S)
    : Result S :=
  match xs with
  | [] => Ok s
  | x :: xs' => s' ← body s x; for_ xs' body s'
  end.

(** ** Normalisation *)

Definition _normalize_categoricals (df : DataFrame) : Result DataFrame :=
  let cat_cols := ["category"; "region"; "sales_channel"; "customer_segment"] in
  for_ cat_cols (λ df c,
    xs ← getitem df c;
    Ok (setitem df c (str_strip (astype_str xs)))) df.

(** The body of [load_data] after the schema check (the three steps the
    source comments as strict numeric typing, light normalisation and
    aligning the date column). *)
Definition normalize (df : DataFrame) : Result DataFrame :=
  df ← for_ ["units"; "unit_price"; "revenue"] (λ df col,
         xs ← getitem df col;
         Ok (setitem df col (to_numeric_coerce xs))) df;
  df ← _normalize_categoricals df;
  xs ← getitem df "date";
  ts ← to_datetime xs;
  Ok (setitem df "date" (dt_normalize (tz_localize_none ts))).

(** ** Reading and writing CSV

    A file is taken as its grid of field texts; splitting lines and quoting
    fields is the csv tokenizer's business. *)

Record CsvFile := {
  header : list string;
  lines : list (list string)
}.

(** The [j]-th field of a line; a short line is padded with missing values. *)
Definition field (j : nat) (line : list string) : string :=
  default "" (line !! j).

(** A column read with dtype "string". *)
Definition string_column (texts : list string) : list Cell :=
  (λ s, if is_na_value s then Miss NA else Str s) <$> texts.

(** A column left as Python objects. *)
Definition object_column (texts : list string) : list Cell :=
  (λ s, if is_na_value s then Miss NaN else Str s) <$> texts.

(** A column without dtype: numeric when every field is a number or
    missing, Python objects otherwise. *)
Definition inferred_column (texts : list string) : list Cell :=
  if forallb (λ s, is_na_value s || bool_decide (is_Some (parse_number s))) texts
  then (λ s, if is_na_value s then Miss NaN
             else match parse_number s with Some x => Num x | None => Miss NaN end)
         <$> texts
  else object_column texts.

(** A column named in [parse_dates]: datetimes when every field is a date or
    missing, otherwise returned unaltered as Python objects. *)
Definition date_column (texts : list string) : list Cell :=
  if forallb (λ s, is_na_value s || bool_decide (is_Some (parse_datetime s))) texts
  then (λ s, if is_na_value s then Miss NaT
             else match parse_datetime s with Some t => Time t | None => Miss NaT end)
         <$> texts
  else object_column texts.

(** The call of [load_data]: parse_dates=["date"] and dtype "string" for the
    four categorical columns.  Of columns with the same name the first is the
    one the name denotes. *)
Definition read_column (c : string) (texts : list string) : list Cell :=
  if decide (c ∈ ["category"; "region"; "sales_channel"; "customer_segment"])
  then string_column texts
  else if decide (c = "date") then date_column texts
  else inferred_column texts.

Definition read_csv (file : CsvFile) : Result DataFrame :=
  if decide ("date" ∈ header file) then
    Ok {| columns := header file;
          data := list_to_map
                    (imap (λ j c, (c, read_column c (field j <$> lines file)))
                          (header file));
          nrows := length (lines file) |}
  else Raise (ValueError (MissingParseDates "date")).

(** df.to_csv(index=False): a missing value is written as the empty field. *)
Definition to_csv_cell (c : Cell) : string :=
  match c with
  | Str s => s
  | Num x => str_number x
  | Time t => str_datetime t
  | Miss _ => ""
  end.

Definition iat (df : DataFrame) (i : nat) (c : string) : Cell :=
  default (Miss NaN) (data df !! c ≫= (.!! i)).

Definition to_csv (df : DataFrame) : CsvFile :=
  {| header := columns df;
     lines := (λ i, (λ c, to_csv_cell (iat df i c)) <$> columns df)
                <$> seq 0 (nrows df) |}.

(** ** Loading *)

Definition load_data (fs : gmap string CsvFile) (path : string)
    : Result DataFrame :=
  df ← match fs !! path with
       | Some file => read_csv file
       | None => Raise (FileNotFoundError path)
       end;
  let '(ok, missing) := _check_required_columns df in
  if negb ok then
    Raise (ValueError (MissingColumns missing REQUIRED_COLUMNS (columns df)))
  else normalize df.

End Pandas.

(** ** Range filter *)

Record DateRange := {
  start : Z;
  end_ : Z
}.

(** [xs >= bound] and [xs <= bound] on a column: [NaT] compares false, a
    cell that is no datetime cannot be compared with a Timestamp. *)
Definition compare_with (op : Z → Z → bool) (xs : list Cell) (bound : Z)
    : Result (list bool) :=
  mapM (λ c, match c with
             | Time t => Ok (op t bound)
             | Miss _ => Ok false
             | _ => Raise TypeError
             end) xs.

(** Boolean indexing of one column. *)
Fixpoint select {A : Type} (mask : list bool) (xs : list A) : list A :=
  match mask, xs with
  | b :: mask', x :: xs' => if b then x :: select mask' xs' else select mask' xs'
  | _, _ => []
  end.

(** [df.loc[mask]] *)
Definition loc (df : DataFrame) (mask : list bool) : DataFrame :=
  {| columns := columns df;
     data := select mask <$> data df;
     nrows := length (select mask mask) |}.

Definition apply_date_filter (df : DataFrame) (dr : DateRange)
    : Result DataFrame :=
  lhs ← getitem df "date";
  ge ← compare_with Z.geb lhs (start dr);
  rhs ← getitem df "date";
  le ← compare_with Z.leb rhs (end_ dr);
  let mask := zip_with andb ge le in
  Ok (loc df mask).

(** The rows of a frame, first to last, each as the map from column name to
    cell. *)
Fixpoint rows_of (n : nat) (d : gmap string (list Cell))
    : list (gmap string Cell) :=
  match n with
  | 0 => []
  | S n' => (hd (Miss NaN) <$> d) :: rows_of n' (tl <$> d)
  end.

Definition records (df : DataFrame) : list (gmap string Cell) :=
  rows_of (nrows df) (data df).

(** ** KPIs *)

Record KPIs := {
  total_revenue : Z;
  total_units : Z;
  n_categories : Z
}.

Definition dropna (xs : list Cell) : list Cell :=
  filter (λ c, isna c = false) xs.

(** Series.sum() of a numeric column: missing cells are skipped, the sum of
    nothing is 0.  (A column of texts does not reach the aggregations through
    [load_data]; it is reported as a TypeError.) *)
Definition series_sum (xs : list Cell) : Result Qc :=
  for_ xs (λ acc c, match c with
                    | Num x => Ok (acc + x)%Qc
                    | Miss _ => Ok acc
                    | _ => Raise TypeError
                    end) 0%Qc.

(** Series.nunique(): the number of distinct values that are not missing. *)
Definition nunique (xs : list Cell) : nat :=
  length (remove_dups (dropna xs)).

Definition compute_kpis (df : DataFrame) : Result KPIs :=
  revenue ← getitem df "revenue";
  s ← series_sum (dropna revenue);
  let total_rev := int s in
  units ← getitem df "units";
  s ← series_sum (dropna units);
  let total_units := int s in
  category ← getitem df "category";
  let n_cats := Z.of_nat (nunique (dropna category)) in
  Ok {| total_revenue := total_rev; total_units := total_units;
        n_categories := n_cats |}.

(** ** Grouped summaries *)

(** The order of group keys.  A column holds cells of one kind; between
    kinds the order is numbers, datetimes, texts.  Missing keys come last. *)
Definition key_rank (c : Cell) : nat :=
  match c with Num _ => 0 | Time _ => 1 | Str _ => 2 | Miss _ => 3 end.

Definition key_leb (a b : Cell) : bool :=
  match a, b with
  | Num x, Num y => bool_decide (x ≤ y)%Qc
  | Time s, Time t => (s <=? t)%Z
  | Str s, Str t => String.leb s t
  | Miss _, Miss _ => true
  | _, _ => Nat.ltb (key_rank a) (key_rank b)
  end.

(** A stable sort: numpy sorts short arrays by insertion. *)
Fixpoint insert_sorted {A : Type} (leb : A → A → bool) (x : A) (l : list A)
    : list A :=
  match l with
  | [] => [x]
  | y :: l' => if leb x y then x :: l else y :: insert_sorted leb x l'
  end.

Definition stable_sort {A : Type} (leb : A → A → bool) (l : list A) : list A :=
  foldr (insert_sorted leb) [] l.

(** df.groupby(key, dropna=..., as_index=False)[val].sum(): one row per
    distinct key, keys in sorted order (sort=True). *)
Definition groupby_sum (dropna_keys : bool) (keys vals : list Cell)
    : Result (list (Cell * Qc)) :=
  let ks := remove_dups (if dropna_keys then dropna keys else keys) in
  mapM (λ k, s ← series_sum (select ((λ c, bool_decide (c = k)) <$> keys) vals);
             Ok (k, s))
       (stable_sort key_leb ks).

(** g.sort_values(by, ascending=...) on the two-column frame [g], as
    pandas' nargsort does it: a descending sort reverses the items, sorts
    them ascending and reverses the outcome. *)
Definition sort_values {A : Type} (leb : A → A → bool) (ascending : bool)
    (g : list A) : list A :=
  if ascending then stable_sort leb g
  else reverse (stable_sort leb (reverse g)).

(** The data of a plotly figure: the (x, y) points in the order of the rows
    of the frame passed to [px.bar] or [px.line]. *)
Definition Figure : Type := list (Cell * Qc).

Definition chart_category_revenue (df : DataFrame) : Result (option Figure) :=
  if df_empty df then Ok None
  else
    category ← getitem df "category";
    revenue ← getitem df "revenue";
    g ← groupby_sum false category revenue;
    let g := sort_values (λ a b, bool_decide (a.2 ≤ b.2)%Qc) false g in
    Ok (Some g).

Definition chart_daily_revenue (df : DataFrame) : Result (option Figure) :=
  if df_empty df then Ok None
  else
    date ← getitem df "date";
    revenue ← getitem df "revenue";
    g ← groupby_sum true date revenue;
    let g := sort_values (λ a b, key_leb a.1 b.1) true g in
    Ok (Some g).

(** ** A text layer to run the model with

    Numbers are plain decimal literals (sign, digits, an optional fraction);
    dates are ISO calendar dates, YYYY-MM-DD.  pandas reads more spellings
    than these; nothing below depends on the difference. *)

Module IsoText.

Definition digit_of (a : ascii) : option Z :=
  let n := Z.of_N (N_of_ascii a) in
  if ((48 <=? n) && (n <=? 57))%Z then Some (n - 48)%Z else None.

Fixpoint digits_from (acc : Z) (s : string) : option Z :=
  match s with
  | "" => Some acc
  | String a s' => d ← digit_of a; digits_from (10 * acc + d)%Z s'
  end.

(** The digits of a non-empty text. *)
Definition natural (s : string) : option Z :=
  match s with "" => None | _ => digits_from 0 s end.

Fixpoint split_at (sep : ascii) (s : string) : string * option string :=
  match s with
  | "" => ("", None)
  | String a s' =>
      if decide (a = sep) then ("", Some s')
      else let '(l, r) := split_at sep s' in (String a l, r)
  end.

Definition unsigned_decimal (s : string) : option Qc :=
  match split_at "." s with
  | (ip, None) => n ← natural ip; Some (Q2Qc (inject_Z n))
  | (ip, Some fp) =>
      n ← natural ip; f ← natural fp;
      let scale := (10 ^ Z.of_nat (String.length fp))%Z in
      Some (Q2Qc (Qmake (n * scale + f) (Z.to_pos scale)))
  end.

Definition decimal (s : string) : option Qc :=
  match s with
  | String "-" s' => Qcopp <$> unsigned_decimal s'
  | String "+" s' => unsigned_decimal s'
  | _ => unsigned_decimal s
  end.

Fixpoint pad_left (width : nat) (s : string) : string :=
  match width - String.length s with
  | 0 => s
  | S _ => match width with
           | 0 => s
           | S w => "0" +:+ pad_left w s
           end
  end.

(** The least number of fraction digits, up to 18, that writes [1/d]. *)
Fixpoint fraction_digits (fuel : nat) (k : nat) (d : Z) : nat :=
  match fuel with
  | 0 => k
  | S fuel' =>
      if ((10 ^ Z.of_nat k) `mod` d =? 0)%Z then k
      else fraction_digits fuel' (S k) d
  end.

Definition show_decimal (x : Qc) : string :=
  let n := Qnum x in
  let d := Zpos (Qden x) in
  let k := fraction_digits 18 0 d in
  let scale := (10 ^ Z.of_nat k)%Z in
  let scaled := (Z.abs n * scale `quot` d)%Z in
  (if (n <? 0)%Z then "-" else "") +:+
  pretty (scaled `div` scale)%Z +:+
  match k with
  | 0 => ""
  | _ => "." +:+ pad_left k (pretty (scaled `mod` scale)%Z)
  end.

(** Days since 1970-01-01 of a civil date, and back. *)
Definition days_from_civil (y m d : Z) : Z :=
  let y' := (if m <=? 2 then y - 1 else y)%Z in
  let era := (y' `div` 400)%Z in
  let yoe := (y' - era * 400)%Z in
  let doy := ((153 * (if m >? 2 then m - 3 else m + 9) + 2) `div` 5 + d - 1)%Z in
  let doe := (yoe * 365 + yoe `div` 4 - yoe `div` 100 + doy)%Z in
  (era * 146097 + doe - 719468)%Z.

Definition civil_from_days (z : Z) : Z * Z * Z :=
  let z := (z + 719468)%Z in
  let era := (z `div` 146097)%Z in
  let doe := (z - era * 146097)%Z in
  let yoe := ((doe - doe `div` 1460 + doe `div` 36524 - doe `div` 146096)
                `div` 365)%Z in
  let doy := (doe - (365 * yoe + yoe `div` 4 - yoe `div` 100))%Z in
  let mp := ((5 * doy + 2) `div` 153)%Z in
  let d := (doy - (153 * mp + 2) `div` 5 + 1)%Z in
  let m := (if mp <? 10 then mp + 3 else mp - 9)%Z in
  ((if m <=? 2 then era * 400 + yoe + 1 else era * 400 + yoe)%Z, m, d).

Definition iso_date (s : string) : option Z :=
  match split_at "-" s with
  | (ys, Some rest) =>
      match split_at "-" rest with
      | (ms, Some ds) =>
          y ← natural ys; m ← natural ms; d ← natural ds;
          let days := days_from_civil y m d in
          if bool_decide (String.length ys = 4 ∧ String.length ms = 2 ∧
                          String.length ds = 2 ∧
                          civil_from_days days = (y, m, d))
          then Some (days * DAY)%Z else None
      | _ => None
      end
  | _ => None
  end.

Definition show_date (t : Z) : string :=
  let '(y, m, d) := civil_from_days (t `div` DAY) in
  pad_left 4 (pretty y) +:+ "-" +:+ pad_left 2 (pretty m) +:+ "-" +:+
  pad_left 2 (pretty d) +:+
  (if (t `mod` DAY =? 0)%Z then ""
   else let secs := ((t `mod` DAY) `div` 1000000000)%Z in
        " " +:+ pad_left 2 (pretty (secs `div` 3600)%Z) +:+ ":" +:+
        pad_left 2 (pretty ((secs `div` 60) `mod` 60)%Z) +:+ ":" +:+
        pad_left 2 (pretty (secs `mod` 60)%Z)).

End IsoText.

(** A text layer that writes and reads dates as pandas writes them to a
    CSV file, for a given version and given number functions. *)
Definition iso_dated (v : PandasVersion) (read : string → option Qc)
    (write : Qc → string) : TextLayer :=
  {| pandas_version := v;
     parse_number := read;
     parse_datetime := IsoText.iso_date;
     str_number := write;
     str_datetime := IsoText.show_date |}.

#[global] Instance iso_text : TextLayer :=
  iso_dated Pandas2 IsoText.decimal IsoText.show_decimal.

(** The same texts under pandas 3. *)
Definition iso_text_pandas3 : TextLayer :=
  iso_dated Pandas3 IsoText.decimal IsoText.show_decimal.


(** ** Notions used in the statements *)

(** One step of the normaliser: [df[c] = f(df[c])]. *)
Definition step (f : list Cell → list Cell) (c : string) (df : DataFrame)
    : Result DataFrame :=
  xs ← getitem df c; Ok (setitem df c (f xs)).

(** What [_normalize_categoricals] does to one column. *)
Definition normalize_category `{TextLayer} (xs : list Cell) : list Cell :=
  str_strip (astype_str xs).

(** The cells of a datetime column: timestamps and [NaT]. *)
Definition datetime_like (c : Cell) : Prop :=
  match c with Time _ | Miss NaT => True | _ => False end.

(** The cells of a numeric column: numbers and [nan]. *)
Definition numeric_like (c : Cell) : Prop :=
  match c with Num _ | Miss NaN => True | _ => False end.

(** The sum of the values of a column that are not missing. *)
Definition sum_present (xs : list Cell) : Qc :=
  foldr (λ c acc, match c with Num x => (x + acc)%Qc | _ => acc end) 0%Qc xs.

(** *** Columns that binary floating point adds without rounding

    pandas adds a column in float64 (int64 for a column of integers), in an
    order of its own.  When every number of the column is a multiple of
    2^-k and the absolute values add up to at most 2^53 such multiples,
    every sum of some of the numbers is such a multiple too, hence a float64
    (and an int64 when k = 0): whatever the order, nothing is rounded and
    nothing overflows, and the float the code computes is the sum of the
    numbers.  [ticks k c] is the number of multiples in the cell [c]. *)
Definition ticks (k : Z) (c : Cell) : Z :=
  match c with
  | Num x => ((Z.abs (Qnum x) * 2 ^ k) `div` Zpos (Qden x))%Z
  | _ => 0%Z
  end.

Definition adds_exactly (k : Z) (xs : list Cell) : bool :=
  bool_decide (0 ≤ k ≤ 1074)%Z &&
  forallb (λ c, match c with
                | Num x => ((2 ^ k) `mod` Zpos (Qden x) =? 0)%Z
                | _ => true
                end) xs &&
  bool_decide (foldr (λ c n, ticks k c + n) 0 xs ≤ 2 ^ 53)%Z.

(** ** Example tables *)

Definition num (z : Z) : Cell := Num (Q2Qc (inject_Z z)).
(** A frame from its columns, listed in order. *)
Definition frame (cols : list (string * list Cell)) (n : nat) : DataFrame :=
  {| columns := cols.*1; data := list_to_map cols; nrows := n |}.

Definition D_2024_01_01 : Z := 1704067200000000000.
Definition D_2024_01_02 : Z := 1704153600000000000.

(** The three rows of the specification's aggregate example. *)
Definition spec_rows : DataFrame :=
  frame [ ("date", [Time D_2024_01_01; Time D_2024_01_01; Time D_2024_01_02]);
          ("category", [Str "A"; Str "B"; Str "A"]);
          ("units", [num 2; num 1; num 3]);
          ("revenue", [num 100; num 50; num 150]) ] 3.

Definition fraction_table : DataFrame :=
  frame [ ("date", [Time D_2024_01_01]);
          ("category", [Str "A"]);
          ("units", [Num (Q2Qc (3 # 2))]);
          ("revenue", [Num (Q2Qc (3 # 4))]) ] 1.


Definition empty_table : DataFrame :=
  frame ((λ c, (c, [])) <$> REQUIRED_COLUMNS) 0.

(** [n] is [x] with its fraction cut off (rounding towards zero). *)
Definition truncates (x : Qc) (n : Z) : Prop :=
  ((0 <= x → inject_Z n <= x ∧ x < inject_Z n + 1) ∧
   (x <= 0 → inject_Z n - 1 < x ∧ x <= inject_Z n))%Q.

(** [n] is an integer nearest to [x], whatever the rule for halves. *)
Definition rounds_to_nearest (x : Qc) (n : Z) : Prop :=
  (Qabs (x - inject_Z n) <= 1 # 2)%Q.


(** The columns [_normalize_categoricals] rewrites. *)
Definition CATEGORICAL_COLUMNS : list string :=
  ["category"; "region"; "sales_channel"; "customer_segment"].


(** The cells of a column of texts: a text or [nan]. *)
Definition text_like (c : Cell) : Prop :=
  match c with Str _ | Miss NaN => True | _ => False end.

(** A table as read_csv may return it, before normalisation. *)
Definition raw_table : DataFrame :=
  frame [ ("date", [Str "2024-01-01"; Time (D_2024_01_02 + 3600000000000)]);
          ("category", [Str " A "; Miss NA]);
          ("units", [Str "2"; Str "two"]);
          ("unit_price", [num 50; Miss NaN]);
          ("region", [Str "East"; Str "West "]);
          ("sales_channel", [Str "web"; Str "web"]);
          ("customer_segment", [Miss NA; Str "retail"]);
          ("revenue", [Str "100.5"; num 50]) ] 2.

Definition normalized_raw_table : DataFrame :=
  match normalize raw_table with Ok df => df | Raise _ => raw_table end.


(** The bound test of the range filter on one cell: a date that is present
    and lies between the two bounds. *)
Definition in_range (dr : DateRange) (c : Cell) : Prop :=
  match c with
  | Time t => (start dr ≤ t ≤ end_ dr)%Z
  | _ => False
  end.

#[global] Instance in_range_dec dr c : Decision (in_range dr c).
Proof. destruct c; cbn; apply _. Defined.

(** The revenue of the rows of one category, summed over the cells that are
    present. *)
Definition revenue_of (k : Cell) (keys vals : list Cell) : Qc :=
  sum_present (filter (λ p, p.1 = k) (zip keys vals)).*2.




(** The columns [load_data] coerces to numbers. *)
Definition NUMERIC_COLUMNS : list string := ["units"; "unit_price"; "revenue"].

(** A cell that is no timestamp with a time of day.  to_csv writes a
    column of datetimes as dates only when every cell of it is such. *)
Definition without_time (c : Cell) : Prop :=
  match c with Time t => (t `mod` DAY = 0)%Z | _ => True end.

(** A cell of a normalised date column: [NaT] or a midnight. *)
Definition midnight_like (c : Cell) : Prop :=
  match c with
  | Time t => (t `mod` DAY = 0)%Z
  | Miss NaT => True
  | _ => False
  end.

(** A text of ASCII characters.  On such a text the white space of
    [str.strip] is the white space of [isspace]; a text in another script
    can hold white space of its own (the ideographic space, say), which
    [str.strip] removes as well. *)
Definition ascii_text (s : string) : Prop :=
  Forall (λ a, (N_of_ascii a < 128)%N) (list_ascii_of_string s).

(** A text of white space only. *)
Fixpoint blank (s : string) : bool :=
  match s with
  | "" => true
  | String a s' => isspace a && blank s'
  end.


(** The position of the first column named [c]. *)
Fixpoint header_index (c : string) (l : list string) : option nat :=
  match l with
  | [] => None
  | x :: l' => if decide (x = c) then Some 0 else S <$> header_index c l'
  end.

(** The field texts of the column named [c], top to bottom. *)
Definition column_texts (file : CsvFile) (c : string) : option (list string) :=
  (λ j, field j <$> lines file) <$> header_index c (header file).

(** A file that read_csv takes as the grid it is: the names of the header
    are distinct and none is empty (read_csv renames a repeated name and
    gives an empty one a name), there is a header, and every line has as many
    fields as the header and is not blank (a longer line is a ParserError, a
    blank line is skipped). *)
Definition regular (file : CsvFile) : Prop :=
  header file ≠ [] ∧ NoDup (header file) ∧ ("" ∉ header file) ∧
  Forall (λ line, length line = length (header file) ∧ line ≠ [""])
         (lines file).

(** A date field [load_data] can take: a missing value or a date. *)
Definition date_text_ok `{TextLayer} (s : string) : Prop :=
  is_na_value s = true ∨ s ∈ NAT_STRINGS ∨ is_Some (parse_datetime s).

(** A file whose revenue column has another name. *)
Definition file_without_revenue : CsvFile :=
  {| header := ["date"; "category"; "units"; "unit_price"; "region";
                "sales_channel"; "customer_segment"; "amount"];
     lines := [ ["2024-01-01"; "A"; "2"; "50"; "East"; "web"; "retail"; "100"] ] |}.

(** A file with an extra column, untidy texts and missing fields. *)
Definition sample_file : CsvFile :=
  {| header := REQUIRED_COLUMNS ++ ["note"];
     lines := [ ["2024-01-01"; " A "; "2"; "50"; "East"; "web"; "retail"; "100"; "x"];
                ["2024-01-02"; ""; "two"; "fifty"; "West"; "web"; ""; "50.5"; ""];
                [""; "B"; "3"; "50"; "East"; "shop"; "retail"; "n/a"; "y"] ] |}.

Definition sample_table : DataFrame :=
  match load_data {[ DATA_PATH := sample_file ]} DATA_PATH with
  | Ok df => df
  | Raise _ => empty_table
  end.

(** ** Notions for the export and reload round trip *)

(** A categorical cell that comes back from a CSV file: a text that is not
    among those read_csv takes for a missing value, or, under pandas 1.x/2.x,
    the rendering of [pd.NA], which [astype(str)] produces again.  A missing
    cell (there is none under pandas 1.x/2.x) is written as the empty field,
    read as missing, and stays so. *)
Definition category_cell_ok `{TextLayer} (c : Cell) : bool :=
  match c with
  | Str s => negb (is_na_value s) ||
             match pandas_version with
             | Pandas2 => bool_decide (s = "<NA>")
             | Pandas3 => false
             end
  | _ => true
  end.

(** What comes back for a cell of a normalised table that is written to a
    CSV file and loaded again.  A number comes back as the number pandas
    reads from the text it has written for it.  A categorical text comes
    back as it is, unless read_csv takes it for a missing value: then it
    comes back as a missing cell does, as the rendering <NA> under pandas
    1.x/2.x and as [nan] under pandas 3.x. *)
Definition reread_number `{TextLayer} (c : Cell) : Cell :=
  match c with
  | Num x =>
      if is_na_value (str_number x) then Miss NaN
      else match parse_number (str_number x) with
           | Some y => Num y
           | None => Miss NaN
           end
  | _ => Miss NaN
  end.

Definition reread_missing `{TextLayer} : Cell :=
  match pandas_version with
  | Pandas2 => Str "<NA>"
  | Pandas3 => Miss NaN
  end.

Definition reread_category `{TextLayer} (c : Cell) : Cell :=
  match c with
  | Str s => if is_na_value s then reread_missing else Str s
  | _ => reread_missing
  end.

(** A number whose text reads back as the same number. *)
Definition number_cell_ok `{TextLayer} (c : Cell) : bool :=
  match c with
  | Num x => bool_decide (parse_number (str_number x) = Some x) &&
             negb (is_na_value (str_number x))
  | _ => true
  end.

(** The digits written at width [w] for a number: they are [w] characters,
    read as the number, and hold no hyphen. *)
Definition padded_ok (w : nat) (n : Z) : bool :=
  let s := IsoText.pad_left w (pretty n) in
  bool_decide (String.length s = w ∧ IsoText.natural s = Some n ∧
               IsoText.split_at "-" s = (s, None)).

(** A timestamp whose text reads back as the same timestamp, as the text
    to_csv writes for a date does. *)
Definition datetime_cell_ok `{TextLayer} (c : Cell) : bool :=
  match c with
  | Time t => bool_decide (parse_datetime (str_datetime t) = Some t) &&
              negb (is_na_value (str_datetime t))
  | _ => true
  end.

Definition column_ok (ok : Cell → bool) (df : DataFrame) (c : string) : bool :=
  match data df !! c with
  | Some xs => forallb ok xs
  | None => true
  end.

Definition survives_csv `{TextLayer} (df : DataFrame) : bool :=
  forallb (column_ok category_cell_ok df) CATEGORICAL_COLUMNS &&
  forallb (column_ok number_cell_ok df) ["units"; "unit_price"; "revenue"].

(** ** Example files *)

Definition roundtrip_file : CsvFile :=
  {| header := REQUIRED_COLUMNS;
     lines :=
       [ ["2024-01-01"; "A"; "2"; "50"; "East"; "web"; "retail"; "100"];
         ["2024-01-01"; " B "; "1"; "50.5"; "West"; "web"; ""; "50.5"];
         ["2024-01-02"; "A"; "three"; ""; "East"; "shop"; "retail"; "150"] ] |}.

(** One date field that is no date. *)
Definition bad_date_file : CsvFile :=
  {| header := REQUIRED_COLUMNS;
     lines :=
       [ ["2024-01-01"; "A"; "2"; "50"; "East"; "web"; "retail"; "100"];
         ["not-a-date"; "B"; "1"; "50"; "West"; "web"; "retail"; "50"] ] |}.

(** One category field made of blanks only. *)
Definition blank_category_file : CsvFile :=
  {| header := REQUIRED_COLUMNS;
     lines :=
       [ ["2024-01-01"; "  "; "2"; "50"; "East"; "web"; "retail"; "100"] ] |}.

Definition roundtrip_fs : gmap string CsvFile := {[ DATA_PATH := roundtrip_file ]}.

(** The table loaded from [roundtrip_file]. *)
Definition roundtrip_table : DataFrame :=
  match load_data roundtrip_fs DATA_PATH with
  | Ok df => df
  | Raise _ => empty_table
  end.

(** The mask [apply_date_filter] computes from the date column. *)
Definition date_mask (dr : DateRange) (dates : list Cell) : list bool :=
  (λ c, bool_decide (in_range dr c)) <$> dates.

(** The range that is inside both ranges. *)
Definition meet (dr1 dr2 : DateRange) : DateRange :=
  {| start := Z.max (start dr1) (start dr2);
     end_ := Z.min (end_ dr1) (end_ dr2) |}.

(** A table as [load_data] returns it. *)
Record loaded (df : DataFrame) : Prop := {
  loaded_wf : wf df;
  loaded_required : ∀ c, c ∈ REQUIRED_COLUMNS → c ∈ columns df;
  loaded_numeric : ∀ c xs, c ∈ NUMERIC_COLUMNS → data df !! c = Some xs →
                           Forall numeric_like xs;
  loaded_text : ∀ c xs, c ∈ CATEGORICAL_COLUMNS → data df !! c = Some xs →
                        Forall text_like xs;
  loaded_date : ∀ xs, data df !! "date" = Some xs → Forall midnight_like xs
}.


(** The sum of a list of numbers. *)
Definition total (xs : list Qc) : Qc := foldr Qcplus 0%Qc xs.

(** The value a cell adds to a sum. *)
Definition addend (v : Cell) : Qc := match v with Num x => x | _ => 0%Qc end.

(** Two ranges for the examples. *)
Definition january_first : DateRange :=
  {| start := D_2024_01_01; end_ := D_2024_01_01 |}.

Definition january : DateRange :=
  {| start := D_2024_01_01; end_ := D_2024_01_01 + 30 * DAY |}.


(** ** The yen formatter *)

(** The integer nearest to [n/d], a half going to the even neighbour, for
    [0 <= n] and [0 < d]: what the format ".0f" shows of a float. *)
Definition round_half_even (n d : Z) : Z :=
  let q := (n `div` d)%Z in
  let r := (n `mod` d)%Z in
  if (2 * r <? d)%Z then q
  else if (d <? 2 * r)%Z then (q + 1)%Z
  else if Z.even q then q else (q + 1)%Z.

Definition digit_char (d : Z) : ascii := ascii_of_N (Z.to_N (48 + d)).

(** The decimal digits of [n], the last digit first. *)
Fixpoint digits_rev (fuel : nat) (n : Z) : list ascii :=
  match fuel with
  | 0 => []
  | S fuel' =>
      digit_char (n `mod` 10) ::
      (if (n `div` 10 =? 0)%Z then [] else digits_rev fuel' (n `div` 10))
  end.

(** The format option ",": a separator after every third digit, counted from
    the right (the list is the text read backwards). *)
Fixpoint group_rev (l : list ascii) : list ascii :=
  match l with
  | a :: b :: c :: ((_ :: _) as tl) => a :: b :: c :: ","%char :: group_rev tl
  | _ => l
  end.

(** The numbers that are values of a float64: m * 2^e with |m| < 2^53 and
    -1074 <= e <= 971. *)
Definition binary64 (x : Qc) : Prop :=
  ∃ m e : Z, (Z.abs m < 2 ^ 53)%Z ∧ (-1074 ≤ e ≤ 971)%Z ∧
             (x == inject_Z m * (2 # 1) ^ e)%Q.

(** The f-string of [yen] at an int or a finite float [n], taken as the
    rational the float is (an int is converted to a float by the format,
    exactly up to 2^53).  For these the format does not raise, so the
    [except] branch, which returns a dash, is not taken.  The float [nan],
    which the preview of the page can pass for a missing cell, is not a
    number of this definition. *)
Definition yen (n : Qc) : string :=
  let r := round_half_even (Z.abs (Qnum n)) (Zpos (Qden n)) in
  "¥" +:+ (if (Qnum n <? 0)%Z then "-" else "") +:+
  string_of_list_ascii (reverse (group_rev (digits_rev (S (Z.to_nat r)) r))).


(** The digits 0 to 9. *)
Definition is_digit (a : ascii) : Prop :=
  (48 ≤ Z.of_N (N_of_ascii a) ≤ 57)%Z.

(** The number a digit text denotes, read backwards and forwards. *)
Definition value_rev (l : list ascii) : Z :=
  foldr (λ a acc, (Z.of_N (N_of_ascii a) - 48 + 10 * acc)%Z) 0%Z l.

Definition digits_value (l : list ascii) : Z := value_rev (reverse l).

(** A text read backwards that is digits in groups of three, separated by
    commas, the last group (the first of the text) of one to three digits. *)
Inductive grouped : list ascii → Prop :=
| grouped_last l :
    (0 < length l ≤ 3)%nat → Forall is_digit l → grouped l
| grouped_more a b c l :
    is_digit a → is_digit b → is_digit c → grouped l →
    grouped (a :: b :: c :: ","%char :: l).

(** ** The script sample_error.py *)

Section SampleError.
Context `{TextLayer}.

(** pd.read_csv(path, parse_dates=["created_at"]): no dtype is given, so the
    other columns are inferred. *)
Definition read_csv_created_at (file : CsvFile) : Result DataFrame :=
  if decide ("created_at" ∈ header file) then
    Ok {| columns := header file;
          data := list_to_map
                    (imap (λ j c, (c, (if decide (c = "created_at")
                                       then date_column else inferred_column)
                                        (field j <$> lines file)))
                          (header file));
          nrows := length (lines file) |}
  else Raise (ValueError (MissingParseDates "created_at")).

(** The script down to the grouped selection
    [df.groupby('category_name')['revenue_total']]: the keys to group by and
    the values to sum.  The grouper looks its key up first; the selection of
    a column that is not there has a message of its own. *)
Definition sample_error (fs : gmap string CsvFile)
    : Result (list Cell * list Cell) :=
  df ← match fs !! "data/sample_sales.csv" with
       | Some file => read_csv_created_at file
       | None => Raise (FileNotFoundError "data/sample_sales.csv")
       end;
  keys ← getitem df "category_name";
  vals ← match data df !! "revenue_total" with
         | Some xs => Ok xs
         | None => Raise (KeyError "Column not found: revenue_total")
         end;
  Ok (keys, vals).

End SampleError.

(** A file with the columns of the dashboard and no other. *)
Definition dashboard_file : CsvFile :=
  {| header := REQUIRED_COLUMNS;
     lines := [ ["2024-01-01"; "A"; "2"; "50"; "East"; "web"; "retail"; "100"];
                ["2024-01-02"; "B"; "1"; "30"; "West"; "shop"; "retail"; "30"] ] |}.

(** ** Floats as read_csv reads them and to_csv writes them

    The numbers of a float64 column are the rationals m * 2^e with
    |m| < 2^53.  read_csv turns a field into a float with its default
    converter (float_precision "high", precise_xstrtod in the tokenizer of
    pandas 2.x): it takes the first 17 digits, building the number up in a
    float by [number * 10 + digit], a multiplication and an addition that
    are rounded each (the arithmetic of x86-64, which does not fuse them),
    and scales the outcome by a power of ten, which is rounded again.
    to_csv writes a float as the shortest decimal that names it (its repr).
    Texts for infinities and numbers beyond the range of float64 are no
    numbers of the model. *)

Module FloatText.

(** The integer part of the binary logarithm of n/d, for positive n and d. *)
Definition floor_log2 (n d : Z) : Z :=
  let l := (Z.log2 n - Z.log2 d)%Z in
  if (d * 2 ^ Z.max 0 l <=? n * 2 ^ Z.max 0 (- l))%Z then l else (l - 1)%Z.

(** The float64 nearest to [x], a tie going to the even significand
    (overflow apart). *)
Definition nearest (x : Qc) : Qc :=
  let n := Z.abs (Qnum x) in
  let d := Zpos (Qden x) in
  if (n =? 0)%Z then 0%Qc
  else
    let e := Z.max (floor_log2 n d - 52) (-1074) in
    let m := round_half_even (n * 2 ^ Z.max 0 (- e)) (d * 2 ^ Z.max 0 e) in
    Q2Qc (inject_Z (Z.sgn (Qnum x) * m) * (2 # 1) ^ e).

Definition finite (x : Qc) : bool :=
  (Z.abs (Qnum x) <? 2 ^ 1024 * Zpos (Qden x))%Z.

Definition pow10 (k : Z) : Qc := Q2Qc ((10 # 1) ^ k).

Definition digit (a : ascii) : option Z :=
  let n := Z.of_N (N_of_ascii a) in
  if ((48 <=? n) && (n <=? 57))%Z then Some (n - 48)%Z else None.

Definition isspace_ascii (a : ascii) : bool :=
  let n := N_of_ascii a in ((n =? 32) || (9 <=? n) && (n <=? 13))%N.

Fixpoint skip_spaces (s : string) : string :=
  match s with
  | String a s' => if isspace_ascii a then skip_spaces s' else s
  | "" => ""
  end.

Definition sign (s : string) : bool * string :=
  match s with
  | String "-" s' => (true, s')
  | String "+" s' => (false, s')
  | _ => (false, s)
  end.

(** [number * 10. + digit] in float64. *)
Definition push (number : Qc) (d : Z) : Qc :=
  nearest (nearest (number * Q2Qc (10 # 1)) + Q2Qc (inject_Z d)).

(** The digits before the point: 17 of them are taken up, each further one
    counts as a power of ten. *)
Fixpoint integer_part (s : string) (number : Qc) (num_digits : nat)
    (exponent : Z) : Qc * nat * Z * string :=
  match s with
  | String a s' =>
      match digit a with
      | Some d =>
          if (num_digits <? 17)%nat
          then integer_part s' (push number d) (S num_digits) exponent
          else integer_part s' number num_digits (exponent + 1)
      | None => (number, num_digits, exponent, s)
      end
  | "" => (number, num_digits, exponent, s)
  end.

(** The digits after the point: taken up while fewer than 17 digits have
    been, passed over afterwards. *)
Fixpoint decimal_part (s : string) (number : Qc) (num_digits : nat)
    (num_decimals : Z) : Qc * nat * Z * string :=
  match s with
  | String a s' =>
      match digit a with
      | Some d =>
          if (num_digits <? 17)%nat
          then decimal_part s' (push number d) (S num_digits) (num_decimals + 1)
          else decimal_part s' number num_digits num_decimals
      | None => (number, num_digits, num_decimals, s)
      end
  | "" => (number, num_digits, num_decimals, s)
  end.

Fixpoint exponent_part (s : string) (n : Z) (num_digits : nat)
    : Z * nat * string :=
  match s with
  | String a s' =>
      match digit a with
      | Some d =>
          if (num_digits <? 17)%nat
          then exponent_part s' (n * 10 + d) (S num_digits)
          else (n, num_digits, s)
      | None => (n, num_digits, s)
      end
  | "" => (n, num_digits, s)
  end.

(** The scaling by the power of ten, from the table of the floats 1e0 to
    1e308. *)
Definition scale (number : Qc) (exponent : Z) : option Qc :=
  if (308 <? exponent)%Z then None
  else
    let r :=
      if (0 <? exponent)%Z then nearest (number * nearest (pow10 exponent))
      else if (exponent <? -308)%Z then
        if (exponent <? -616)%Z then 0%Qc
        else nearest (nearest (number / nearest (pow10 (-308 - exponent)))
                        / nearest (pow10 308))
      else nearest (number / nearest (pow10 (- exponent))) in
    if finite r then Some r else None.

(** The converter: the float of a field, if the whole field is a number. *)
Definition precise_xstrtod (s : string) : option Qc :=
  let '(negative, s) := sign (skip_spaces s) in
  let '(number, num_digits, exponent, s) := integer_part s 0%Qc 0 0 in
  let '(number, num_digits, exponent, s) :=
    match s with
    | String "." s' =>
        let '(number, num_digits, num_decimals, s'') :=
          decimal_part s' number num_digits 0 in
        (number, num_digits, (exponent - num_decimals)%Z, s'')
    | _ => (number, num_digits, exponent, s)
    end in
  if (num_digits =? 0)%nat then None
  else
    let number := if negative then (- number)%Qc else number in
    let '(exponent, s) :=
      match s with
      | String a s' =>
          if bool_decide (a = "e"%char ∨ a = "E"%char) then
            let '(neg, s'') := sign s' in
            let '(n, nd, rest) := exponent_part s'' 0 0 in
            if (nd =? 0)%nat then (exponent, s)
            else ((if neg then exponent - n else exponent + n)%Z, rest)
          else (exponent, s)
      | "" => (exponent, s)
      end in
    match skip_spaces s with
    | "" => scale number exponent
    | _ => None
    end.

(** The integer part of the decimal logarithm of a positive [x]. *)
Definition floor_log10 (x : Qc) : Z :=
  let g := ((floor_log2 (Qnum x) (Zpos (Qden x)) * 30103) `div` 100000)%Z in
  if bool_decide (pow10 (g + 1) ≤ x)%Qc then (g + 1)%Z
  else if bool_decide (pow10 g ≤ x)%Qc then g
  else (g - 1)%Z.

(** The decimal of [n] digits nearest to a positive [x] whose first digit
    counts 10^E: the digits as an integer and the power of ten of the last
    one. *)
Definition to_digits (n : Z) (x : Qc) (E : Z) : Z * Z :=
  let q := (E - n + 1)%Z in
  let y := (x / pow10 q)%Qc in
  (round_half_even (Qnum y) (Zpos (Qden y)), q).

(** The shortest such decimal that names [x], of at most 17 digits. *)
Fixpoint shortest (fuel : nat) (n : Z) (x : Qc) (E : Z) : Z * Z :=
  let '(D, q) := to_digits n x E in
  match fuel with
  | 0 => (D, q)
  | S fuel' =>
      if decide (nearest (Q2Qc (inject_Z D) * pow10 q) = x) then (D, q)
      else shortest fuel' (n + 1) x E
  end.

Fixpoint strip_zeros (fuel : nat) (D q : Z) : Z * Z :=
  match fuel with
  | 0 => (D, q)
  | S fuel' =>
      if ((D `mod` 10 =? 0) && negb (D =? 0))%Z
      then strip_zeros fuel' (D `div` 10) (q + 1)
      else (D, q)
  end.

Fixpoint zeros (k : nat) : string :=
  match k with 0 => "" | S k' => String "0" (zeros k') end.

(** repr of a float: the digits with the point in its place when the
    number is at least 1e-4 and below 1e16, with an exponent otherwise. *)
Definition repr (x : Qc) : string :=
  if (Qnum x =? 0)%Z then "0.0"
  else
    let a := if (Qnum x <? 0)%Z then (- x)%Qc else x in
    let '(D, q) := shortest 16 1 a (floor_log10 a) in
    let '(D, q) := strip_zeros 17 D q in
    let digits := pretty D in
    let len := Z.of_nat (String.length digits) in
    let decpt := (len + q)%Z in
    (if (Qnum x <? 0)%Z then "-" else "") +:+
    (if ((-4 <? decpt) && (decpt <=? 16))%Z then
       if (decpt <=? 0)%Z then "0." +:+ zeros (Z.to_nat (- decpt)) +:+ digits
       else if (len <=? decpt)%Z
            then digits +:+ zeros (Z.to_nat (decpt - len)) +:+ ".0"
            else substring 0 (Z.to_nat decpt) digits +:+ "." +:+
                 substring (Z.to_nat decpt) (Z.to_nat (len - decpt)) digits
     else
       substring 0 1 digits +:+
       (if (1 <? len)%Z then "." +:+ substring 1 (Z.to_nat (len - 1)) digits
        else "") +:+
       "e" +:+ (if (decpt - 1 <? 0)%Z then "-" else "+") +:+
       IsoText.pad_left 2 (pretty (Z.abs (decpt - 1)))).

End FloatText.

(** pandas with float64 numbers and ISO dates. *)
Definition float_text (v : PandasVersion) : TextLayer :=
  iso_dated v FloatText.precise_xstrtod FloatText.repr.

(** The sum of fewer than eight floats as numpy computes it: from the left,
    every addition rounded. *)
Definition float_sum (xs : list Qc) : Qc :=
  foldl (λ acc x, FloatText.nearest (acc + x)%Qc) 0%Qc xs.

(** The floats of the literals 0.1, 0.2 and 0.7. *)
Definition tenths : list Qc :=
  FloatText.nearest <$> [Q2Qc (1 # 10); Q2Qc (2 # 10); Q2Qc (7 # 10)].

(** A revenue field of 17 digits. *)
Definition long_float_file : CsvFile :=
  {| header := REQUIRED_COLUMNS;
     lines :=
       [ ["2024-01-01"; "A"; "2"; "50"; "East"; "web"; "retail";
          "20596.665323219833"] ] |}.

(** The texts to_csv writes for the revenue column of a table. *)
Definition revenue_texts `{TextLayer} (df : DataFrame) : option (list string) :=
  (λ xs : list Cell, to_csv_cell <$> xs) <$> data df !! "revenue".



(** * Properties *)

(** ** The exception monad and loops *)

Lemma bind_Ok {A B} (m : Result A) (f : A → Result B) (b : B) :
  m ≫= f = Ok b ↔ ∃ a, m = Ok a ∧ f a = Ok b.
Proof.
  destruct m as [a|e]; cbn.
  - split; [eauto | by intros (a' & [= ->] & ?)].
  - split; [done | by intros (a' & ? & ?)].
Qed.

Lemma mapM_Ok_fmap {A B} (f : A → Result B) (g : A → B) (xs : list A) :
  Forall (λ x, f x = Ok (g x)) xs → mapM f xs = Ok (g <$> xs).
Proof.
  induction 1 as [|x xs Hx _ IH]; [done|].
  cbn. rewrite Hx. cbn. by rewrite IH.
Qed.

Lemma mapM_Ok_inv {A B} (f : A → Result B) (xs : list A) (ys : list B) :
  mapM f xs = Ok ys → Forall2 (λ x y, f x = Ok y) xs ys.
Proof.
  revert ys. induction xs as [|x xs IH]; intros ys; cbn.
  - intros [= <-]. constructor.
  - destruct (f x) as [y|e] eqn:Hx; cbn; [|done].
    destruct (mapM f xs) as [ys'|e] eqn:Hxs; cbn; [|done].
    intros [= <-]. constructor; auto.
Qed.

(** ** str.strip is idempotent *)

Lemma rstrip_idemp (s : string) : rstrip (rstrip s) = rstrip s.
Proof.
  induction s as [|a s IH]; [done|].
  cbn. destruct (rstrip s) as [|b r] eqn:E.
  - destruct (isspace a) eqn:Ha; [done|]. cbn. by rewrite Ha.
  - cbn. cbn in IH. by rewrite IH.
Qed.

Lemma lstrip_head (s : string) :
  lstrip s = "" ∨ ∃ a r, lstrip s = String a r ∧ isspace a = false.
Proof.
  induction s as [|a s IH]; [by left|].
  cbn. destruct (isspace a) eqn:Ha; [done|]. right. eauto.
Qed.

Lemma lstrip_rstrip_head (a : ascii) (r : string) :
  isspace a = false → lstrip (rstrip (String a r)) = rstrip (String a r).
Proof.
  intros Ha. cbn. destruct (rstrip r); rewrite ?Ha; cbn; by rewrite Ha.
Qed.

Lemma strip_idemp (s : string) : strip (strip s) = strip s.
Proof.
  unfold strip. destruct (lstrip_head s) as [->|(a & r & -> & Ha)]; [done|].
  rewrite lstrip_rstrip_head by done. apply rstrip_idemp.
Qed.

(** ** The validator *)

Lemma REQUIRED_COLUMNS_NoDup : NoDup REQUIRED_COLUMNS.
Proof. compute_done. Qed.

(** C2: the validator answers [true] exactly when every required column is a
    column of the table; the list it reports holds exactly the required names
    that are absent, in the order of [REQUIRED_COLUMNS] (it is a subsequence
    of that list, whatever the order of the table's columns), and is empty
    exactly when the answer is [true].  The validator is a total function: it
    returns a pair and has no exceptional outcome. *)
Theorem check_required_columns_spec (df : DataFrame) :
  ((_check_required_columns df).1 = true ↔
     ∀ c, c ∈ REQUIRED_COLUMNS → c ∈ columns df) ∧
  (∀ c, c ∈ (_check_required_columns df).2 ↔
     c ∈ REQUIRED_COLUMNS ∧ c ∉ columns df) ∧
  sublist (_check_required_columns df).2 REQUIRED_COLUMNS ∧
  NoDup (_check_required_columns df).2 ∧
  ((_check_required_columns df).1 = true ↔ (_check_required_columns df).2 = []).
Proof.
  unfold _check_required_columns; cbn [fst snd].
  set (missing := filter _ REQUIRED_COLUMNS).
  assert (Hin : ∀ c, c ∈ missing ↔ c ∈ REQUIRED_COLUMNS ∧ c ∉ columns df).
  { intros c. unfold missing. rewrite list_elem_of_filter. tauto. }
  assert (Hnil : bool_decide (length missing = 0) = true ↔ missing = []).
  { rewrite bool_decide_eq_true. split; [apply nil_length_inv | by intros ->]. }
  split_and!.
  - rewrite Hnil. split.
    + intros Hm c Hc. destruct (decide (c ∈ columns df)) as [|Hn]; [done|].
      assert (c ∈ missing) as Hc' by (apply Hin; done).
      rewrite Hm in Hc'. by apply elem_of_nil in Hc'.
    + intros Hall. destruct missing as [|c l] eqn:E; [done|].
      assert (c ∈ c :: l) as [Hc Hn]%Hin by left. by destruct Hn; apply Hall.
  - exact Hin.
  - apply sublist_filter.
  - apply NoDup_filter, REQUIRED_COLUMNS_NoDup.
  - exact Hnil.
Qed.

(** ** Normalisation *)

Lemma setitem_data_eq df c xs : data (setitem df c xs) !! c = Some xs.
Proof. unfold setitem. cbn [data]. apply lookup_insert_eq. Qed.

Lemma setitem_data_ne df c xs c' :
  c ≠ c' → data (setitem df c xs) !! c' = data df !! c'.
Proof. intros. unfold setitem. cbn [data]. by apply lookup_insert_ne. Qed.

Ltac setitem_lookups :=
  repeat first [ rewrite setitem_data_eq in *
               | rewrite setitem_data_ne in * by discriminate ].

Section Normalize.
Context `{TextLayer}.


Lemma step_Ok f c df df' :
  step f c df = Ok df' ↔
  ∃ xs, data df !! c = Some xs ∧ df' = setitem df c (f xs).
Proof.
  unfold step, getitem. destruct (data df !! c) as [xs|]; cbn.
  - split; [intros [= <-]; eauto | by intros (? & [= <-] & ->)].
  - split; [done | by intros (? & ? & ?)].
Qed.

Lemma normalize_steps df :
  normalize df =
    df ← step to_numeric_coerce "units" df;
    df ← step to_numeric_coerce "unit_price" df;
    df ← step to_numeric_coerce "revenue" df;
    df ← step normalize_category "category" df;
    df ← step normalize_category "region" df;
    df ← step normalize_category "sales_channel" df;
    df ← step normalize_category "customer_segment" df;
    xs ← getitem df "date";
    ts ← to_datetime xs;
    Ok (setitem df "date" (dt_normalize (tz_localize_none ts))).
Proof.
  unfold normalize, _normalize_categoricals, step, normalize_category. cbn [for_].
  repeat (match goal with
          | |- context [getitem ?d ?c] =>
              destruct (getitem d c) as [?|?] eqn:?; cbn [mbind Result_bind]
          end; [|done]).
  destruct (to_datetime _); reflexivity.
Qed.

(** What [normalize] returns, column by column. *)
Lemma normalize_Ok df df' :
  normalize df = Ok df' ↔
  ∃ u p r c1 c2 c3 c4 d ts,
    data df !! "units" = Some u ∧ data df !! "unit_price" = Some p ∧
    data df !! "revenue" = Some r ∧ data df !! "category" = Some c1 ∧
    data df !! "region" = Some c2 ∧ data df !! "sales_channel" = Some c3 ∧
    data df !! "customer_segment" = Some c4 ∧ data df !! "date" = Some d ∧
    to_datetime d = Ok ts ∧
    df' = setitem (setitem (setitem (setitem (setitem (setitem (setitem (setitem df
            "units" (to_numeric_coerce u))
            "unit_price" (to_numeric_coerce p))
            "revenue" (to_numeric_coerce r))
            "category" (normalize_category c1))
            "region" (normalize_category c2))
            "sales_channel" (normalize_category c3))
            "customer_segment" (normalize_category c4))
            "date" (dt_normalize ts).
Proof.
  rewrite normalize_steps. split.
  - intros Hn.
    repeat (apply bind_Ok in Hn as (? & (? & ? & ->)%step_Ok & Hn)).
    apply bind_Ok in Hn as (d & Hd & Hn). apply bind_Ok in Hn as (ts & Hts & [= <-]).
    unfold getitem in Hd. setitem_lookups.
    destruct (data df !! "date") eqn:?; [|done]. simplify_eq.
    do 9 eexists. split_and!; try done.
  - intros (u & p & r & c1 & c2 & c3 & c4 & d & ts & Hu & Hp & Hr & H1 & H2 & H3 & H4 & Hd & Hts & ->).
    unfold step, getitem.
    repeat (setitem_lookups; rewrite ?Hu, ?Hp, ?Hr, ?H1, ?H2, ?H3, ?H4, ?Hd; cbn [mbind Result_bind]).
    rewrite Hts. done.
Qed.

Lemma elem_of_add_column cols c c' :
  c' ∈ add_column cols c ↔ c' ∈ cols ∨ c' = c.
Proof.
  unfold add_column. case_decide.
  - split; [by left | by intros [?| ->]].
  - rewrite elem_of_app, list_elem_of_singleton. done.
Qed.

Lemma setitem_id df c xs :
  c ∈ columns df → data df !! c = Some xs → setitem df c xs = df.
Proof.
  intros Hc Hxs. destruct df as [cols d n]. unfold setitem. cbn in *.
  f_equal.
  - unfold add_column. by rewrite decide_True.
  - by apply insert_id.
Qed.

Lemma setitem_columns df c xs c' :
  c' ∈ columns (setitem df c xs) ↔ c' ∈ columns df ∨ c' = c.
Proof. apply elem_of_add_column. Qed.

Lemma to_numeric_coerce_idemp xs :
  to_numeric_coerce (to_numeric_coerce xs) = to_numeric_coerce xs.
Proof.
  unfold to_numeric_coerce. rewrite <- list_fmap_compose.
  apply list_fmap_ext. intros _ [s|x|t|m] _; unfold compose; try done.
  by destruct (parse_number s).
Qed.

Lemma normalize_category_idemp xs :
  normalize_category (normalize_category xs) = normalize_category xs.
Proof.
  unfold normalize_category, str_strip, astype_str.
  rewrite <- !list_fmap_compose.
  apply list_fmap_ext. intros _ c _. unfold compose.
  destruct c as [s|x|t|m]; try (by rewrite strip_idemp).
  destruct pandas_version; [by rewrite strip_idemp|done].
Qed.

Lemma dt_normalize_idemp xs : dt_normalize (dt_normalize xs) = dt_normalize xs.
Proof.
  unfold dt_normalize. rewrite <- list_fmap_compose.
  apply list_fmap_ext. intros _ [s|x|t|m] _; unfold compose; try done.
  by rewrite Z.div_mul.
Qed.

Lemma to_datetime_like xs ts : to_datetime xs = Ok ts → Forall datetime_like ts.
Proof.
  intros Hf%mapM_Ok_inv. induction Hf as [|x y xs ys Hxy _ IH]; constructor; [|done].
  destruct x as [s|x|t|m]; cbn in Hxy; simplify_eq; try done.
  case_decide; simplify_eq; [done|]. destruct (parse_datetime s); by simplify_eq.
Qed.

Lemma to_datetime_accepted ts :
  Forall datetime_like ts → to_datetime ts = Ok ts.
Proof.
  intros Hts. unfold to_datetime.
  rewrite (mapM_Ok_fmap _ id); [by rewrite list_fmap_id|].
  eapply Forall_impl; [done|]. by intros [s|x|t|[]].
Qed.

Lemma dt_normalize_like ts :
  Forall datetime_like ts → Forall datetime_like (dt_normalize ts).
Proof.
  unfold dt_normalize. rewrite Forall_fmap. intros Hts.
  eapply Forall_impl; [done|]. by intros [s|x|t|[]].
Qed.

(** C4: normalisation is idempotent.  Running [normalize] on its own result
    returns that result unchanged; when the first run raises (a required
    column is absent, or a date text is no date) there is no table to
    normalise again and the composite raises the same exception. *)
Theorem normalize_idempotent (df : DataFrame) :
  normalize df ≫= normalize = normalize df.
Proof.
  destruct (normalize df) as [df'|e] eqn:Hn; [|done]. cbn [mbind Result_bind].
  apply normalize_Ok in Hn
    as (u & p & r & c1 & c2 & c3 & c4 & d & ts & Hu & Hp & Hr & H1 & H2 & H3 & H4 & Hd & Hts & Hdf).
  pose proof (to_datetime_like _ _ Hts) as Hlike.
  assert (∀ c, c ∈ REQUIRED_COLUMNS → c ∈ columns df') as Hcols.
  { intros c Hc. subst df'. rewrite !setitem_columns.
    unfold REQUIRED_COLUMNS in Hc. rewrite !elem_of_cons, elem_of_nil in Hc. tauto. }
  assert (data df' !! "units" = Some (to_numeric_coerce u) ∧
          data df' !! "unit_price" = Some (to_numeric_coerce p) ∧
          data df' !! "revenue" = Some (to_numeric_coerce r) ∧
          data df' !! "category" = Some (normalize_category c1) ∧
          data df' !! "region" = Some (normalize_category c2) ∧
          data df' !! "sales_channel" = Some (normalize_category c3) ∧
          data df' !! "customer_segment" = Some (normalize_category c4) ∧
          data df' !! "date" = Some (dt_normalize ts))
    as (Hu' & Hp' & Hr' & H1' & H2' & H3' & H4' & Hd').
  { subst df'. split_and!; by setitem_lookups. }
  clear Hdf. apply normalize_Ok.
  eexists _, _, _, _, _, _, _, _, (dt_normalize ts).
  split_and!; try done.
  - by apply to_datetime_accepted, dt_normalize_like.
  - rewrite !to_numeric_coerce_idemp, !normalize_category_idemp, dt_normalize_idemp.
    assert (∀ c xs, c ∈ REQUIRED_COLUMNS → data df' !! c = Some xs →
                    setitem df' c xs = df') as Hid.
    { intros. apply setitem_id; auto. }
    rewrite !Hid; try done; unfold REQUIRED_COLUMNS; rewrite !elem_of_cons; tauto.
Qed.
End Normalize.

(** ** KPIs *)

Lemma series_sum_from (xs : list Cell) (acc : Qc) :
  Forall numeric_like xs →
  for_ xs (λ acc c, match c with
                    | Num x => Ok (acc + x)%Qc
                    | Miss _ => Ok acc
                    | _ => Raise TypeError
                    end) acc = Ok (acc + sum_present xs)%Qc.
Proof.
  intros Hxs. revert acc. induction Hxs as [|c xs Hc _ IH]; intros acc; cbn [for_ sum_present foldr].
  - by rewrite Qcplus_0_r.
  - destruct c as [s|x|t|[]]; try done; cbn [mbind Result_bind]; rewrite IH; [|done].
    by rewrite Qcplus_assoc.
Qed.

Lemma series_sum_numeric xs :
  Forall numeric_like xs → series_sum xs = Ok (sum_present xs).
Proof.
  intros Hxs. unfold series_sum. rewrite series_sum_from by done.
  by rewrite Qcplus_0_l.
Qed.

Lemma dropna_numeric_like xs :
  Forall numeric_like xs → Forall numeric_like (dropna xs).
Proof.
  rewrite !Forall_forall. intros Hxs c Hc. apply Hxs.
  unfold dropna in Hc. by apply list_elem_of_filter in Hc as [_ ?].
Qed.

Lemma sum_present_dropna xs : sum_present (dropna xs) = sum_present xs.
Proof.
  induction xs as [|c xs IH]; [done|].
  unfold dropna, sum_present in *. rewrite filter_cons.
  case_decide as Hc; cbn [foldr]; rewrite ?IH; [done|].
  by destruct c.
Qed.

Lemma dropna_idemp xs : dropna (dropna xs) = dropna xs.
Proof.
  unfold dropna. induction xs as [|c xs IH]; [done|].
  rewrite filter_cons. case_decide; [|done]. rewrite filter_cons, decide_True by done.
  by rewrite IH.
Qed.

Lemma compute_kpis_numeric df revenue units category :
  data df !! "revenue" = Some revenue → data df !! "units" = Some units →
  data df !! "category" = Some category →
  Forall numeric_like revenue → Forall numeric_like units →
  compute_kpis df =
    Ok {| total_revenue := int (sum_present revenue);
          total_units := int (sum_present units);
          n_categories := Z.of_nat (length (remove_dups (dropna category))) |}.
Proof.
  intros Hr Hu Hc Hnr Hnu. unfold compute_kpis, getitem. rewrite Hr, Hu, Hc.
  cbn [mbind Result_bind].
  rewrite !series_sum_numeric by by apply dropna_numeric_like.
  cbn [mbind Result_bind]. unfold nunique.
  by rewrite !sum_present_dropna, dropna_idemp.
Qed.

(** [int] is the integer part towards zero. *)
Lemma int_towards_zero (x : Qc) :
  ((0 <= x → inject_Z (int x) <= x ∧ x < inject_Z (int x) + 1) ∧
   (x <= 0 → inject_Z (int x) - 1 < x ∧ x <= inject_Z (int x)))%Q.
Proof.
  destruct x as [[n d] Hc]. unfold int. cbn [this Qnum Qden].
  cbv [Qle Qlt inject_Z Qplus Qminus Qopp Qnum Qden].
  pose proof (Z.quot_rem' n (Zpos d)) as Hq.
  split; intros Hn.
  - assert (0 ≤ n)%Z as Hn' by lia.
    pose proof (Z.rem_bound_pos_pos n (Zpos d) ltac:(lia) Hn').
    rewrite ?Pos.mul_1_r. lia.
  - assert (n ≤ 0)%Z as Hn' by lia.
    pose proof (Z.rem_bound_pos_neg n (Zpos d) ltac:(lia) Hn').
    rewrite ?Pos.mul_1_r. lia.
Qed.

(** C7 (as amended): on a table whose revenue and units columns are numeric
    and add up exactly in binary floating point (each a column of multiples
    of some 2^-k whose absolute values add up to at most 2^53 of them)
    [compute_kpis] succeeds; total_revenue is the sum of the revenue values
    that are not missing with its fraction cut off (towards zero, not to the
    nearest integer), total_units is the sum of the units values that are
    not missing cut off the same way (so it is that sum whenever the sum is
    an integer), and n_categories is the number of distinct category values
    that are not missing.  On the three example rows the result is
    300, 6 and 2. *)
Theorem compute_kpis_sums df revenue units category (kr ku : Z) :
  data df !! "revenue" = Some revenue → data df !! "units" = Some units →
  data df !! "category" = Some category →
  Forall numeric_like revenue → Forall numeric_like units →
  adds_exactly kr revenue = true → adds_exactly ku units = true →
  (∃ k, compute_kpis df = Ok k ∧
        truncates (sum_present revenue) (total_revenue k) ∧
        truncates (sum_present units) (total_units k) ∧
        (Qden (sum_present units) = 1%positive →
         (inject_Z (total_units k) == sum_present units)%Q) ∧
        n_categories k = Z.of_nat (length (remove_dups (dropna category)))) ∧
  compute_kpis spec_rows =
    Ok {| total_revenue := 300; total_units := 6; n_categories := 2 |}.
Proof.
  intros Hr Hu Hc Hnr Hnu _ _. split; [|by vm_compute].
  eexists. split; [by eapply compute_kpis_numeric|]. cbn [total_revenue total_units n_categories].
  split_and!; try apply int_towards_zero; [|done].
  intros Hden. unfold int. rewrite Hden, Z.quot_1_r.
  destruct (sum_present units) as [[n d] ?]. cbn in *. subst d. reflexivity.
Qed.

Lemma compute_kpis_sums_witness :
  ∃ k, compute_kpis spec_rows = Ok k ∧
       truncates (sum_present [num 100; num 50; num 150]) (total_revenue k).
Proof.
  destruct (compute_kpis_sums spec_rows
              [num 100; num 50; num 150] [num 2; num 1; num 3]
              [Str "A"; Str "B"; Str "A"] 0 0) as [(k & Hk & Hrev & _) _].
  - reflexivity.
  - reflexivity.
  - reflexivity.
  - repeat constructor.
  - repeat constructor.
  - reflexivity.
  - reflexivity.
  - exists k. split; assumption.
Defined.

(** C7, counterexample: with one row of revenue 0.75 and units 1.5, both
    floats that are added exactly, the total revenue is 0, which is no
    nearest integer of 0.75, and the total units is 1, which is not the sum
    1.5.  And where floats are not added exactly the total is not even the
    integer part of the sum: the floats of 0.1, 0.2 and 0.7, added in this
    order as float64 adds them, give 1, while their sum is below 1. *)
Lemma compute_kpis_truncates_fractions :
  (adds_exactly 2 [Num (Q2Qc (3 # 4))] = true ∧
   adds_exactly 1 [Num (Q2Qc (3 # 2))] = true ∧
   ∃ k, compute_kpis fraction_table = Ok k ∧
        ¬ rounds_to_nearest (sum_present [Num (Q2Qc (3 # 4))]) (total_revenue k) ∧
        ¬ (inject_Z (total_units k) == sum_present [Num (Q2Qc (3 # 2))])%Q) ∧
  (int (float_sum tenths) = 1%Z ∧ int (sum_present (Num <$> tenths)) = 0%Z ∧
   adds_exactly 56 (Num <$> tenths) = false).
Proof.
  split; [|split_and!; by vm_compute].
  split; [reflexivity|]. split; [reflexivity|].
  exists {| total_revenue := 0; total_units := 1; n_categories := 1 |}.
  split; [by vm_compute|]. split.
  - unfold rounds_to_nearest. vm_compute. intros Hle. by apply Hle.
  - vm_compute. discriminate.
Qed.

(** ** Aggregates of an empty table *)

Lemma wf_column_empty df c :
  wf df → nrows df = 0 → c ∈ columns df → data df !! c = Some [].
Proof.
  intros [Hdom Hlen] Hn [xs Hxs]%Hdom. rewrite Hxs. f_equal.
  apply nil_length_inv. rewrite <- Hn. eauto.
Qed.

(** C6 (as amended): on a table without rows [compute_kpis] returns 0, 0
    and 0, and both chart builders return [None], no figure and no grouped
    sequence; none of the three raises. *)
Theorem aggregates_on_empty_table (df : DataFrame) :
  wf df → nrows df = 0 →
  "revenue" ∈ columns df → "units" ∈ columns df → "category" ∈ columns df →
  compute_kpis df =
    Ok {| total_revenue := 0; total_units := 0; n_categories := 0 |} ∧
  chart_category_revenue df = Ok None ∧
  chart_daily_revenue df = Ok None.
Proof.
  intros Hwf Hn Hr Hu Hc. split_and!.
  - rewrite (compute_kpis_numeric df [] [] []); auto using wf_column_empty.
  - unfold chart_category_revenue, df_empty. by rewrite Hn.
  - unfold chart_daily_revenue, df_empty. by rewrite Hn.
Qed.

Lemma empty_table_wf : wf empty_table.
Proof.
  split.
  - intros c. change (columns empty_table) with REQUIRED_COLUMNS.
    unfold REQUIRED_COLUMNS. rewrite !elem_of_cons, elem_of_nil.
    split.
    + intros Hc. repeat destruct Hc as [->|Hc]; try done; by eexists.
    + intros [xs Hxs]. 
      apply elem_of_list_to_map_2 in Hxs. cbn in Hxs.
      rewrite !elem_of_cons, elem_of_nil in Hxs.
      repeat destruct Hxs as [Hxs|Hxs]; simplify_eq; tauto.
  - intros c xs Hxs. apply elem_of_list_to_map_2 in Hxs. cbn in Hxs.
    rewrite !elem_of_cons, elem_of_nil in Hxs.
    repeat destruct Hxs as [Hxs|Hxs]; by simplify_eq.
Qed.

Lemma aggregates_on_empty_table_witness :
  compute_kpis empty_table =
    Ok {| total_revenue := 0; total_units := 0; n_categories := 0 |} ∧
  chart_category_revenue empty_table = Ok None ∧
  chart_daily_revenue empty_table = Ok None.
Proof.
  apply (aggregates_on_empty_table empty_table).
  - exact empty_table_wf.
  - reflexivity.
  - unfold empty_table, frame, REQUIRED_COLUMNS; cbn [columns fmap list_fmap fst]. set_solver.
  - unfold empty_table, frame, REQUIRED_COLUMNS; cbn [columns fmap list_fmap fst]. set_solver.
  - unfold empty_table, frame, REQUIRED_COLUMNS; cbn [columns fmap list_fmap fst]. set_solver.
Defined.

(** C6, counterexample: on the empty table neither chart builder yields an
    empty sequence; the guard on [df.empty] makes both return [None]. *)
Lemma charts_on_empty_table_are_absent :
  chart_category_revenue empty_table ≠ Ok (Some []) ∧
  chart_daily_revenue empty_table ≠ Ok (Some []).
Proof. split; by vm_compute. Qed.

(** ** Categorical columns after normalisation *)

Section Categoricals.
Context `{TextLayer}.

Lemma normalize_category_like xs : Forall text_like (normalize_category xs).
Proof.
  unfold normalize_category, str_strip, astype_str. rewrite <- list_fmap_compose.
  apply Forall_fmap, Forall_true. intros c. unfold compose.
  destruct c as [s|x|t|m]; try done. by destruct pandas_version.
Qed.




Lemma to_numeric_coerce_like xs : Forall numeric_like (to_numeric_coerce xs).
Proof.
  unfold to_numeric_coerce. apply Forall_fmap, Forall_true.
  intros [s|x|t|m]; unfold compose; try done. by destruct (parse_number s).
Qed.


Lemma normalize_columns df df' :
  normalize df = Ok df' →
  (∀ c, c ∈ ["units"; "unit_price"; "revenue"] →
        ∃ xs, data df !! c = Some xs ∧ data df' !! c = Some (to_numeric_coerce xs)) ∧
  (∀ c, c ∈ CATEGORICAL_COLUMNS →
        ∃ xs, data df !! c = Some xs ∧ data df' !! c = Some (normalize_category xs)) ∧
  (∃ xs ts, data df !! "date" = Some xs ∧ to_datetime xs = Ok ts ∧
            data df' !! "date" = Some (dt_normalize ts)) ∧
  (∀ c, c ∉ REQUIRED_COLUMNS → data df' !! c = data df !! c) ∧
  nrows df' = nrows df ∧
  (∀ c, c ∈ columns df' ↔ c ∈ columns df ∨ c ∈ REQUIRED_COLUMNS).
Proof.
  intros (u & p & r & c1 & c2 & c3 & c4 & d & ts & Hu & Hp & Hr & H1 & H2 & H3 & H4 & Hd & Hts & ->)%normalize_Ok.
  split_and!.
  - intros c Hc. rewrite !elem_of_cons, elem_of_nil in Hc.
    destruct Hc as [->|[->|[->|[]]]]; eexists; (split; [done|]); by setitem_lookups.
  - intros c Hc. unfold CATEGORICAL_COLUMNS in Hc. rewrite !elem_of_cons, elem_of_nil in Hc.
    destruct Hc as [->|[->|[->|[->|[]]]]]; eexists; (split; [done|]); by setitem_lookups.
  - exists d, ts. split_and!; try done. by setitem_lookups.
  - intros c Hc. unfold REQUIRED_COLUMNS in Hc. rewrite !elem_of_cons, elem_of_nil in Hc.
    rewrite !setitem_data_ne; [done|..]; intros <-; tauto.
  - done.
  - intros c. rewrite !setitem_columns. unfold REQUIRED_COLUMNS.
    rewrite !elem_of_cons, elem_of_nil. tauto.
Qed.

End Categoricals.



(** ** Range filter *)

(** A frame built from distinct column names and columns of one length is
    well formed. *)
Lemma wf_frame (cols : list (string * list Cell)) (n : nat) :
  NoDup cols.*1 → Forall (λ p, length p.2 = n) cols → wf (frame cols n).
Proof.
  intros Hnd Hlen. split; cbn.
  - intros c. rewrite list_elem_of_fmap. split.
    + intros ([c' xs] & -> & Hin). exists xs. by apply elem_of_list_to_map_1.
    + intros [xs Hxs]. exists (c, xs). split; [done|].
      by apply elem_of_list_to_map_2.
  - intros c xs Hxs%elem_of_list_to_map_2.
    rewrite Forall_forall in Hlen. by apply (Hlen (c, xs)).
Qed.

Lemma compare_with_like op xs bound :
  Forall datetime_like xs →
  compare_with op xs bound =
    Ok ((λ c, match c with Time t => op t bound | _ => false end) <$> xs).
Proof.
  intros Hxs. unfold compare_with. apply mapM_Ok_fmap.
  eapply Forall_impl; [done|]. by intros [s|x|t|[]].
Qed.

Lemma length_select {A B} (mask : list bool) (xs : list A) (ys : list B) :
  length xs = length mask → length ys = length mask →
  length (select mask xs) = length (select mask ys).
Proof.
  revert xs ys. induction mask as [|b mask IH]; intros [|x xs] [|y ys]; try done.
  cbn. intros [= Hx] [= Hy]. destruct b; cbn; auto.
Qed.

Lemma select_fmap_filter {A} (P : A → Prop) `{!∀ x, Decision (P x)} (xs : list A) :
  select ((λ x, bool_decide (P x)) <$> xs) xs = filter P xs.
Proof.
  induction xs as [|x xs IH]; [done|].
  rewrite fmap_cons, filter_cons. cbn [select]. rewrite IH.
  destruct (decide (P x)); [by rewrite bool_decide_eq_true_2 | by rewrite bool_decide_eq_false_2].
Qed.

Lemma rows_of_select (mask : list bool) (d : gmap string (list Cell)) :
  (∀ c xs, d !! c = Some xs → length xs = length mask) →
  rows_of (length (select mask mask)) (select mask <$> d) =
  select mask (rows_of (length mask) d).
Proof.
  revert d. induction mask as [|b mask IH]; intros d Hlen; [done|].
  assert (Htl : ∀ c xs, (tl <$> d) !! c = Some xs → length xs = length mask).
  { intros c xs. rewrite lookup_fmap.
    destruct (d !! c) as [ys|] eqn:Hc; [|done]. intros [= <-].
    apply Hlen in Hc. destruct ys; cbn in *; lia. }
  assert (Hsel : ∀ b', select (b' :: mask) <$> d =
            (if b' then λ xs, hd (Miss NaN) xs :: select mask (tl xs)
             else λ xs, select mask (tl xs)) <$> d).
  { intros b'. apply map_fmap_ext. intros c xs Hc. apply Hlen in Hc.
    destruct xs as [|x xs]; [done|]. by destruct b'. }
  rewrite Hsel. destruct b; cbn [select length rows_of].
  - rewrite <- (IH _ Htl), <- !map_fmap_compose. done.
  - rewrite <- (IH _ Htl), <- map_fmap_compose. done.
Qed.

Lemma rows_of_column (n : nat) (d : gmap string (list Cell)) c xs :
  d !! c = Some xs → length xs = n →
  (λ r : gmap string Cell, r !!! c) <$> rows_of n d = xs.
Proof.
  revert d xs. induction n as [|n IH]; intros d xs Hc Hlen.
  - by destruct xs.
  - destruct xs as [|x xs]; [done|]. cbn.
    rewrite (IH (tl <$> d) xs).
    + rewrite lookup_total_alt, lookup_fmap, Hc. done.
    + by rewrite lookup_fmap, Hc.
    + cbn in Hlen. lia.
Qed.

Lemma length_rows_of n d : length (rows_of n d) = n.
Proof. revert d. induction n; intros d; cbn; auto. Qed.

(** The filter keeps the rows whose date passes both bound tests, in the
    order of the table. *)
Lemma apply_date_filter_records df dr dates :
  wf df → data df !! "date" = Some dates → Forall datetime_like dates →
  ∃ out, apply_date_filter df dr = Ok out ∧
         columns out = columns df ∧ wf out ∧
         records out = filter (λ r, in_range dr (r !!! "date")) (records df).
Proof.
  intros [Hdom Hlen] Hdate Hlike.
  unfold apply_date_filter, getitem. rewrite Hdate. cbn [mbind Result_bind].
  rewrite !compare_with_like by done. cbn [mbind Result_bind].
  set (mask := zip_with andb _ _).
  assert (Hmask : mask = (λ r : gmap string Cell, bool_decide (in_range dr (r !!! "date")))
                           <$> records df).
  { unfold mask, records.
    rewrite <- (rows_of_column (nrows df) (data df) "date" dates) at 1 2 by eauto.
    rewrite zip_with_fmap_l, zip_with_fmap_r, zip_with_diag, <- !list_fmap_compose.
    apply list_fmap_ext. intros _ r _. unfold compose.
    destruct (r !!! "date") as [s|x|t|m]; cbn; try done.
    rewrite Z.geb_leb.
    destruct (Z.leb_spec (start dr) t), (Z.leb_spec t (end_ dr)); cbn; symmetry;
      first [ apply bool_decide_eq_true | apply bool_decide_eq_false ]; cbn; lia. }
  assert (Hml : length mask = nrows df).
  { rewrite Hmask, length_fmap. apply length_rows_of. }
  eexists. split; [done|]. split; [done|]. split.
  - split; cbn.
    + intros c. rewrite Hdom, lookup_fmap. by rewrite fmap_is_Some.
    + intros c xs. rewrite lookup_fmap.
      destruct (data df !! c) as [ys|] eqn:Hc; [|done]. intros [= <-].
      apply length_select; [|done]. rewrite Hml. eauto.
  - unfold records at 1. cbn [nrows data loc].
    rewrite rows_of_select by (intros; rewrite Hml; eauto).
    rewrite Hml. fold (records df). rewrite Hmask. apply select_fmap_filter.
Qed.

Lemma filter_none {A} (P : A → Prop) `{!∀ x, Decision (P x)} (l : list A) :
  (∀ x, x ∈ l → ¬ P x) → filter P l = [].
Proof.
  induction l as [|x l IH]; intros Hl; [done|].
  rewrite filter_cons, decide_False by (apply Hl; left).
  apply IH. intros y Hy. apply Hl. by right.
Qed.

(** C3: on a table whose date column holds timestamps and [NaT], the filter
    returns (without raising) exactly the rows whose date is present and
    satisfies start <= date <= end, in the order of the input.  Both bounds
    are inclusive: a row dated [start] or [end] is kept, a row dated one day
    before [start] or one day after [end] is not, and no kept row has a
    missing date. *)
Theorem apply_date_filter_spec (df : DataFrame) (dr : DateRange)
    (dates : list Cell) :
  wf df → data df !! "date" = Some dates → Forall datetime_like dates →
  ∃ out, apply_date_filter df dr = Ok out ∧
    records out = filter (λ r, in_range dr (r !!! "date")) (records df) ∧
    sublist (records out) (records df) ∧
    (∀ r, r ∈ records out ↔
          r ∈ records df ∧
          ∃ t, r !!! "date" = Time t ∧ (start dr ≤ t ≤ end_ dr)%Z) ∧
    (∀ r, r ∈ records df → (start dr ≤ end_ dr)%Z →
          r !!! "date" = Time (start dr) ∨ r !!! "date" = Time (end_ dr) →
          r ∈ records out) ∧
    (∀ r, r ∈ records out →
          r !!! "date" ≠ Time (start dr - DAY) ∧
          r !!! "date" ≠ Time (end_ dr + DAY) ∧
          isna (r !!! "date") = false).
Proof.
  intros Hwf Hdate Hlike.
  destruct (apply_date_filter_records df dr dates Hwf Hdate Hlike)
    as (out & Hout & _ & _ & Hrec).
  exists out. split; [done|]. split; [done|].
  assert (Hin : ∀ r, r ∈ records out ↔
            r ∈ records df ∧
            ∃ t, r !!! "date" = Time t ∧ (start dr ≤ t ≤ end_ dr)%Z).
  { intros r. rewrite Hrec, list_elem_of_filter. unfold in_range. split.
    - intros [Hp Hr]. split; [done|].
      destruct (r !!! "date") as [s|x|t|m]; try done. by exists t.
    - intros (Hr & t & -> & Hle). done. }
  split_and!.
  - rewrite Hrec. apply sublist_filter.
  - exact Hin.
  - intros r Hr Hle [Hd|Hd]; apply Hin; (split; [done|]); eexists; (split; [done|]); lia.
  - intros r (_ & t & Ht & Hle)%Hin. rewrite Ht. unfold DAY.
    split_and!; [intros [= ->]; lia | intros [= ->]; lia | done].
Qed.

Lemma apply_date_filter_spec_witness :
  wf spec_rows ∧
  data spec_rows !! "date" =
    Some [Time D_2024_01_01; Time D_2024_01_01; Time D_2024_01_02] ∧
  Forall datetime_like [Time D_2024_01_01; Time D_2024_01_01; Time D_2024_01_02] ∧
  ∃ out, apply_date_filter spec_rows
           {| start := D_2024_01_01; end_ := D_2024_01_01 |} = Ok out ∧
    records out =
      filter (λ r, in_range {| start := D_2024_01_01; end_ := D_2024_01_01 |}
                            (r !!! "date")) (records spec_rows) ∧
    sublist (records out) (records spec_rows) ∧
    (∀ r, r ∈ records out ↔
          r ∈ records spec_rows ∧
          ∃ t, r !!! "date" = Time t ∧ (D_2024_01_01 ≤ t ≤ D_2024_01_01)%Z) ∧
    (∀ r, r ∈ records spec_rows → (D_2024_01_01 ≤ D_2024_01_01)%Z →
          r !!! "date" = Time D_2024_01_01 ∨ r !!! "date" = Time D_2024_01_01 →
          r ∈ records out) ∧
    (∀ r, r ∈ records out →
          r !!! "date" ≠ Time (D_2024_01_01 - DAY) ∧
          r !!! "date" ≠ Time (D_2024_01_01 + DAY) ∧
          isna (r !!! "date") = false).
Proof.
  assert (Hwf : wf spec_rows).
  { apply wf_frame; [compute_done | repeat constructor]. }
  assert (Hlike : Forall datetime_like
            [Time D_2024_01_01; Time D_2024_01_01; Time D_2024_01_02]).
  { repeat constructor. }
  split; [exact Hwf|]. split; [reflexivity|]. split; [exact Hlike|].
  exact (apply_date_filter_spec spec_rows
           {| start := D_2024_01_01; end_ := D_2024_01_01 |} _
           Hwf eq_refl Hlike).
Defined.

(** C8: when the caller passes start > end the filter returns, without
    raising, a table with the same columns and no row at all; the bounds are
    not exchanged (no row is returned even where the exchanged range would
    select some). *)
Theorem reversed_range_is_empty (df : DataFrame) (dr : DateRange)
    (dates : list Cell) :
  wf df → data df !! "date" = Some dates → Forall datetime_like dates →
  (start dr > end_ dr)%Z →
  ∃ out, apply_date_filter df dr = Ok out ∧
         records out = [] ∧ nrows out = 0 ∧ df_empty out = true ∧
         columns out = columns df.
Proof.
  intros Hwf Hdate Hlike Hrev.
  destruct (apply_date_filter_records df dr dates Hwf Hdate Hlike)
    as (out & Hout & Hcols & _ & Hrec).
  assert (Hnil : records out = []).
  { rewrite Hrec. apply filter_none. intros r _. unfold in_range.
    destruct (r !!! "date"); [tauto| tauto | lia | tauto]. }
  assert (Hn : nrows out = 0).
  { rewrite <- (length_rows_of (nrows out) (data out)). fold (records out).
    by rewrite Hnil. }
  exists out. split_and!; try done.
  unfold df_empty. by rewrite Hn.
Qed.

Lemma reversed_range_is_empty_witness :
  wf spec_rows ∧
  data spec_rows !! "date" =
    Some [Time D_2024_01_01; Time D_2024_01_01; Time D_2024_01_02] ∧
  Forall datetime_like [Time D_2024_01_01; Time D_2024_01_01; Time D_2024_01_02] ∧
  (D_2024_01_02 > D_2024_01_01)%Z ∧
  ∃ out, apply_date_filter spec_rows
           {| start := D_2024_01_02; end_ := D_2024_01_01 |} = Ok out ∧
         records out = [] ∧ nrows out = 0 ∧ df_empty out = true ∧
         columns out = columns spec_rows.
Proof.
  assert (Hwf : wf spec_rows).
  { apply wf_frame; [compute_done | repeat constructor]. }
  assert (Hlike : Forall datetime_like
            [Time D_2024_01_01; Time D_2024_01_01; Time D_2024_01_02]).
  { repeat constructor. }
  assert (Hrev : (D_2024_01_02 > D_2024_01_01)%Z) by reflexivity.
  split; [exact Hwf|]. split; [reflexivity|]. split; [exact Hlike|].
  split; [exact Hrev|].
  exact (reversed_range_is_empty spec_rows
           {| start := D_2024_01_02; end_ := D_2024_01_01 |} _
           Hwf eq_refl Hlike Hrev).
Defined.

(** ** Sorting *)

Section Sorting.
Context {A : Type} (leb : A → A → bool).

Lemma insert_sorted_Permutation x l : insert_sorted leb x l ≡ₚ x :: l.
Proof.
  induction l as [|y l IH]; [done|].
  cbn. destruct (leb x y); [done|]. rewrite IH. apply Permutation_swap.
Qed.

Lemma stable_sort_Permutation l : stable_sort leb l ≡ₚ l.
Proof.
  induction l as [|x l IH]; [done|].
  cbn. rewrite insert_sorted_Permutation. by rewrite IH.
Qed.

Lemma sort_values_Permutation ascending l : sort_values leb ascending l ≡ₚ l.
Proof.
  unfold sort_values. destruct ascending.
  - apply stable_sort_Permutation.
  - by rewrite reverse_Permutation, stable_sort_Permutation, reverse_Permutation.
Qed.

Hypothesis leb_total : ∀ x y, leb x y = true ∨ leb y x = true.
Hypothesis leb_trans : ∀ x y z, leb x y = true → leb y z = true → leb x z = true.





End Sorting.

(** ** Revenue by category *)

Lemma Forall_select {A} (P : A → Prop) (mask : list bool) (xs : list A) :
  Forall P xs → Forall P (select mask xs).
Proof.
  intros Hxs. revert mask.
  induction Hxs as [|x xs Hx _ IH]; intros [|[] mask]; cbn; auto.
Qed.

Lemma select_key_zip (k : Cell) (keys vals : list Cell) :
  length keys = length vals →
  select ((λ c, bool_decide (c = k)) <$> keys) vals =
  (filter (λ p, p.1 = k) (zip keys vals)).*2.
Proof.
  revert vals. induction keys as [|c keys IH]; intros [|v vals]; try done.
  intros [= Hlen]. cbn [fmap list_fmap select zip zip_with].
  rewrite filter_cons. cbn [fst]. destruct (decide (c = k)) as [Hc|Hc].
  - rewrite bool_decide_eq_true_2 by done. cbn. f_equal. by apply IH.
  - rewrite bool_decide_eq_false_2 by done. by apply IH.
Qed.






(** ** What normalisation does to a table *)

Lemma lstrip_split (s : string) :
  ∃ l, s = l +:+ lstrip s ∧ blank l = true.
Proof.
  induction s as [|a s (l & Hl & Hb)]; [by exists ""|].
  cbn [lstrip]. destruct (isspace a) eqn:Ha.
  - exists (String a l). split; [exact (f_equal (String a) Hl) | cbn [blank]; by rewrite Ha].
  - by exists "".
Qed.

Lemma rstrip_split (s : string) :
  ∃ r, s = rstrip s +:+ r ∧ blank r = true.
Proof.
  induction s as [|a s (r & Hr & Hb)]; [by exists ""|].
  cbn [rstrip]. destruct (rstrip s) as [|b t] eqn:E.
  - destruct (isspace a) eqn:Ha.
    + exists (String a r). split; [exact (f_equal (String a) Hr) | cbn [blank]; by rewrite Ha].
    + exists r. split; [exact (f_equal (String a) Hr) | done].
  - exists r. split; [exact (f_equal (String a) Hr) | done].
Qed.

Lemma rstrip_last (s t : string) (b : ascii) :
  rstrip s = t +:+ String b "" → isspace b = false.
Proof.
  revert t. induction s as [|a s IH]; intros t; cbn [rstrip].
  - by destruct t.
  - destruct (rstrip s) as [|c r] eqn:E.
    + destruct (isspace a) eqn:Ha; [by destruct t|].
      destruct t as [|a' [|? ?]]; cbn; intros [=]; by subst.
    + destruct t as [|a' t']; cbn; [intros [=]|].
      intros [= -> Ht]. by apply (IH t').
Qed.

Lemma rstrip_first (s t : string) (a : ascii) :
  rstrip s = String a t → ∃ t', s = String a t'.
Proof.
  destruct s as [|a' s]; cbn [rstrip]; [done|].
  destruct (rstrip s); [destruct (isspace a')|]; intros [=]; subst; eauto.
Qed.

(** X: [strip] removes white space at both ends and nothing else: the text
    is its stripped core between two runs of white space, and the core
    neither starts nor ends with a white-space character. *)
Theorem strip_spec (s : string) :
  (∃ l r, s = l +:+ strip s +:+ r ∧ blank l = true ∧ blank r = true) ∧
  (∀ a t, strip s = String a t → isspace a = false) ∧
  (∀ t b, strip s = t +:+ String b "" → isspace b = false).
Proof.
  unfold strip. split_and!.
  - destruct (lstrip_split s) as (l & Hl & Hbl).
    destruct (rstrip_split (lstrip s)) as (r & Hr & Hbr).
    exists l, r. split; [|done]. by rewrite <- Hr.
  - intros a t [t' Ht]%rstrip_first.
    destruct (lstrip_head s) as [E|(a' & r & E & Ha)]; rewrite E in Ht; [done|].
    by injection Ht as -> _.
  - intros t b. apply rstrip_last.
Qed.

Lemma add_column_elem cols c : c ∈ cols → add_column cols c = cols.
Proof. intros Hc. unfold add_column. by rewrite decide_True. Qed.

Lemma setitem_wf df c xs :
  wf df → length xs = nrows df → wf (setitem df c xs).
Proof.
  intros [Hdom Hlen] Hxs. split.
  - intros c'. rewrite setitem_columns. destruct (decide (c = c')) as [->|Hne].
    + rewrite setitem_data_eq. split; [by eexists|by right].
    + rewrite setitem_data_ne by done. rewrite <- Hdom. split; [|by left].
      intros [?| ->]; done.
  - intros c' ys. destruct (decide (c = c')) as [->|Hne].
    + rewrite setitem_data_eq. by intros [= <-].
    + rewrite setitem_data_ne by done. apply Hlen.
Qed.

Section NormalizeShape.
Context `{TextLayer}.

Lemma to_datetime_length xs ts : to_datetime xs = Ok ts → length ts = length xs.
Proof. intros Hf%mapM_Ok_inv. symmetry. by eapply Forall2_length. Qed.

Lemma length_to_numeric_coerce xs : length (to_numeric_coerce xs) = length xs.
Proof. unfold to_numeric_coerce. by rewrite length_fmap. Qed.

Lemma length_normalize_category xs : length (normalize_category xs) = length xs.
Proof. unfold normalize_category, str_strip, astype_str. by rewrite !length_fmap. Qed.

Lemma length_dt_normalize xs : length (dt_normalize xs) = length xs.
Proof. unfold dt_normalize. by rewrite length_fmap. Qed.

Lemma setitem_columns_same df c xs cols :
  columns df = cols → c ∈ cols → columns (setitem df c xs) = cols.
Proof. intros <- Hc. unfold setitem; cbn [columns]. by apply add_column_elem. Qed.

Lemma normalize_required df df' :
  wf df → normalize df = Ok df' → ∀ c, c ∈ REQUIRED_COLUMNS → c ∈ columns df.
Proof.
  intros Hwf (u & p & r & c1 & c2 & c3 & c4 & d & ts & Hu & Hp & Hr & H1 & H2 & H3 & H4 & Hd & _)%normalize_Ok c Hc.
  apply (wf_dom _ Hwf). unfold REQUIRED_COLUMNS in Hc.
  rewrite !elem_of_cons, elem_of_nil in Hc.
  destruct Hc as [->|[->|[->|[->|[->|[->|[->|[->|[]]]]]]]]]; by eexists.
Qed.

Lemma normalize_keeps_shape (df df' : DataFrame) :
  wf df → normalize df = Ok df' →
  wf df' ∧ columns df' = columns df ∧ nrows df' = nrows df ∧
  (∀ c, c ∉ REQUIRED_COLUMNS → data df' !! c = data df !! c) ∧
  (∀ c, c ∈ REQUIRED_COLUMNS → c ∈ columns df).
Proof.
  intros Hwf Hn.
  pose proof (normalize_required _ _ Hwf Hn) as Hreq.
  pose proof Hn as (_ & _ & _ & Hother & Hrows & _)%normalize_columns.
  apply normalize_Ok in Hn
    as (u & p & r & c1 & c2 & c3 & c4 & d0 & ts0 & Hu & Hp & Hr & H1 & H2 & H3 & H4 & Hd0 & Hts0 & Hdf).
  split_and!; try done; subst df'; clear Hother Hrows.
  - pose proof (wf_len _ Hwf) as Hlen.
    repeat apply setitem_wf; try done;
      rewrite ?length_to_numeric_coerce, ?length_normalize_category, ?length_dt_normalize;
      cbn [nrows setitem]; eauto.
    rewrite (to_datetime_length _ _ Hts0). eauto.
  - repeat (apply setitem_columns_same;
            [|apply Hreq; unfold REQUIRED_COLUMNS; rewrite !elem_of_cons; tauto]).
    done.
Qed.

(** X: normalisation keeps the shape of a well-formed table: the result is
    well formed, has the same columns in the same order and the same number
    of rows, and every column other than the eight required ones is
    untouched.  It succeeds only if the eight required columns are there. *)
Theorem normalize_shape (df df' : DataFrame) :
  wf df → normalize df = Ok df' →
  wf df' ∧ columns df' = columns df ∧ nrows df' = nrows df ∧
  (∀ c, c ∉ REQUIRED_COLUMNS → data df' !! c = data df !! c) ∧
  (∀ c, c ∈ REQUIRED_COLUMNS → c ∈ columns df).
Proof. apply normalize_keeps_shape. Qed.

(** X: in units, unit_price and revenue every cell ends up a number or
    [nan], at its own position: a text that is no number and a missing
    marker become [nan], a numeric text becomes its number, a number stays. *)
Theorem normalize_numeric_cells (df df' : DataFrame) (c : string) (xs : list Cell) :
  normalize df = Ok df' → c ∈ NUMERIC_COLUMNS → data df !! c = Some xs →
  ∃ ys, data df' !! c = Some ys ∧ length ys = length xs ∧
    Forall numeric_like ys ∧
    (∀ i s, xs !! i = Some (Str s) → parse_number s = None →
            ys !! i = Some (Miss NaN)) ∧
    (∀ i s x, xs !! i = Some (Str s) → parse_number s = Some x →
              ys !! i = Some (Num x)) ∧
    (∀ i x, xs !! i = Some (Num x) → ys !! i = Some (Num x)) ∧
    (∀ i m, xs !! i = Some (Miss m) → ys !! i = Some (Miss NaN)).
Proof.
  intros (Hnum & _)%normalize_columns Hc Hxs.
  destruct (Hnum c Hc) as (xs' & Hxs' & Hys).
  assert (xs' = xs) as -> by congruence.
  exists (to_numeric_coerce xs). split_and!; try done.
  - apply length_to_numeric_coerce.
  - apply to_numeric_coerce_like.
  - intros i s Hi Hs. unfold to_numeric_coerce. by rewrite list_lookup_fmap, Hi; cbn; rewrite Hs.
  - intros i s x Hi Hs. unfold to_numeric_coerce. by rewrite list_lookup_fmap, Hi; cbn; rewrite Hs.
  - intros i x Hi. unfold to_numeric_coerce. by rewrite list_lookup_fmap, Hi.
  - intros i m Hi. unfold to_numeric_coerce. by rewrite list_lookup_fmap, Hi.
Qed.

(** X: every cell of the normalised date column is [NaT] or a midnight; a
    timestamp (given or parsed from text) becomes the midnight of its own
    day, a missing marker becomes [NaT]. *)
Theorem normalize_dates_midnight (df df' : DataFrame) (xs : list Cell) :
  normalize df = Ok df' → data df !! "date" = Some xs →
  ∃ ys, data df' !! "date" = Some ys ∧ length ys = length xs ∧
    Forall midnight_like ys ∧
    (∀ i t, xs !! i = Some (Time t) →
            ∃ t', ys !! i = Some (Time t') ∧ (t' ≤ t < t' + DAY)%Z) ∧
    (∀ i s t, xs !! i = Some (Str s) → s ∉ NAT_STRINGS →
              parse_datetime s = Some t →
              ∃ t', ys !! i = Some (Time t') ∧ (t' ≤ t < t' + DAY)%Z) ∧
    (∀ i m, xs !! i = Some (Miss m) → ys !! i = Some (Miss NaT)).
Proof.
  intros (_ & _ & (d & ts & Hd & Hts & Hd') & _)%normalize_columns Hxs.
  assert (d = xs) as -> by congruence.
  exists (dt_normalize ts).
  pose proof (to_datetime_like _ _ Hts) as Hlike.
  pose proof (mapM_Ok_inv _ _ _ Hts) as Hf2.
  assert (Hday : ∀ t, (t `div` DAY * DAY ≤ t < t `div` DAY * DAY + DAY)%Z).
  { intros t. unfold DAY. pose proof (Z.mod_pos_bound t 86400000000000).
    pose proof (Z.div_mod t 86400000000000). lia. }
  assert (Hcell : ∀ i x y, xs !! i = Some x → to_datetime_cell x = Ok y →
                           dt_normalize ts !! i = Some (match y with Time t => Time (t `div` DAY * DAY) | _ => y end)).
  { intros i x y Hi Hxy. destruct (Forall2_lookup_l _ _ _ _ _ Hf2 Hi) as (y' & Hy' & Hxy').
    rewrite Hxy in Hxy'. simplify_eq. unfold dt_normalize. by rewrite list_lookup_fmap, Hy'. }
  split_and!; try done.
  - rewrite length_dt_normalize. by eapply to_datetime_length.
  - unfold dt_normalize. rewrite Forall_fmap. eapply Forall_impl; [done|].
    intros [s|x|t|[]]; try done. intros _. cbn. apply Z.mod_mul. by unfold DAY.
  - intros i t Hi. eexists. split; [by apply (Hcell i (Time t) (Time t))|]. apply Hday.
  - intros i s t Hi Hs Ht. eexists. split; [|apply (Hday t)].
    apply (Hcell i (Str s) (Time t)); [done|]. cbn. by rewrite decide_False, Ht.
  - intros i m Hi. by apply (Hcell i (Miss m) (Miss NaT)).
Qed.

(** X: an ASCII text of a categorical column becomes the same text without
    the white space at its two ends; what lies between is kept as it is. *)
Theorem normalize_trims_categoricals (df df' : DataFrame) (c : string) (xs : list Cell) :
  normalize df = Ok df' → c ∈ CATEGORICAL_COLUMNS → data df !! c = Some xs →
  ∃ ys, data df' !! c = Some ys ∧ length ys = length xs ∧
    ∀ i s, xs !! i = Some (Str s) → ascii_text s →
      ∃ core l r, ys !! i = Some (Str core) ∧
        s = l +:+ core +:+ r ∧ blank l = true ∧ blank r = true ∧
        (∀ a t, core = String a t → isspace a = false) ∧
        (∀ t b, core = t +:+ String b "" → isspace b = false).
Proof.
  intros (_ & Hcat & _)%normalize_columns Hc Hxs.
  destruct (Hcat c Hc) as (xs' & Hxs' & Hys).
  assert (xs' = xs) as -> by congruence.
  exists (normalize_category xs). split_and!; try done.
  - apply length_normalize_category.
  - intros i s Hi _. destruct (strip_spec s) as ((l & r & Hs & Hl & Hr) & Hfirst & Hlast).
    exists (strip s), l, r. split_and!; try done.
    unfold normalize_category, str_strip, astype_str. by rewrite !list_lookup_fmap, Hi.
Qed.
End NormalizeShape.

Lemma raw_table_wf : wf raw_table.
Proof. apply wf_frame; [compute_done | repeat constructor]. Qed.

Lemma normalize_raw_table : normalize raw_table = Ok normalized_raw_table.
Proof. by vm_compute. Qed.

Lemma normalize_shape_witness :
  wf normalized_raw_table ∧ columns normalized_raw_table = columns raw_table ∧
  nrows normalized_raw_table = nrows raw_table.
Proof.
  destruct (normalize_shape raw_table normalized_raw_table) as (? & ? & ? & _).
  - exact raw_table_wf.
  - exact normalize_raw_table.
  - by split_and!.
Defined.

Lemma normalize_numeric_cells_witness :
  ∃ ys, data normalized_raw_table !! "units" = Some ys ∧ Forall numeric_like ys.
Proof.
  destruct (normalize_numeric_cells raw_table normalized_raw_table "units"
              [Str "2"; Str "two"]) as (ys & Hys & _ & Hlike & _).
  - exact normalize_raw_table.
  - compute_done.
  - reflexivity.
  - exists ys. split; assumption.
Defined.

Lemma normalize_dates_midnight_witness :
  ∃ ys, data normalized_raw_table !! "date" = Some ys ∧ Forall midnight_like ys.
Proof.
  destruct (normalize_dates_midnight raw_table normalized_raw_table
              [Str "2024-01-01"; Time (D_2024_01_02 + 3600000000000)])
    as (ys & Hys & _ & Hmid & _).
  - exact normalize_raw_table.
  - reflexivity.
  - exists ys. split; assumption.
Defined.

Lemma normalize_trims_categoricals_witness :
  ∃ ys core, data normalized_raw_table !! "category" = Some ys ∧
             ys !! 0 = Some (Str core) ∧ ∃ l r, " A " = l +:+ core +:+ r.
Proof.
  destruct (normalize_trims_categoricals raw_table normalized_raw_table "category"
              [Str " A "; Miss NA]) as (ys & Hys & Hlen & Hcell).
  - exact normalize_raw_table.
  - compute_done.
  - reflexivity.
  - destruct (Hcell 0 " A ") as (core & l & r & Hcore & Hs & _).
    + reflexivity.
    + repeat constructor.
    + exists ys, core. split; [assumption|]. split; [assumption|].
      exists l, r. assumption.
Defined.

(** ** Loading *)

Lemma header_index_is_Some c l : is_Some (header_index c l) ↔ c ∈ l.
Proof.
  induction l as [|x l IH]; cbn.
  - split; [by intros [? ?]|by intros ?%elem_of_nil].
  - case_decide as Hx; [subst; split; [left|by eexists]|].
    rewrite fmap_is_Some, IH, elem_of_cons.
    split; [by right|intros [?|?]; [congruence|done]].
Qed.

Lemma lookup_imap_columns {V} (g : nat → string → V) (l : list string) (c : string) :
  (list_to_map (imap (λ j c, (c, g j c)) l) : gmap string V) !! c
  = (λ j, g j c) <$> header_index c l.
Proof.
  revert g. induction l as [|x l IH]; intros g; [done|].
  rewrite imap_cons, list_to_map_cons. cbn [header_index]. case_decide as Hx.
  - subst. by rewrite lookup_insert_eq.
  - rewrite lookup_insert_ne by done.
    etrans; [apply (IH (λ j, g (S j)))|]. by destruct (header_index c l).
Qed.

Lemma mapM_Raise_inv {A B} (f : A → Result B) (xs : list A) (e : Error) :
  mapM f xs = Raise e → ∃ x, x ∈ xs ∧ f x = Raise e.
Proof.
  induction xs as [|x xs IH]; [done|]. cbn.
  destruct (f x) as [y|e'] eqn:Hx; cbn.
  - destruct (mapM f xs) as [ys|e'']; cbn; [done|].
    intros [= ->]. destruct IH as (x' & ? & ?); [done|]. exists x'. split; [by right|done].
  - intros [= ->]. exists x. split; [by left|done].
Qed.

Lemma check_required_columns_pass df :
  (∀ c, c ∈ REQUIRED_COLUMNS → c ∈ columns df) →
  _check_required_columns df = (true, []).
Proof.
  intros Hall. unfold _check_required_columns.
  assert (filter (λ c, c ∉ columns df) REQUIRED_COLUMNS = []) as ->; [|done].
  apply elem_of_nil_inv. intros c [Hn Hc]%list_elem_of_filter. by apply Hn, Hall.
Qed.

Lemma check_required_columns_fail df :
  ¬ (∀ c, c ∈ REQUIRED_COLUMNS → c ∈ columns df) →
  ∃ missing, _check_required_columns df = (false, missing) ∧ missing ≠ [] ∧
             missing = filter (λ c, c ∉ columns df) REQUIRED_COLUMNS.
Proof.
  intros Hnot. unfold _check_required_columns. eexists. split_and!; [|..|done].
  - f_equal. apply bool_decide_eq_false. intros Hlen%nil_length_inv.
    apply Hnot. intros c Hc. destruct (decide (c ∈ columns df)) as [|Hn]; [done|].
    assert (c ∈ filter (λ c, c ∉ columns df) REQUIRED_COLUMNS) as Hin
      by by apply list_elem_of_filter.
    rewrite Hlen in Hin. by apply elem_of_nil in Hin.
  - intros Hnil. apply Hnot. intros c Hc.
    destruct (decide (c ∈ columns df)) as [|Hn]; [done|].
    assert (c ∈ filter (λ c, c ∉ columns df) REQUIRED_COLUMNS) as Hin
      by by apply list_elem_of_filter.
    rewrite Hnil in Hin. by apply elem_of_nil in Hin.
Qed.

Section Loading.
Context `{TextLayer}.

Lemma read_csv_data file df c :
  read_csv file = Ok df →
  data df !! c = read_column c <$> column_texts file c.
Proof.
  unfold read_csv. case_decide; [|done]. intros [= <-]. cbn [data].
  rewrite (lookup_imap_columns (λ j c, read_column c (field j <$> lines file))).
  unfold column_texts. by destruct (header_index c (header file)).
Qed.

Lemma length_read_column c texts : length (read_column c texts) = length texts.
Proof.
  unfold read_column, string_column, date_column, inferred_column, object_column.
  repeat case_decide; repeat case_match; by rewrite length_fmap.
Qed.

Lemma read_csv_wf file df : read_csv file = Ok df → wf df.
Proof.
  intros Hr. split.
  - intros c. rewrite (read_csv_data file df c Hr). unfold column_texts.
    rewrite !fmap_is_Some, header_index_is_Some.
    unfold read_csv in Hr. case_decide; [|done]. by injection Hr as <-.
  - intros c xs. rewrite (read_csv_data file df c Hr). unfold column_texts.
    destruct (header_index c (header file)); [|done]. cbn. intros [= <-].
    rewrite length_read_column, length_fmap.
    unfold read_csv in Hr. case_decide; [|done]. by injection Hr as <-.
Qed.

Lemma to_datetime_date_column texts :
  Forall date_text_ok texts → ∃ ts, to_datetime (date_column texts) = Ok ts.
Proof.
  intros Hok. unfold date_column. case_match.
  - eexists. apply to_datetime_accepted. rewrite Forall_fmap.
    apply Forall_true. intros s. unfold compose.
    destruct (is_na_value s); [done|]. by destruct (parse_datetime s).
  - unfold object_column, to_datetime.
    eexists. apply (mapM_Ok_fmap _ (λ c, match c with
        | Str s => if decide (s ∈ NAT_STRINGS) then Miss NaT
                   else match parse_datetime s with Some t => Time t | None => Miss NaT end
        | Miss _ => Miss NaT | c => c end)).
    rewrite Forall_fmap. eapply Forall_impl; [done|].
    intros s Hs. unfold compose. destruct (is_na_value s) eqn:Hna; [done|].
    cbn. case_decide; [done|]. destruct Hs as [Hs|[Hs|[t Ht]]]; [congruence|done|by rewrite Ht].
Qed.

Lemma to_datetime_date_column_Raise texts e :
  to_datetime (date_column texts) = Raise e →
  ∃ s, s ∈ texts ∧ ¬ date_text_ok s ∧ e = ValueError (UnknownDatetime s).
Proof.
  unfold date_column. case_match.
  - intros He. exfalso. 
    assert (Forall datetime_like ((λ s : string,
                if is_na_value s then Miss NaT
                else match parse_datetime s with
                     | Some t => Time t
                     | None => Miss NaT
                     end) <$> texts)) as Hl.
    { rewrite Forall_fmap. apply Forall_true. intros s. unfold compose.
      destruct (is_na_value s); [done|]. by destruct (parse_datetime s). }
    apply to_datetime_accepted in Hl. congruence.
  - intros (c & Hc & Hraise)%mapM_Raise_inv.
    unfold object_column in Hc. apply list_elem_of_fmap in Hc as (s & -> & Hs).
    exists s. split; [done|]. destruct (is_na_value s) eqn:Hna; [done|].
    cbn in Hraise. case_decide as Hnat; [done|].
    destruct (parse_datetime s) eqn:Hp; [done|]. injection Hraise as <-.
    split; [|done]. intros [?|[?|[? ?]]]; congruence.
Qed.

Lemma to_datetime_date_column_Ok texts ts :
  to_datetime (date_column texts) = Ok ts → Forall date_text_ok texts.
Proof.
  intros Hts. apply Forall_forall. intros s Hs.
  destruct (decide (date_text_ok s)) as [|Hbad]; [done|]. exfalso.
  unfold date_column in Hts. case_match eqn:Hall.
  - rewrite forallb_forall in Hall. apply list_elem_of_In, Hall in Hs.
    apply orb_true_iff in Hs as [Hs|Hs%bool_decide_eq_true]; apply Hbad;
      [by left|by right; right].
  - apply mapM_Ok_inv in Hts. unfold object_column in Hts.
    rewrite Forall2_fmap_l in Hts.
    apply list_elem_of_lookup in Hs as [i Hi].
    destruct (Forall2_lookup_l _ _ _ _ _ Hts Hi) as (y & _ & Hy).
    apply Hbad. unfold date_text_ok. unfold compose in Hy.
    destruct (is_na_value s); [by left|]. cbn in Hy.
    case_decide; [by right; left|]. right; right.
    by destruct (parse_datetime s).
Qed.

Lemma normalize_with_columns df u p r c1 c2 c3 c4 d :
  data df !! "units" = Some u → data df !! "unit_price" = Some p →
  data df !! "revenue" = Some r → data df !! "category" = Some c1 →
  data df !! "region" = Some c2 → data df !! "sales_channel" = Some c3 →
  data df !! "customer_segment" = Some c4 → data df !! "date" = Some d →
  normalize df =
    ts ← to_datetime d;
    Ok (setitem (setitem (setitem (setitem (setitem (setitem (setitem (setitem df
          "units" (to_numeric_coerce u))
          "unit_price" (to_numeric_coerce p))
          "revenue" (to_numeric_coerce r))
          "category" (normalize_category c1))
          "region" (normalize_category c2))
          "sales_channel" (normalize_category c3))
          "customer_segment" (normalize_category c4))
          "date" (dt_normalize ts)).
Proof.
  intros Hu Hp Hr H1 H2 H3 H4 Hd. rewrite normalize_steps.
  unfold step, getitem.
  repeat (setitem_lookups; rewrite ?Hu, ?Hp, ?Hr, ?H1, ?H2, ?H3, ?H4, ?Hd;
          cbn [mbind Result_bind]).
  by destruct (to_datetime d).
Qed.

(** Every way [load_data] can end. *)
Lemma load_data_cases fs path :
  (fs !! path = None ∧ load_data fs path = Raise (FileNotFoundError path)) ∨
  ∃ file, fs !! path = Some file ∧
    ((("date" ∉ header file) ∧
      load_data fs path = Raise (ValueError (MissingParseDates "date"))) ∨
     (("date" ∈ header file) ∧
      ∃ missing, missing ≠ [] ∧
        missing = filter (λ c, c ∉ header file) REQUIRED_COLUMNS ∧
        load_data fs path =
          Raise (ValueError (MissingColumns missing REQUIRED_COLUMNS (header file)))) ∨
     ((∀ c, c ∈ REQUIRED_COLUMNS → c ∈ header file) ∧
      ∃ dates, column_texts file "date" = Some dates ∧
        ((∃ s, s ∈ dates ∧ ¬ date_text_ok s ∧
               load_data fs path = Raise (ValueError (UnknownDatetime s))) ∨
         (Forall date_text_ok dates ∧
          ∃ df, load_data fs path = Ok df ∧ wf df ∧
                columns df = header file ∧ nrows df = length (lines file) ∧
                ∃ raw, read_csv file = Ok raw ∧ normalize raw = Ok df)))).
Proof.
  unfold load_data. destruct (fs !! path) as [file|] eqn:Hfile; [right|by left].
  exists file. split; [done|].
  destruct (read_csv file) as [raw|e] eqn:Hraw; cbn [mbind Result_bind].
  2:{ left. unfold read_csv in Hraw. case_decide; [done|]. by injection Hraw as <-. }
  right.
  assert (columns raw = header file ∧ nrows raw = length (lines file) ∧ "date" ∈ header file)
    as (Hcols & Hrows & Hdate).
  { unfold read_csv in Hraw. case_decide; [|done]. by injection Hraw as <-. }
  pose proof (read_csv_wf _ _ Hraw) as Hwf.
  destruct (decide (Forall (λ c, c ∈ columns raw) REQUIRED_COLUMNS)) as [Hall|Hnot];
    rewrite Forall_forall in *.
  2:{ left. split; [done|].
      destruct (check_required_columns_fail raw Hnot) as (missing & -> & Hne & Hm).
      cbn [negb]. exists missing. rewrite <- Hcols. by split_and!. }
  right. rewrite check_required_columns_pass by done. cbn [negb].
  split; [by rewrite <- Hcols|].
  assert (∀ c, c ∈ REQUIRED_COLUMNS → ∃ texts, column_texts file c = Some texts ∧
             data raw !! c = Some (read_column c texts)) as Hcol.
  { intros c Hc%Hall. apply (wf_dom _ Hwf) in Hc as [xs Hxs].
    rewrite (read_csv_data _ _ _ Hraw) in Hxs.
    destruct (column_texts file c) as [texts|] eqn:Ht; [|done].
    exists texts. split; [done|]. by rewrite (read_csv_data _ _ _ Hraw), Ht. }
  destruct (Hcol "units") as (tu & _ & Hu); [compute_done|].
  destruct (Hcol "unit_price") as (tp & _ & Hp); [compute_done|].
  destruct (Hcol "revenue") as (tr & _ & Hr); [compute_done|].
  destruct (Hcol "category") as (t1 & _ & H1); [compute_done|].
  destruct (Hcol "region") as (t2 & _ & H2); [compute_done|].
  destruct (Hcol "sales_channel") as (t3 & _ & H3); [compute_done|].
  destruct (Hcol "customer_segment") as (t4 & _ & H4); [compute_done|].
  destruct (Hcol "date") as (dates & Hdates & Hd); [compute_done|].
  exists dates. split; [done|].
  rewrite (normalize_with_columns raw _ _ _ _ _ _ _ _ Hu Hp Hr H1 H2 H3 H4 Hd).
  change (read_column "date" dates) with (date_column dates).
  destruct (to_datetime (date_column dates)) as [ts|e] eqn:Hts; cbn [mbind Result_bind].
  - right.
    split; [by eapply to_datetime_date_column_Ok|].
    assert (normalize raw = Ok
              (setitem (setitem (setitem (setitem (setitem (setitem (setitem (setitem raw
                 "units" (to_numeric_coerce (read_column "units" tu)))
                 "unit_price" (to_numeric_coerce (read_column "unit_price" tp)))
                 "revenue" (to_numeric_coerce (read_column "revenue" tr)))
                 "category" (normalize_category (read_column "category" t1)))
                 "region" (normalize_category (read_column "region" t2)))
                 "sales_channel" (normalize_category (read_column "sales_channel" t3)))
                 "customer_segment" (normalize_category (read_column "customer_segment" t4)))
                 "date" (dt_normalize ts))) as Hn.
    { rewrite (normalize_with_columns raw _ _ _ _ _ _ _ _ Hu Hp Hr H1 H2 H3 H4 Hd).
      change (read_column "date" dates) with (date_column dates). by rewrite Hts. }
    eexists. split; [done|].
    destruct (normalize_keeps_shape _ _ Hwf Hn) as (Hwf' & Hcols' & Hrows' & _).
    split_and!; [done|congruence|congruence|]. by exists raw.
  - left. apply to_datetime_date_column_Raise in Hts as (s & Hs & Hbad & ->). by exists s.
Qed.

(** X: the errors of [load_data] on a file that is a regular grid, in the
    order the code meets them: without a file at the path it raises
    FileNotFoundError; with a file whose header has no "date" the read
    raises ValueError for the missing parse_dates column; with "date" and
    without another required column [load_data] raises its own ValueError,
    listing exactly the required names that are absent, in required order;
    with all required columns and a date field that is neither missing nor
    a date, to_datetime raises ValueError. *)
Theorem load_data_errors fs path file :
  (fs !! path = None → load_data fs path = Raise (FileNotFoundError path)) ∧
  (fs !! path = Some file → regular file →
   (("date" ∉ header file) →
      load_data fs path = Raise (ValueError (MissingParseDates "date"))) ∧
   (("date" ∈ header file) →
    ¬ (∀ c, c ∈ REQUIRED_COLUMNS → c ∈ header file) →
      ∃ missing,
        load_data fs path =
          Raise (ValueError (MissingColumns missing REQUIRED_COLUMNS (header file))) ∧
        missing ≠ [] ∧ ("date" ∉ missing) ∧ sublist missing REQUIRED_COLUMNS ∧
        ∀ c, c ∈ missing ↔ c ∈ REQUIRED_COLUMNS ∧ c ∉ header file) ∧
   ((∀ c, c ∈ REQUIRED_COLUMNS → c ∈ header file) →
    ∀ dates, column_texts file "date" = Some dates →
      (∃ s, s ∈ dates ∧ ¬ date_text_ok s) →
      ∃ s, s ∈ dates ∧ load_data fs path = Raise (ValueError (UnknownDatetime s)))).
Proof.
  destruct (load_data_cases fs path) as [[Hnone Hl]|(file' & Hfile & Hcases)].
  { split; [done|]. intros Hf. congruence. }
  split; [congruence|]. intros Hf _. assert (file' = file) as -> by congruence.
  destruct Hcases as [[Hd Hl]|[(Hd & missing & Hne & Hm & Hl)|(Hall & dates & Hdates & Hl)]].
  - split_and!; [done|done|]. intros Hreq. destruct Hd. apply Hreq. compute_done.
  - split_and!; [done| |].
    + intros _ _. exists missing. split_and!; [done|done|..].
      * rewrite Hm. intros [Hn _]%list_elem_of_filter. done.
      * rewrite Hm. apply sublist_filter.
      * intros c. rewrite Hm, list_elem_of_filter. tauto.
    + intros Hreq. destruct Hne. rewrite Hm.
      apply elem_of_nil_inv. intros c [Hn Hc]%list_elem_of_filter. by apply Hn, Hreq.
  - split_and!; [intros Hn; destruct Hn; apply Hall; compute_done|done|].
    intros _ dates' Hdates' (s & Hs & Hbad).
    assert (dates' = dates) as -> by congruence.
    destruct Hl as [(s' & Hs' & _ & Hl)|(Hok & _)]; [by exists s'|].
    rewrite Forall_forall in Hok. by destruct Hbad; apply Hok.
Qed.

(** X: a successful load of a file that is a regular grid keeps every line
    of the file as a row and every name of the header as a column, in order,
    and the table it returns is well formed and passes the validator. *)
Theorem load_data_keeps_rows fs path file df :
  fs !! path = Some file → regular file → load_data fs path = Ok df →
  wf df ∧ columns df = header file ∧ nrows df = length (lines file) ∧
  _check_required_columns df = (true, []).
Proof.
  intros Hfile _ Hdf.
  destruct (load_data_cases fs path) as [[Hnone Hl]|(file' & Hfile' & Hcases)]; [congruence|].
  simplify_eq.
  destruct Hcases as [[Hd Hl]|[(Hd & missing & Hne & Hm & Hl)|(Hall & dates & Hdates & Hl)]];
    [congruence..|].
  destruct Hl as [(s & Hs & Hbad & Hl)|(Hok & df' & Hl & Hwf & Hcols & Hrows & _)]; [congruence|].
  assert (df' = df) as -> by congruence. split_and!; try done.
  apply check_required_columns_pass. intros c Hc. rewrite Hcols. by apply Hall.
Qed.
End Loading.

Lemma file_without_revenue_regular : regular file_without_revenue.
Proof. unfold regular. split_and!; [done|compute_done|compute_done|repeat constructor; done]. Qed.

Lemma sample_file_regular : regular sample_file.
Proof. unfold regular. split_and!; [done|compute_done|compute_done|repeat constructor; done]. Qed.

Lemma load_data_errors_witness :
  ∃ missing, load_data {[ DATA_PATH := file_without_revenue ]} DATA_PATH
             = Raise (ValueError (MissingColumns missing REQUIRED_COLUMNS
                                    (header file_without_revenue))) ∧
             "date" ∉ missing.
Proof.
  destruct (load_data_errors {[ DATA_PATH := file_without_revenue ]} DATA_PATH
              file_without_revenue) as [_ Hfile].
  destruct Hfile as (_ & Hmissing & _).
  - reflexivity.
  - exact file_without_revenue_regular.
  - destruct Hmissing as (missing & Hl & _ & Hd & _).
    + compute_done.
    + intros Hall. specialize (Hall "revenue"). revert Hall. compute_done.
    + exists missing. split; assumption.
Defined.

Lemma load_data_keeps_rows_witness :
  wf sample_table ∧ columns sample_table = header sample_file ∧
  nrows sample_table = 3.
Proof.
  destruct (load_data_keeps_rows {[ DATA_PATH := sample_file ]} DATA_PATH
              sample_file sample_table) as (? & ? & ? & _).
  - reflexivity.
  - exact sample_file_regular.
  - by vm_compute.
  - by split_and!.
Defined.

(** ** Export and reload *)

Section RoundTrip.
Context `{TextLayer}.

Lemma roundtrip_fmap_seq {A B} (f : A → B) (d : A) (xs : list A) :
  (λ i, f (default d (xs !! i))) <$> seq 0 (length xs) = f <$> xs.
Proof.
  induction xs as [|x xs IH]; [done|].
  cbn [length seq fmap list_fmap]. f_equal.
  rewrite <- fmap_S_seq, <- list_fmap_compose. exact IH.
Qed.

Lemma roundtrip_iat_column df c xs :
  data df !! c = Some xs → length xs = nrows df →
  (λ i, to_csv_cell (iat df i c)) <$> seq 0 (nrows df) = to_csv_cell <$> xs.
Proof.
  intros Hc <-. unfold iat. rewrite Hc. cbn [mbind option_bind].
  apply roundtrip_fmap_seq.
Qed.

Lemma roundtrip_field_column df j c xs :
  columns df !! j = Some c → data df !! c = Some xs → length xs = nrows df →
  field j <$> lines (to_csv df) = to_csv_cell <$> xs.
Proof.
  intros Hj Hc Hlen. unfold to_csv. cbn [lines].
  rewrite <- list_fmap_compose.
  rewrite <- (roundtrip_iat_column df c xs Hc Hlen).
  apply list_fmap_ext. intros _ i _. unfold compose, field.
  by rewrite list_lookup_fmap, Hj.
Qed.

(** Reading an exported table: same columns, same length, and every column
    is what read_csv makes of the texts written for it. *)
Lemma roundtrip_read_csv df :
  wf df → "date" ∈ columns df →
  ∃ df1, read_csv (to_csv df) = Ok df1 ∧
         columns df1 = columns df ∧ nrows df1 = nrows df ∧
         ∀ c xs, data df !! c = Some xs →
                 data df1 !! c = Some (read_column c (to_csv_cell <$> xs)).
Proof.
  intros [Hdom Hlen] Hdate. unfold read_csv.
  rewrite decide_True by done.
  eexists. split; [done|]. cbn [columns nrows data to_csv header lines].
  split; [done|]. split; [by rewrite length_fmap, length_seq|].
  intros c xs Hc.
  assert (c ∈ columns df) as [j Hj]%list_elem_of_lookup by (apply Hdom; eauto).
  apply elem_of_list_to_map_1'.
  - intros v (j' & c' & [= <- ->] & Hj')%elem_of_lookup_imap.
    f_equal. rewrite <- (roundtrip_field_column df j' c xs Hj' Hc); eauto.
  - apply elem_of_lookup_imap. exists j, c. split; [|done].
    f_equal. f_equal. rewrite <- (roundtrip_field_column df j c xs Hj Hc); eauto.
Qed.

(** A numeric column comes back cell by cell, whether read_csv takes the
    texts written for it for a numeric column or not. *)
Lemma roundtrip_numeric_column xs :
  Forall numeric_like xs →
  to_numeric_coerce (inferred_column (to_csv_cell <$> xs)) = reread_number <$> xs.
Proof.
  intros Hlike. unfold inferred_column. case_match.
  - unfold to_numeric_coerce. rewrite <- !list_fmap_compose.
    apply Forall_fmap_ext_1. eapply Forall_impl; [done|].
    intros [s|x|t|[]]; try done; intros _; unfold compose; cbn.
    destruct (is_na_value (str_number x)); [done|].
    by destruct (parse_number (str_number x)).
  - unfold to_numeric_coerce, object_column. rewrite <- !list_fmap_compose.
    apply Forall_fmap_ext_1. eapply Forall_impl; [done|].
    intros [s|x|t|[]]; try done; intros _; unfold compose; cbn.
    by destruct (is_na_value (str_number x)).
Qed.

(** So does a normalised categorical column. *)
Lemma roundtrip_category_column ys :
  normalize_category (string_column (to_csv_cell <$> normalize_category ys)) =
  reread_category <$> normalize_category ys.
Proof.
  unfold normalize_category, str_strip, astype_str, string_column.
  rewrite <- !list_fmap_compose.
  apply list_fmap_ext. intros i c _. unfold compose, reread_category, reread_missing.
  destruct c as [s|x|t|m]; cbn [to_csv_cell].
  - destruct (is_na_value (strip s)); [by destruct pandas_version|].
    by rewrite strip_idemp.
  - destruct (is_na_value (strip (str_number x))); [by destruct pandas_version|].
    by rewrite strip_idemp.
  - destruct (is_na_value (strip (str_datetime t))); [by destruct pandas_version|].
    by rewrite strip_idemp.
  - destruct pandas_version; cbn [to_csv_cell].
    + destruct (is_na_value (strip (repr_missing m))); [done|].
      by rewrite strip_idemp.
    + done.
Qed.

(** A numeric cell that reads back comes back as itself, and so does a
    categorical cell that is no text for a missing value. *)
Lemma reread_number_ok xs :
  Forall numeric_like xs → forallb number_cell_ok xs = true →
  reread_number <$> xs = xs.
Proof.
  intros Hlike Hok. rewrite <- (list_fmap_id xs) at 2.
  apply Forall_fmap_ext_1. rewrite forallb_forall in Hok.
  rewrite Forall_forall in Hlike |- *. intros c Hc.
  specialize (Hlike c Hc). apply list_elem_of_In, Hok in Hc.
  destruct c as [s|x|t|[]]; try done. cbn in Hc.
  apply andb_true_iff in Hc as [Hp%bool_decide_eq_true Hna%negb_true_iff].
  cbn. by rewrite Hna, Hp.
Qed.

Lemma reread_category_ok xs :
  forallb category_cell_ok (normalize_category xs) = true →
  reread_category <$> normalize_category xs = normalize_category xs.
Proof.
  intros Hok. rewrite <- (list_fmap_id (normalize_category xs)) at 2.
  apply Forall_fmap_ext_1. rewrite forallb_forall in Hok.
  rewrite Forall_forall. intros c Hc.
  pose proof Hc as Hc'%list_elem_of_In%Hok.
  unfold reread_category, reread_missing.
  destruct c as [s|x|t|m]; cbn [id].
  - cbn in Hc'. destruct (is_na_value s); [|done]. cbn in Hc'.
    destruct pandas_version; [|done]. apply bool_decide_eq_true in Hc'. by subst.
  - exfalso. pose proof (normalize_category_like xs) as Hlike.
    rewrite Forall_forall in Hlike. by apply Hlike in Hc.
  - exfalso. pose proof (normalize_category_like xs) as Hlike.
    rewrite Forall_forall in Hlike. by apply Hlike in Hc.
  - unfold normalize_category, str_strip, astype_str in Hc.
    rewrite <- list_fmap_compose in Hc.
    apply list_elem_of_fmap in Hc as (c0 & Hc0 & _).
    unfold compose in Hc0. destruct c0 as [?|?|?|?]; try done.
    destruct pandas_version; [done|]. by simplify_eq.
Qed.

Lemma roundtrip_column_ok ok df c xs :
  column_ok ok df c = true → data df !! c = Some xs → forallb ok xs = true.
Proof. unfold column_ok. intros Hok Hc. by rewrite Hc in Hok. Qed.

(** A column of normalised dates whose texts read back comes back as it
    is. *)
Lemma roundtrip_date_column xs :
  Forall datetime_like xs → forallb datetime_cell_ok xs = true →
  date_column (to_csv_cell <$> xs) = xs.
Proof.
  intros Hlike Hok.
  assert (Hall : forallb (λ s, is_na_value s || bool_decide (is_Some (parse_datetime s)))
                   (to_csv_cell <$> xs) = true ∧
                 (λ s, if is_na_value s then Miss NaT
                       else match parse_datetime s with
                            | Some t => Time t | None => Miss NaT end)
                   <$> (to_csv_cell <$> xs) = xs).
  { induction Hlike as [|c xs Hc _ IH]; [done|].
    cbn [forallb] in Hok. apply andb_true_iff in Hok as [Hc' Hxs].
    destruct (IH Hxs) as [IH1 IH2].
    cbn [fmap list_fmap forallb]. rewrite IH1.
    change (list_fmap _ _ ?f (list_fmap _ _ ?g xs)) with (f <$> (g <$> xs)).
    rewrite IH2.
    destruct c as [s|x|t|[]]; try done. cbn in Hc'.
    apply andb_true_iff in Hc' as [Hp%bool_decide_eq_true Hna%negb_true_iff].
    cbn [to_csv_cell]. rewrite Hna, Hp. by cbn. }
  destruct Hall as [Hall1 Hall2].
  unfold date_column. by rewrite Hall1, Hall2.
Qed.

(** The cells [load_data] leaves in the date column stem from the date
    reader. *)
Lemma to_datetime_date_column_parsed texts ts :
  to_datetime (date_column texts) = Ok ts →
  Forall (λ c, match c with
               | Time t => ∃ s, parse_datetime s = Some t
               | Miss NaT => True
               | _ => False
               end) ts.
Proof.
  intros Hts%mapM_Ok_inv. unfold date_column in Hts. case_match.
  - apply Forall2_fmap_l in Hts. clear -Hts.
    induction Hts as [|s c texts ts Hs _ IH]; constructor; [|done].
    unfold compose in Hs. cbv beta in Hs.
    revert Hs. destruct (is_na_value s); cbn; [intros ?; by simplify_eq|].
    destruct (parse_datetime s) eqn:Hp; cbn; intros ?; simplify_eq; [by eexists|done].
  - unfold object_column in Hts. apply Forall2_fmap_l in Hts. clear -Hts.
    induction Hts as [|s c texts ts Hs _ IH]; constructor; [|done].
    unfold compose in Hs. cbv beta in Hs.
    revert Hs. destruct (is_na_value s); cbn; [intros ?; by simplify_eq|].
    case_decide; [intros ?; by simplify_eq|].
    destruct (parse_datetime s) eqn:Hp; intros ?; simplify_eq. by eexists.
Qed.

(** The table read from the exported file and what the second load makes
    of it, given that the dates of the table read back: the load succeeds,
    the date column comes back as it is, and every other cell as
    [reread_number] and [reread_category] say. *)
Lemma roundtrip_reload (fs : gmap string CsvFile) (path out : string)
    (df : DataFrame) :
  load_data fs path = Ok df →
  column_ok datetime_cell_ok df "date" = true →
  ∃ df', load_data (<[out := to_csv df]> fs) out = Ok df' ∧
         columns df' = columns df ∧ nrows df' = nrows df ∧
         data df' !! "date" = data df !! "date" ∧
         (∀ c, c ∈ NUMERIC_COLUMNS →
               data df' !! c = fmap reread_number <$> data df !! c) ∧
         (∀ c, c ∈ CATEGORICAL_COLUMNS →
               data df' !! c = fmap reread_category <$> data df !! c) ∧
         (survives_csv df = true →
          ∀ c, c ∈ REQUIRED_COLUMNS → data df' !! c = data df !! c).
Proof.
  unfold load_data at 1. intros Hload Hokd.
  destruct (fs !! path) as [file|]; [|done].
  destruct (read_csv file) as [df0|] eqn:Hread; [|done].
  cbn [mbind Result_bind] in Hload.
  destruct (_check_required_columns df0) as [[] missing]; [|done].
  cbn [negb] in Hload.
  destruct (normalize_keeps_shape _ _ (read_csv_wf _ _ Hread) Hload)
    as (Hwf & _ & _ & _ & _).
  destruct (normalize_columns _ _ Hload)
    as (Hnum & Hcat & (d & ts & _ & Hts & Hd) & _ & _ & Hcols).
  assert (Hreq : ∀ c, c ∈ REQUIRED_COLUMNS → c ∈ columns df).
  { intros c Hc. apply Hcols. by right. }
  destruct (roundtrip_read_csv df Hwf) as (df1 & Hread1 & Hcols1 & Hn1 & Hdata1).
  { apply Hreq. compute_done. }
  (* the eight columns of the table read back *)
  destruct (Hnum "units") as (u & _ & Hu); [compute_done|].
  destruct (Hnum "unit_price") as (p & _ & Hp); [compute_done|].
  destruct (Hnum "revenue") as (r & _ & Hr); [compute_done|].
  destruct (Hcat "category") as (c1 & _ & H1); [compute_done|].
  destruct (Hcat "region") as (c2 & _ & H2); [compute_done|].
  destruct (Hcat "sales_channel") as (c3 & _ & H3); [compute_done|].
  destruct (Hcat "customer_segment") as (c4 & _ & H4); [compute_done|].
  assert (Hdl : Forall datetime_like (dt_normalize ts))
    by (apply dt_normalize_like; by eapply to_datetime_like).
  assert (Hd1 : data df1 !! "date" = Some (dt_normalize ts)).
  { rewrite (Hdata1 _ _ Hd). f_equal. unfold read_column.
    rewrite decide_False, decide_True by (done || compute_done).
    apply roundtrip_date_column; [done|]. by eapply roundtrip_column_ok. }
  assert (Hnum1 : ∀ c xs, c ∈ NUMERIC_COLUMNS →
            data df !! c = Some (to_numeric_coerce xs) →
            ∃ ys, data df1 !! c = Some ys ∧
                  to_numeric_coerce ys = reread_number <$> to_numeric_coerce xs).
  { intros c xs Hc Hxs. eexists. split; [by apply Hdata1|].
    unfold read_column. unfold NUMERIC_COLUMNS in Hc.
    rewrite !elem_of_cons, elem_of_nil in Hc.
    rewrite !decide_False
      by (destruct Hc as [->|[->|[->|[]]]]; (done || compute_done)).
    apply roundtrip_numeric_column, to_numeric_coerce_like. }
  assert (Hcat1 : ∀ c xs, c ∈ CATEGORICAL_COLUMNS →
            data df !! c = Some (normalize_category xs) →
            ∃ ys, data df1 !! c = Some ys ∧
                  normalize_category ys = reread_category <$> normalize_category xs).
  { intros c xs Hc Hxs. eexists. split; [by apply Hdata1|].
    unfold read_column. rewrite decide_True by done.
    apply roundtrip_category_column. }
  destruct (Hnum1 "units" u) as (u1 & Hu1 & Eu); [compute_done|done|].
  destruct (Hnum1 "unit_price" p) as (p1 & Hp1 & Ep); [compute_done|done|].
  destruct (Hnum1 "revenue" r) as (r1 & Hr1 & Er); [compute_done|done|].
  destruct (Hcat1 "category" c1) as (k1 & Hk1 & E1); [compute_done|done|].
  destruct (Hcat1 "region" c2) as (k2 & Hk2 & E2); [compute_done|done|].
  destruct (Hcat1 "sales_channel" c3) as (k3 & Hk3 & E3); [compute_done|done|].
  destruct (Hcat1 "customer_segment" c4) as (k4 & Hk4 & E4); [compute_done|done|].
  (* the second load *)
  assert (Hnorm : ∃ df', normalize df1 = Ok df').
  { eexists. apply normalize_Ok.
    exists u1, p1, r1, k1, k2, k3, k4, (dt_normalize ts), (dt_normalize ts).
    split_and!; try done. by apply to_datetime_accepted. }
  destruct Hnorm as [df' Hnorm]. exists df'.
  assert (Hload' : load_data (<[out := to_csv df]> fs) out = Ok df').
  { unfold load_data. rewrite lookup_insert_eq, Hread1. cbn [mbind Result_bind].
    rewrite check_required_columns_pass by (rewrite Hcols1; exact Hreq). exact Hnorm. }
  destruct (normalize_columns _ _ Hnorm)
    as (Hnum' & Hcat' & (d' & ts' & Hd1' & Hts' & Hd') & _ & Hn' & Hcols').
  assert (Hdate : data df' !! "date" = data df !! "date").
  { rewrite Hd', Hd. rewrite Hd1 in Hd1'. injection Hd1' as <-.
    rewrite (to_datetime_accepted _ Hdl) in Hts'. injection Hts' as <-.
    by rewrite dt_normalize_idemp. }
  assert (Hnumeric : ∀ c, c ∈ NUMERIC_COLUMNS →
            ∃ xs, data df !! c = Some (to_numeric_coerce xs) ∧
                  data df' !! c = Some (reread_number <$> to_numeric_coerce xs)).
  { intros c Hc. pose proof Hc as Hc'. unfold NUMERIC_COLUMNS in Hc.
    rewrite !elem_of_cons, elem_of_nil in Hc.
    destruct (Hnum' c Hc') as (ys & Hys & ->).
    destruct Hc as [->|[->|[->|[]]]].
    - exists u. assert (ys = u1) as -> by congruence. by rewrite Eu.
    - exists p. assert (ys = p1) as -> by congruence. by rewrite Ep.
    - exists r. assert (ys = r1) as -> by congruence. by rewrite Er. }
  assert (Hcategorical : ∀ c, c ∈ CATEGORICAL_COLUMNS →
            ∃ xs, data df !! c = Some (normalize_category xs) ∧
                  data df' !! c = Some (reread_category <$> normalize_category xs)).
  { intros c Hc. pose proof Hc as Hc'. unfold CATEGORICAL_COLUMNS in Hc.
    rewrite !elem_of_cons, elem_of_nil in Hc.
    destruct (Hcat' c Hc') as (ys & Hys & ->).
    destruct Hc as [->|[->|[->|[->|[]]]]].
    - exists c1. assert (ys = k1) as -> by congruence. by rewrite E1.
    - exists c2. assert (ys = k2) as -> by congruence. by rewrite E2.
    - exists c3. assert (ys = k3) as -> by congruence. by rewrite E3.
    - exists c4. assert (ys = k4) as -> by congruence. by rewrite E4. }
  split; [done|]. split_and!.
  - apply normalize_Ok in Hnorm
      as (? & ? & ? & ? & ? & ? & ? & ? & ? & _ & _ & _ & _ & _ & _ & _ & _ & _ & ->).
    cbn [columns setitem].
    repeat (rewrite (add_column_elem (columns df1))
              by (rewrite Hcols1; apply Hreq; compute_done)).
    exact Hcols1.
  - congruence.
  - exact Hdate.
  - intros c (xs & -> & ->)%Hnumeric. done.
  - intros c (xs & -> & ->)%Hcategorical. done.
  - intros [Hokc Hokn]%andb_true_iff c Hc.
    rewrite forallb_forall in Hokc, Hokn.
    destruct (decide (c = "date")) as [->|Hnd]; [done|].
    destruct (decide (c ∈ NUMERIC_COLUMNS)) as [Hcn|Hcn].
    { pose proof Hcn as (xs & Hx & ->)%Hnumeric. rewrite Hx. f_equal.
      apply reread_number_ok; [apply to_numeric_coerce_like|].
      eapply roundtrip_column_ok; [|done]. by apply Hokn, list_elem_of_In. }
    assert (c ∈ CATEGORICAL_COLUMNS) as Hcc.
    { revert Hc Hnd Hcn. unfold REQUIRED_COLUMNS, NUMERIC_COLUMNS, CATEGORICAL_COLUMNS.
      rewrite !elem_of_cons, !elem_of_nil. tauto. }
    pose proof Hcc as (xs & Hx & ->)%Hcategorical. rewrite Hx. f_equal.
    apply reread_category_ok.
    eapply roundtrip_column_ok; [|done]. by apply Hokc, list_elem_of_In.
Qed.

End RoundTrip.

(** ** ISO dates read back *)

Lemma length_append (s1 s2 : string) :
  String.length (s1 +:+ s2) = String.length s1 + String.length s2.
Proof.
  induction s1 as [|a s1 IH]; [done|].
  change (String.length (String a (s1 +:+ s2)) =
          S (String.length s1) + String.length s2).
  cbn [String.length]. by rewrite IH.
Qed.

Lemma append_empty_r (s : string) : s +:+ "" = s.
Proof.
  induction s as [|a s IH]; [done|].
  change (String a (s +:+ "") = String a s). by rewrite IH.
Qed.

Lemma split_at_append (sep : ascii) (a r : string) :
  IsoText.split_at sep a = (a, None) →
  IsoText.split_at sep (a +:+ String sep r) = (a, Some r).
Proof.
  induction a as [|c a IH].
  - intros _. change ("" +:+ String sep r) with (String sep r).
    cbn [IsoText.split_at]. by case_decide.
  - change (String c a +:+ String sep r) with (String c (a +:+ String sep r)).
    cbn [IsoText.split_at]. case_decide; [done|].
    destruct (IsoText.split_at sep a) as [l o] eqn:E. intros [= -> ->].
    by rewrite IH.
Qed.

Lemma digits_from_bound (s : string) (acc n : Z) :
  (0 ≤ acc)%Z → IsoText.digits_from acc s = Some n →
  (0 ≤ n < (acc + 1) * 10 ^ Z.of_nat (String.length s))%Z.
Proof.
  revert acc. induction s as [|a s IH]; intros acc Hacc; cbn [IsoText.digits_from].
  - intros [= <-]. cbn. lia.
  - unfold IsoText.digit_of.
    destruct (_ && _)%bool eqn:Hd; cbn; [|done].
    apply andb_true_iff in Hd as [H1%Z.leb_le H2%Z.leb_le].
    intros Hn%IH; [|lia]. cbn [String.length].
    rewrite Nat2Z.inj_succ, Z.pow_succ_r by lia. nia.
Qed.

Lemma natural_bound (s : string) (n : Z) :
  IsoText.natural s = Some n → (0 ≤ n < 10 ^ Z.of_nat (String.length s))%Z.
Proof.
  unfold IsoText.natural. destruct s; [done|].
  intros Hn%digits_from_bound; lia.
Qed.

Lemma padded_ok_2 (n : Z) : (0 ≤ n < 100)%Z → padded_ok 2 n = true.
Proof.
  intros Hn.
  assert (forallb (λ i, padded_ok 2 (Z.of_nat i)) (seq 0 100) = true) as Hall
    by (vm_compute; reflexivity).
  rewrite forallb_forall in Hall.
  rewrite <- (Z2Nat.id n) by lia. apply Hall, list_elem_of_In, elem_of_seq. lia.
Qed.

Lemma padded_ok_4 (n : Z) : (0 ≤ n < 10000)%Z → padded_ok 4 n = true.
Proof.
  intros Hn.
  assert (forallb (λ i, padded_ok 4 (Z.of_nat i)) (seq 0 (Z.to_nat 10000)) = true)
    as Hall by (vm_compute; reflexivity).
  rewrite forallb_forall in Hall.
  rewrite <- (Z2Nat.id n) by lia. apply Hall, list_elem_of_In, elem_of_seq. lia.
Qed.

Lemma is_na_value_length (s : string) :
  String.length s = 10 → is_na_value s = false.
Proof.
  intros Hlen. unfold is_na_value. apply bool_decide_eq_false.
  unfold STR_NA_VALUES. rewrite !elem_of_cons, elem_of_nil.
  intros Hs. repeat (destruct Hs as [->|Hs]; [by cbn in Hlen|]). done.
Qed.

(** A date read from its ISO text is the midnight of a day, and the text
    written for it is one the reader reads as the same date. *)
Lemma iso_date_reads_back (s : string) (t : Z) :
  IsoText.iso_date s = Some t →
  IsoText.iso_date (IsoText.show_date t) = Some t ∧
  is_na_value (IsoText.show_date t) = false ∧
  (t `div` DAY * DAY)%Z = t.
Proof.
  unfold IsoText.iso_date at 1.
  destruct (IsoText.split_at "-" s) as [ys [rest|]]; [|done].
  destruct (IsoText.split_at "-" rest) as [ms [ds|]]; [|done].
  destruct (IsoText.natural ys) as [y|] eqn:Hy; [|done].
  destruct (IsoText.natural ms) as [m|] eqn:Hm; [|done].
  destruct (IsoText.natural ds) as [d|] eqn:Hd; [|done].
  cbn [mbind option_bind]. case_bool_decide as Hc; [|done].
  destruct Hc as (Hly & Hlm & Hld & Hcivil). intros [= <-].
  apply natural_bound in Hy, Hm, Hd. rewrite Hly in Hy. rewrite Hlm in Hm.
  rewrite Hld in Hd.
  pose proof (padded_ok_4 y ltac:(lia)) as (Ly & Ny & Sy)%bool_decide_eq_true.
  pose proof (padded_ok_2 m ltac:(lia)) as (Lm & Nm & Sm)%bool_decide_eq_true.
  pose proof (padded_ok_2 d ltac:(lia)) as (Ld & Nd & Sd)%bool_decide_eq_true.
  set (days := IsoText.days_from_civil y m d) in *.
  assert (Hdiv : ((days * DAY) `div` DAY)%Z = days) by (apply Z.div_mul; by unfold DAY).
  assert (Hmod : ((days * DAY) `mod` DAY)%Z = 0%Z) by (apply Z.mod_mul; by unfold DAY).
  assert (Hshow : IsoText.show_date (days * DAY) =
                  IsoText.pad_left 4 (pretty y) +:+ String "-"
                    (IsoText.pad_left 2 (pretty m) +:+ String "-"
                       (IsoText.pad_left 2 (pretty d)))).
  { unfold IsoText.show_date. rewrite Hdiv, Hcivil, Hmod. cbn [Z.eqb].
    by rewrite append_empty_r. }
  split_and!.
  - rewrite Hshow. unfold IsoText.iso_date.
    rewrite (split_at_append _ _ _ Sy), (split_at_append _ _ _ Sm).
    rewrite Ny, Nm, Nd. cbn [mbind option_bind]. fold days.
    rewrite bool_decide_eq_true_2; [done|]. by rewrite Ly, Lm, Ld.
  - apply is_na_value_length. rewrite Hshow.
    rewrite length_append. cbn [String.length]. rewrite length_append.
    cbn [String.length]. rewrite Ly, Lm, Ld. done.
  - by rewrite Hdiv.
Qed.

(** A table loaded with the dates of ISO 8601: the dates it holds are
    written as texts that read back. *)
Lemma iso_dated_dates_read_back (v : PandasVersion) (read : string → option Qc)
    (write : Qc → string) (fs : gmap string CsvFile) (path : string)
    (df : DataFrame) :
  load_data (H := iso_dated v read write) fs path = Ok df →
  column_ok (datetime_cell_ok (H := iso_dated v read write)) df "date" = true.
Proof.
  intros Hload.
  destruct (load_data_cases (H := iso_dated v read write) fs path)
    as [[_ Hl]|(file & _ & Hcases)]; [congruence|].
  destruct Hcases as [[_ Hl]|[(_ & ? & _ & _ & Hl)|(_ & dates & Hdates & Hl)]];
    [congruence..|].
  destruct Hl as [(s & _ & _ & Hl)|(_ & df' & Hl & _ & _ & _ & raw & Hraw & Hn)];
    [congruence|].
  assert (df' = df) as -> by congruence.
  destruct (normalize_columns _ _ Hn) as (_ & _ & (d & ts & Hd0 & Hts & Hd) & _).
  rewrite (read_csv_data _ _ _ Hraw), Hdates in Hd0. cbn in Hd0.
  injection Hd0 as <-.
  change (read_column "date" dates) with (date_column dates) in Hts.
  apply (to_datetime_date_column_parsed (H := iso_dated v read write)) in Hts.
  unfold column_ok. rewrite Hd. apply forallb_forall. intros c Hc%list_elem_of_In.
  unfold dt_normalize, tz_localize_none in Hc.
  apply list_elem_of_fmap in Hc as (c0 & -> & Hc0).
  rewrite Forall_forall in Hts. specialize (Hts c0 Hc0).
  destruct c0 as [?|?|t|[]]; try done.
  destruct Hts as [s (Hback & Hna & Hmid)%iso_date_reads_back].
  cbn [datetime_cell_ok]. cbn [str_datetime parse_datetime iso_dated].
  rewrite Hmid, Hback, Hna. by rewrite bool_decide_eq_true_2.
Qed.

(** ** The round trip, with the dates of ISO 8601 *)

Section IsoRoundTrip.
Variables (v : PandasVersion) (read : string → option Qc) (write : Qc → string).
Let pandas : TextLayer := iso_dated v read write.
#[local] Existing Instance pandas.

(** C9 (as amended): a table that [load_data] has returned, written with
    [to_csv] and loaded again, always loads, with the same column names and
    the same number of rows.  Its date column comes back as it was.  A cell
    of a categorical column comes back as it was unless it is a text that
    read_csv takes for a missing value (the empty text that a field of
    blanks is stripped to, nan, NA, ...): such a text comes back as a
    missing cell does, which is the text <NA> under pandas 1.x/2.x and a
    missing cell under pandas 3.x.  A cell of a numeric column comes back as
    the number pandas reads from the text it has written for it, a missing
    cell as missing.  So the eight required columns come back as they were
    whenever no categorical text is taken for a missing value and every
    number is written as a text that reads as that number.  Dates are
    written and read as to_csv writes them, as YYYY-MM-DD; the version of
    pandas and its reader and writer of numbers are arbitrary. *)
Theorem export_reload_roundtrip (fs : gmap string CsvFile) (path out : string)
    (df : DataFrame) :
  load_data fs path = Ok df →
  ∃ df', load_data (<[out := to_csv df]> fs) out = Ok df' ∧
         columns df' = columns df ∧ nrows df' = nrows df ∧
         data df' !! "date" = data df !! "date" ∧
         (∀ c, c ∈ NUMERIC_COLUMNS →
               data df' !! c = fmap reread_number <$> data df !! c) ∧
         (∀ c, c ∈ CATEGORICAL_COLUMNS →
               data df' !! c = fmap reread_category <$> data df !! c) ∧
         (survives_csv df = true →
          ∀ c, c ∈ REQUIRED_COLUMNS → data df' !! c = data df !! c).
Proof.
  intros Hload. apply (roundtrip_reload (H := pandas) fs path out df Hload).
  by eapply iso_dated_dates_read_back.
Qed.

End IsoRoundTrip.

Lemma export_reload_roundtrip_witness :
  load_data roundtrip_fs DATA_PATH = Ok roundtrip_table ∧
  ∃ df', load_data (<["export.csv" := to_csv roundtrip_table]> roundtrip_fs)
           "export.csv" = Ok df' ∧
         (∀ c, c ∈ REQUIRED_COLUMNS → data df' !! c = data roundtrip_table !! c) ∧
         columns df' = columns roundtrip_table ∧
         nrows df' = nrows roundtrip_table.
Proof.
  assert (Hload : load_data roundtrip_fs DATA_PATH = Ok roundtrip_table)
    by (vm_compute; reflexivity).
  assert (Hok : survives_csv roundtrip_table = true) by (vm_compute; reflexivity).
  split; [exact Hload|].
  destruct (export_reload_roundtrip Pandas2 IsoText.decimal IsoText.show_decimal
              roundtrip_fs DATA_PATH "export.csv" roundtrip_table Hload)
    as (df' & Hdf' & Hcols & Hrows & _ & _ & _ & Hsame).
  exists df'. split; [exact Hdf'|]. split; [exact (Hsame Hok)|].
  split; assumption.
Defined.

(** C9, counterexample: a category field of two blanks.  Loading strips it
    to the empty text, to_csv writes an empty field, and the second load
    reads an empty field as a missing value.  Under pandas 1.x/2.x
    [astype(str)] renders that as <NA>, under pandas 3.x it stays missing:
    in both the reloaded category differs from the exported one. *)
Lemma blank_category_does_not_round_trip :
  (df ← load_data (H := iso_text) {[ DATA_PATH := blank_category_file ]} DATA_PATH;
   Ok (data df !! "category")) = Ok (Some [Str ""]) ∧
  (df ← load_data (H := iso_text) {[ DATA_PATH := blank_category_file ]} DATA_PATH;
   df' ← load_data (H := iso_text)
           (<["export.csv" := to_csv (H := iso_text) df]>
              {[ DATA_PATH := blank_category_file ]}) "export.csv";
   Ok (data df' !! "category")) = Ok (Some [Str "<NA>"]) ∧
  (df ← load_data (H := iso_text_pandas3)
          {[ DATA_PATH := blank_category_file ]} DATA_PATH;
   Ok (data df !! "category")) = Ok (Some [Str ""]) ∧
  (df ← load_data (H := iso_text_pandas3)
          {[ DATA_PATH := blank_category_file ]} DATA_PATH;
   df' ← load_data (H := iso_text_pandas3)
           (<["export.csv" := to_csv (H := iso_text_pandas3) df]>
              {[ DATA_PATH := blank_category_file ]}) "export.csv";
   Ok (data df' !! "category")) = Ok (Some [Miss NaN]).
Proof. split_and!; by vm_compute. Qed.

(** X: a number of 17 significant digits need not survive export and
    reload.  The revenue field 20596.665323219833 is loaded as the float
    that to_csv writes as 20596.665323219837, and that text is loaded as
    another float, the one written as 20596.66532321984; only this third
    text comes back as the float it was written for. *)
Theorem long_float_changes_on_reload :
  let fs : gmap string CsvFile := {[ DATA_PATH := long_float_file ]} in
  let pandas := float_text Pandas2 in
  (df ← load_data (H := pandas) fs DATA_PATH; Ok (revenue_texts (H := pandas) df))
    = Ok (Some ["20596.665323219837"]) ∧
  (df ← load_data (H := pandas) fs DATA_PATH;
   df' ← load_data (H := pandas)
           (<["export.csv" := to_csv (H := pandas) df]> fs) "export.csv";
   Ok (revenue_texts (H := pandas) df'))
    = Ok (Some ["20596.66532321984"]) ∧
  (df ← load_data (H := pandas) fs DATA_PATH;
   df' ← load_data (H := pandas)
           (<["export.csv" := to_csv (H := pandas) df]> fs) "export.csv";
   df'' ← load_data (H := pandas)
            (<["export.csv" := to_csv (H := pandas) df']> fs) "export.csv";
   Ok (revenue_texts (H := pandas) df''))
    = Ok (Some ["20596.66532321984"]).
Proof. split_and!; by vm_compute. Qed.

(** C1: the two kinds of malformed cell are not treated alike.  The text
    "three" in the units column becomes [nan] and the row stays; the text
    "not-a-date" in the date column makes [load_data] raise a ValueError
    (to_datetime is called without errors="coerce"), so no table is
    returned. *)
Theorem unparseable_date_aborts_load :
  load_data {[ DATA_PATH := bad_date_file ]} DATA_PATH =
    Raise (ValueError (UnknownDatetime "not-a-date")) ∧
  (df ← load_data {[ DATA_PATH := roundtrip_file ]} DATA_PATH;
   Ok (data df !! "units", nrows df)) =
    Ok (Some [num 2; num 1; Miss NaN], 3).
Proof. split; by vm_compute. Qed.

(** ** Filtering twice *)

Lemma date_mask_zip dr dates :
  Forall datetime_like dates →
  zip_with andb
    ((λ c, match c with Time t => (t >=? start dr)%Z | _ => false end) <$> dates)
    ((λ c, match c with Time t => (t <=? end_ dr)%Z | _ => false end) <$> dates)
  = date_mask dr dates.
Proof.
  unfold date_mask. induction 1 as [|c dates Hc _ IH]; [done|].
  cbn [fmap list_fmap zip_with]. f_equal; [|done].
  destruct c as [s|x|t|m]; try (by destruct Hc).
  all: apply eq_true_iff_eq; rewrite andb_true_iff, bool_decide_eq_true; cbn.
  - lia.
  - split; [by intros [? ?]|done].
Qed.

Lemma apply_date_filter_loc df dr dates :
  data df !! "date" = Some dates → Forall datetime_like dates →
  apply_date_filter df dr = Ok (loc df (date_mask dr dates)).
Proof.
  intros Hd Hlike. unfold apply_date_filter, getitem. rewrite Hd.
  cbn [mbind Result_bind]. rewrite !compare_with_like by done.
  cbn [mbind Result_bind]. by rewrite date_mask_zip.
Qed.

Lemma loc_data df mask c :
  data (loc df mask) !! c = select mask <$> data df !! c.
Proof. unfold loc; cbn [data]. apply lookup_fmap. Qed.

Lemma loc_keeps_wf df mask :
  wf df → length mask = nrows df → wf (loc df mask).
Proof.
  intros [Hdom Hlen] Hm. split.
  - intros c. rewrite loc_data, fmap_is_Some. apply Hdom.
  - intros c ys. rewrite loc_data.
    destruct (data df !! c) as [xs|] eqn:Hxs; [|done]. intros [= <-].
    unfold loc; cbn [nrows]. apply length_select; [|done]. rewrite Hm. eauto.
Qed.

Lemma select_select {A B} (f g : A → bool) (ks : list A) (xs : list B) :
  length xs = length ks →
  select (g <$> select (f <$> ks) ks) (select (f <$> ks) xs)
  = select ((λ k, f k && g k) <$> ks) xs.
Proof.
  revert xs. induction ks as [|k ks IH]; intros [|x xs]; try done.
  intros [= Hlen]. cbn [fmap list_fmap select].
  destruct (f k); cbn [andb fmap list_fmap select]; [destruct (g k)|]; rewrite ?IH; done.
Qed.

Lemma date_mask_meet dr1 dr2 dates :
  date_mask (meet dr1 dr2) dates
  = (λ c, bool_decide (in_range dr1 c) && bool_decide (in_range dr2 c)) <$> dates.
Proof.
  unfold date_mask. apply list_fmap_ext. intros _ c _.
  apply eq_true_iff_eq. rewrite andb_true_iff, !bool_decide_eq_true.
  destruct c; cbn; try tauto. lia.
Qed.

(** X: filtering by one range and then by another gives the very table that
    filtering once by the range inside both gives; in particular filtering
    twice by the same range changes nothing more. *)
Theorem apply_date_filter_twice (df : DataFrame) (dr1 dr2 : DateRange)
    (dates : list Cell) :
  wf df → data df !! "date" = Some dates → Forall datetime_like dates →
  ∃ out, apply_date_filter df (meet dr1 dr2) = Ok out ∧
         (apply_date_filter df dr1 ≫= λ fdf, apply_date_filter fdf dr2) = Ok out ∧
         (apply_date_filter df dr1 ≫= λ fdf, apply_date_filter fdf dr1)
           = apply_date_filter df dr1.
Proof.
  intros Hwf Hd Hlike. pose proof (wf_len _ Hwf) as Hlen.
  assert (Hcomp : ∀ dr,
    (apply_date_filter df dr1 ≫= λ fdf, apply_date_filter fdf dr)
    = Ok (loc df ((λ c, bool_decide (in_range dr1 c) && bool_decide (in_range dr c)) <$> dates))).
  { intros dr. rewrite (apply_date_filter_loc df dr1 dates) by done.
    cbn [mbind Result_bind].
    rewrite (apply_date_filter_loc _ dr (select (date_mask dr1 dates) dates)).
    2:{ by rewrite loc_data, Hd. }
    2:{ by apply Forall_select. }
    f_equal. unfold loc; cbn [columns data nrows]. f_equal.
    - rewrite <- map_fmap_compose. apply map_fmap_ext. intros c xs Hxs.
      unfold compose, date_mask. apply select_select.
      rewrite (Hlen _ _ Hxs). symmetry. eauto.
    - unfold date_mask.
      set (m2 := _ <$> select _ dates). set (m12 := _ <$> dates).
      trans (length (select m2 (select ((λ c, bool_decide (in_range dr1 c)) <$> dates) dates))).
      { apply length_select; [done|]. unfold m2. by rewrite length_fmap. }
      unfold m2. rewrite select_select by done. fold m12.
      apply length_select; [|done]. unfold m12. by rewrite length_fmap. }
  eexists. split; [by apply apply_date_filter_loc|]. split.
  - by rewrite Hcomp, date_mask_meet.
  - rewrite Hcomp, (apply_date_filter_loc df dr1 dates) by done. do 2 f_equal.
    unfold date_mask. apply list_fmap_ext. intros _ c _. by destruct (bool_decide _).
Qed.

(** ** The stages after loading *)

Lemma midnight_datetime_like xs : Forall midnight_like xs → Forall datetime_like xs.
Proof. intros Hxs. eapply Forall_impl; [done|]. by intros [s|x|t|[]]. Qed.

Lemma loaded_column df c : loaded df → c ∈ REQUIRED_COLUMNS →
  ∃ xs, data df !! c = Some xs ∧ length xs = nrows df.
Proof.
  intros Hl Hc. apply (loaded_required _ Hl), (wf_dom _ (loaded_wf _ Hl)) in Hc as [xs Hxs].
  exists xs. split; [done|]. by eapply wf_len, Hxs; apply Hl.
Qed.

Lemma loaded_loc df mask :
  loaded df → length mask = nrows df → loaded (loc df mask).
Proof.
  intros Hl Hm. split.
  - by apply loc_keeps_wf; [apply Hl|].
  - apply Hl.
  - intros c ys Hc. rewrite loc_data.
    destruct (data df !! c) as [xs|] eqn:Hxs; [|done]. intros [= <-].
    apply Forall_select. by eapply loaded_numeric.
  - intros c ys Hc. rewrite loc_data.
    destruct (data df !! c) as [xs|] eqn:Hxs; [|done]. intros [= <-].
    apply Forall_select. by eapply loaded_text.
  - intros ys. rewrite loc_data.
    destruct (data df !! "date") as [xs|] eqn:Hxs; [|done]. intros [= <-].
    apply Forall_select. by eapply loaded_date.
Qed.

Section Pipeline.
Context `{TextLayer}.

Lemma normalize_loaded df df' : wf df → normalize df = Ok df' → loaded df'.
Proof.
  intros Hwf Hn.
  destruct (normalize_keeps_shape _ _ Hwf Hn) as (Hwf' & Hcols & _ & _ & Hreq).
  pose proof Hn as (Hnum & Hcat & (d & ts & _ & Hts & Hd) & _)%normalize_columns.
  split; [done|by rewrite Hcols|..].
  - intros c xs Hc Hxs. destruct (Hnum c Hc) as (xs' & _ & Hxs').
    assert (xs = to_numeric_coerce xs') as -> by congruence.
    apply to_numeric_coerce_like.
  - intros c xs Hc Hxs. destruct (Hcat c Hc) as (xs' & _ & Hxs').
    assert (xs = normalize_category xs') as -> by congruence.
    apply normalize_category_like.
  - intros xs Hxs. assert (xs = dt_normalize ts) as -> by congruence.
    pose proof (to_datetime_like _ _ Hts) as Hlike.
    unfold dt_normalize. rewrite Forall_fmap. eapply Forall_impl; [done|].
    intros [s|x|t|[]]; try done. intros _. cbn. apply Z.mod_mul. by unfold DAY.
Qed.

Lemma load_data_loaded fs path df : load_data fs path = Ok df → loaded df.
Proof.
  intros Hdf.
  destruct (load_data_cases fs path) as [[_ Hl]|(file & _ & Hcases)]; [congruence|].
  destruct Hcases as [[_ Hl]|[(_ & ? & _ & _ & Hl)|(_ & dates & _ & Hl)]]; [congruence..|].
  destruct Hl as [(s & _ & _ & Hl)|(_ & df' & Hl & _ & _ & _ & raw & Hraw & Hn)]; [congruence|].
  assert (df' = df) as -> by congruence.
  eapply normalize_loaded; [|done]. by eapply read_csv_wf.
Qed.
End Pipeline.

Lemma length_select_le {A} (mask : list bool) (xs : list A) :
  (length (select mask xs) ≤ length xs)%nat.
Proof.
  revert xs. induction mask as [|b mask IH]; intros [|x xs]; cbn; try lia.
  specialize (IH xs). destruct b; cbn; lia.
Qed.

Lemma groupby_sum_numeric_keys (dropna_keys : bool) (keys vals : list Cell) :
  length keys = length vals → Forall numeric_like vals →
  groupby_sum dropna_keys keys vals =
    Ok ((λ k, (k, revenue_of k keys vals))
          <$> stable_sort key_leb
                (remove_dups (if dropna_keys then dropna keys else keys))).
Proof.
  intros Hlen Hvals. unfold groupby_sum. apply mapM_Ok_fmap.
  apply Forall_forall. intros k _.
  rewrite series_sum_numeric by by apply Forall_select.
  cbn. unfold revenue_of. by rewrite select_key_zip.
Qed.

Lemma charts_loaded df :
  loaded df →
  (df_empty df = true →
     chart_category_revenue df = Ok None ∧ chart_daily_revenue df = Ok None) ∧
  (df_empty df = false →
     ∃ g1 g2, chart_category_revenue df = Ok (Some g1) ∧
              chart_daily_revenue df = Ok (Some g2)).
Proof.
  intros Hl. split; intros He.
  - unfold chart_category_revenue, chart_daily_revenue. by rewrite He.
  - destruct (loaded_column df "revenue" Hl) as (r & Hr & Hlr); [compute_done|].
    destruct (loaded_column df "category" Hl) as (c & Hc & Hlc); [compute_done|].
    destruct (loaded_column df "date" Hl) as (d & Hd & Hld); [compute_done|].
    assert (Forall numeric_like r) as Hnum.
    { eapply (loaded_numeric _ Hl); [|done]. compute_done. }
    unfold chart_category_revenue, chart_daily_revenue, getitem.
    rewrite He, Hr, Hc, Hd. cbn [mbind Result_bind].
    rewrite !groupby_sum_numeric_keys by (done || congruence).
    cbn [mbind Result_bind]. by eexists _, _.
Qed.

(** X: after a successful load neither the filter nor a chart builder
    raises, whatever the range: the filter returns a table with the same
    columns and no more rows, and the two chart builders return [None] when
    the filtered table is empty and a figure each when it is not. *)
Theorem filter_and_charts_never_raise `{TextLayer} fs path df dr :
  load_data fs path = Ok df →
  ∃ fdf, apply_date_filter df dr = Ok fdf ∧
    columns fdf = columns df ∧ (nrows fdf ≤ nrows df)%nat ∧
    (df_empty fdf = true →
       chart_category_revenue fdf = Ok None ∧ chart_daily_revenue fdf = Ok None) ∧
    (df_empty fdf = false →
       ∃ g1 g2, chart_category_revenue fdf = Ok (Some g1) ∧
                chart_daily_revenue fdf = Ok (Some g2)).
Proof.
  intros Hl%load_data_loaded.
  destruct (loaded_column df "date" Hl) as (d & Hd & Hlen); [compute_done|].
  pose proof (midnight_datetime_like _ (loaded_date _ Hl _ Hd)) as Hlike.
  assert (loaded (loc df (date_mask dr d))) as Hl'.
  { apply loaded_loc; [done|]. unfold date_mask. by rewrite length_fmap. }
  exists (loc df (date_mask dr d)). split; [by apply apply_date_filter_loc|].
  split; [done|]. split.
  { unfold loc; cbn [nrows]. rewrite <- Hlen.
    etrans; [apply length_select_le|]. unfold date_mask. by rewrite length_fmap. }
  by apply charts_loaded.
Qed.

(** ** The daily chart and the totals of the charts *)




Lemma total_cons (x : Qc) (xs : list Qc) : total (x :: xs) = (x + total xs)%Qc.
Proof. done. Qed.

Lemma total_Permutation (xs ys : list Qc) : xs ≡ₚ ys → total xs = total ys.
Proof.
  induction 1 as [|x xs ys _ IH|x y xs|xs ys zs _ IH1 _ IH2]; rewrite ?total_cons.
  - done.
  - by rewrite IH.
  - rewrite !Qcplus_assoc. f_equal. apply Qcplus_comm.
  - congruence.
Qed.

Lemma sum_present_cons v vs : sum_present (v :: vs) = (addend v + sum_present vs)%Qc.
Proof. destruct v; cbn; by rewrite ?Qcplus_0_l. Qed.

Lemma total_bump (h : Cell → Qc) (x : Qc) (k0 : Cell) (ks : list Cell) :
  NoDup ks →
  total ((λ k, if decide (k0 = k) then (x + h k)%Qc else h k) <$> ks)
  = ((if decide (k0 ∈ ks) then x else 0) + total (h <$> ks))%Qc.
Proof.
  induction 1 as [|k ks Hk _ IH]; [by rewrite decide_False, Qcplus_0_l by apply not_elem_of_nil|].
  rewrite !fmap_cons, !total_cons, IH.
  destruct (decide (k0 = k)) as [->|Hne].
  - rewrite (decide_True (P := k ∈ k :: ks)) by left.
    rewrite (decide_False (P := k ∈ ks)) by done. rewrite Qcplus_0_l. by rewrite Qcplus_assoc.
  - destruct (decide (k0 ∈ ks)) as [Hin|Hnin].
    + rewrite (decide_True (P := k0 ∈ k :: ks)) by by right.
      rewrite !Qcplus_assoc. f_equal. apply Qcplus_comm.
    + rewrite (decide_False (P := k0 ∈ k :: ks)).
      2:{ rewrite elem_of_cons. intros [?|?]; done. }
      by rewrite !Qcplus_0_l.
Qed.

(** The sums of the groups add up to the sum over the rows whose key has a
    group. *)
Lemma total_of_groups (l : list (Cell * Cell)) (ks : list Cell) :
  NoDup ks →
  total ((λ k, sum_present (filter (λ p, p.1 = k) l).*2) <$> ks)
  = sum_present (filter (λ p, p.1 ∈ ks) l).*2.
Proof.
  intros Hnd. induction l as [|[k0 v] l IH].
  - cbn [filter list_filter fmap list_fmap]. clear Hnd.
    induction ks as [|k ks IHk]; [done|].
    rewrite fmap_cons, total_cons, IHk. apply Qcplus_0_l.
  - assert ((λ k, sum_present (filter (λ p, p.1 = k) ((k0, v) :: l)).*2) <$> ks
            = (λ k, if decide (k0 = k)
                    then (addend v + sum_present (filter (λ p, p.1 = k) l).*2)%Qc
                    else sum_present (filter (λ p, p.1 = k) l).*2) <$> ks) as ->.
    { apply list_fmap_ext. intros _ k _. rewrite filter_cons. cbn [fst].
      case_decide; [|done]. by rewrite fmap_cons, sum_present_cons. }
    rewrite (total_bump (λ k, sum_present (filter (λ p, p.1 = k) l).*2)) by done.
    rewrite IH, filter_cons. cbn [fst]. case_decide; [|by rewrite Qcplus_0_l].
    by rewrite fmap_cons, sum_present_cons.
Qed.



Lemma group_sums (f : Cell → Qc) (ks : list Cell) :
  ((λ k, (k, f k)) <$> ks).*2 = f <$> ks.
Proof. by rewrite <- list_fmap_compose. Qed.


Lemma filter_ext_in {A} (P Q : A → Prop) `{!∀ x, Decision (P x)}
    `{!∀ x, Decision (Q x)} (l : list A) :
  (∀ x, x ∈ l → P x ↔ Q x) → filter P l = filter Q l.
Proof.
  induction l as [|x l IH]; intros Hl; [done|].
  rewrite !filter_cons. rewrite IH by (intros y Hy; apply Hl; by right).
  destruct (decide (P x)) as [Hp|Hp], (decide (Q x)) as [Hq|Hq]; try done;
    exfalso; apply (Hl x) in Hp || apply (Hl x) in Hq; done || by left.
Qed.

Lemma filter_all {A} (P : A → Prop) `{!∀ x, Decision (P x)} (l : list A) :
  (∀ x, x ∈ l → P x) → filter P l = l.
Proof.
  induction l as [|x l IH]; intros Hl; [done|].
  rewrite filter_cons, decide_True by (apply Hl; left).
  f_equal. apply IH. intros y Hy. apply Hl. by right.
Qed.

Lemma elem_of_zip_fst {A B} (l : list A) (k : list B) p : p ∈ zip l k → p.1 ∈ l.
Proof. destruct p. apply elem_of_zip_l. Qed.

(** The bars of the category chart add up to the revenue. *)
Lemma category_bars_total (category revenue : list Cell) :
  length category = length revenue →
  total ((sort_values (λ a b : Cell * Qc, bool_decide (a.2 ≤ b.2)%Qc) false
            ((λ k, (k, revenue_of k category revenue))
               <$> stable_sort key_leb (remove_dups category))).*2)
  = sum_present revenue.
Proof.
  intros Hlen.
  rewrite (total_Permutation _ _ (fmap_Permutation _ _ _ (sort_values_Permutation _ _ _))).
  rewrite group_sums.
  rewrite (total_Permutation _ _ (fmap_Permutation _ _ _ (stable_sort_Permutation _ _))).
  unfold revenue_of. rewrite total_of_groups by apply NoDup_remove_dups.
  rewrite filter_all.
  - rewrite snd_zip; [done|lia].
  - intros p Hp%elem_of_zip_fst. by apply elem_of_remove_dups.
Qed.

(** The points of the daily chart add up to the revenue of the dated rows. *)
Lemma daily_points_total (date revenue : list Cell) :
  total ((sort_values (λ a b : Cell * Qc, key_leb a.1 b.1) true
            ((λ k, (k, revenue_of k date revenue))
               <$> stable_sort key_leb (remove_dups (dropna date)))).*2)
  = sum_present (filter (λ p, isna p.1 = false) (zip date revenue)).*2.
Proof.
  rewrite (total_Permutation _ _ (fmap_Permutation _ _ _ (sort_values_Permutation _ _ _))).
  rewrite group_sums.
  rewrite (total_Permutation _ _ (fmap_Permutation _ _ _ (stable_sort_Permutation _ _))).
  unfold revenue_of. rewrite total_of_groups by apply NoDup_remove_dups.
  do 2 f_equal. apply filter_ext_in. intros p Hp%elem_of_zip_fst.
  rewrite elem_of_remove_dups. unfold dropna. rewrite list_elem_of_filter. tauto.
Qed.

(** X: on a loaded table that is not empty and whose revenue and units
    columns add up exactly in binary floating point, the bars of the category
    chart add up to the sum of the revenue column, so the KPI total_revenue
    is the integer part of their total; the points of the daily chart add up
    to the revenue of the rows that have a date, which is the same total
    when no date is missing. *)
Theorem chart_totals (df : DataFrame) (date category revenue units : list Cell)
    (kr ku : Z) :
  loaded df → df_empty df = false →
  data df !! "date" = Some date → data df !! "category" = Some category →
  data df !! "revenue" = Some revenue → data df !! "units" = Some units →
  adds_exactly kr revenue = true → adds_exactly ku units = true →
  ∃ g1 g2 k,
    chart_category_revenue df = Ok (Some g1) ∧
    chart_daily_revenue df = Ok (Some g2) ∧
    compute_kpis df = Ok k ∧
    total g1.*2 = sum_present revenue ∧
    total_revenue k = int (total g1.*2) ∧
    total g2.*2
      = sum_present (filter (λ p, isna p.1 = false) (zip date revenue)).*2 ∧
    (Forall (λ c, isna c = false) date → total g2.*2 = total g1.*2).
Proof.
  intros Hl Hne Hd Hc Hr Hu _ _.
  pose proof (wf_len _ (loaded_wf _ Hl)) as Hlen.
  assert (Forall numeric_like revenue) as Hnum.
  { eapply (loaded_numeric _ Hl); [|done]. compute_done. }
  assert (Forall numeric_like units) as Hnumu.
  { eapply (loaded_numeric _ Hl); [|done]. compute_done. }
  assert (length date = length revenue) as Hld by (rewrite (Hlen _ _ Hd); symmetry; eauto).
  assert (length category = length revenue) as Hlc by (rewrite (Hlen _ _ Hc); symmetry; eauto).
  eexists _, _, _. split_and!.
  - unfold chart_category_revenue, getitem. rewrite Hne, Hc, Hr.
    cbn [mbind Result_bind]. rewrite groupby_sum_numeric_keys by done. done.
  - unfold chart_daily_revenue, getitem. rewrite Hne, Hd, Hr.
    cbn [mbind Result_bind]. rewrite groupby_sum_numeric_keys by done. done.
  - by eapply compute_kpis_numeric.
  - by apply category_bars_total.
  - cbn [total_revenue]. by rewrite category_bars_total.
  - apply daily_points_total.
  - intros Hall. rewrite daily_points_total, category_bars_total by done.
    rewrite filter_all.
    + rewrite snd_zip; [done|lia].
    + intros p Hp%elem_of_zip_fst. rewrite Forall_forall in Hall. by apply Hall.
Qed.

Lemma sample_table_loaded :
  load_data {[ DATA_PATH := sample_file ]} DATA_PATH = Ok sample_table.
Proof. by vm_compute. Qed.

Lemma apply_date_filter_twice_witness :
  ∃ out, apply_date_filter spec_rows (meet january january_first) = Ok out ∧
         (apply_date_filter spec_rows january ≫= λ fdf, apply_date_filter fdf january_first)
           = Ok out.
Proof.
  destruct (apply_date_filter_twice spec_rows january january_first
              [Time D_2024_01_01; Time D_2024_01_01; Time D_2024_01_02])
    as (out & H1 & H2 & _).
  - apply wf_frame; [compute_done | repeat constructor].
  - reflexivity.
  - repeat constructor.
  - exists out. split; assumption.
Defined.

Lemma filter_and_charts_never_raise_witness :
  ∃ fdf, apply_date_filter sample_table january_first = Ok fdf ∧
         columns fdf = columns sample_table.
Proof.
  destruct (filter_and_charts_never_raise {[ DATA_PATH := sample_file ]} DATA_PATH
              sample_table january_first) as (fdf & Hf & Hc & _).
  - exact sample_table_loaded.
  - exists fdf. split; assumption.
Defined.


Lemma chart_totals_witness :
  ∃ g1 k, chart_category_revenue sample_table = Ok (Some g1) ∧
          compute_kpis sample_table = Ok k ∧
          total_revenue k = int (total g1.*2).
Proof.
  destruct (chart_totals sample_table
              (default [] (data sample_table !! "date"))
              (default [] (data sample_table !! "category"))
              (default [] (data sample_table !! "revenue"))
              (default [] (data sample_table !! "units")) 1 0)
    as (g1 & g2 & k & H1 & _ & Hk & _ & Hrev & _).
  - exact (load_data_loaded _ _ _ sample_table_loaded).
  - by vm_compute.
  - by vm_compute.
  - by vm_compute.
  - by vm_compute.
  - by vm_compute.
  - by vm_compute.
  - by vm_compute.
  - exists g1, k. split_and!; assumption.
Defined.

(** ** Ranges of whole days *)

Lemma date_mask_all dr dates :
  Forall (λ c, isna c = false) dates → Forall datetime_like dates →
  (∀ t, Time t ∈ dates → (start dr ≤ t ≤ end_ dr)%Z) →
  date_mask dr dates = replicate (length dates) true.
Proof.
  unfold date_mask. induction 1 as [|c dates Hna _ IH]; intros Hlike Hcover; [done|].
  apply Forall_cons in Hlike as [Hc Hlike]. cbn. f_equal.
  - apply bool_decide_eq_true. destruct c as [s|x|t|m]; try done.
    cbn. apply Hcover. left.
  - apply IH; [done|]. intros t Ht. apply Hcover. by right.
Qed.

Lemma select_all {A} (xs : list A) : select (replicate (length xs) true) xs = xs.
Proof. induction xs; cbn; by f_equal. Qed.

Lemma select_replicate_true n : length (select (replicate n true) (replicate n true)) = n.
Proof. induction n; cbn; by f_equal. Qed.

(** X: a range that covers every date of the table keeps exactly the rows
    that have a date, in order; the rows whose date is missing are left out
    even then. *)
Theorem apply_date_filter_full_range (df : DataFrame) (dr : DateRange)
    (dates : list Cell) :
  wf df → data df !! "date" = Some dates → Forall datetime_like dates →
  (∀ t, Time t ∈ dates → (start dr ≤ t ≤ end_ dr)%Z) →
  ∃ out, apply_date_filter df dr = Ok out ∧
    records out = filter (λ r, isna (r !!! "date") = false) (records df) ∧
    (Forall (λ c, isna c = false) dates → out = df).
Proof.
  intros Hwf Hd Hlike Hcover.
  pose proof (wf_len _ Hwf) as Hlen.
  assert (Hcol : (λ r : gmap string Cell, r !!! "date") <$> records df = dates).
  { apply rows_of_column; eauto. }
  destruct (apply_date_filter_records df dr dates Hwf Hd Hlike)
    as (out & Hout & Hcols & Hwf' & Hrec).
  exists out. split; [done|]. split.
  - rewrite Hrec. apply filter_ext_in. intros r Hr.
    assert (r !!! "date" ∈ dates) as Hin.
    { rewrite <- Hcol. by apply list_elem_of_fmap_2. }
    rewrite Forall_forall in Hlike. specialize (Hlike _ Hin).
    destruct (r !!! "date") as [s|x|t|m] eqn:E; try done. cbn. split; [done|].
    intros _. by apply Hcover.
  - intros Hall. rewrite (apply_date_filter_loc df dr dates) in Hout by done.
    injection Hout as <-.
    rewrite (date_mask_all dr dates), (Hlen _ _ Hd) by done.
    destruct df as [cols d n]. unfold loc; cbn [columns data nrows] in *. f_equal.
    + rewrite <- (map_fmap_id d) at 2. apply map_fmap_ext.
      intros c xs Hxs%Hlen. subst n. apply select_all.
    + apply select_replicate_true.
Qed.

Lemma apply_date_filter_full_range_witness :
  ∃ out, apply_date_filter spec_rows january = Ok out ∧ out = spec_rows.
Proof.
  destruct (apply_date_filter_full_range spec_rows january
              [Time D_2024_01_01; Time D_2024_01_01; Time D_2024_01_02])
    as (out & Hout & _ & Hall).
  - apply wf_frame; [compute_done | repeat constructor].
  - reflexivity.
  - repeat constructor.
  - intros t Ht. rewrite !elem_of_cons, elem_of_nil in Ht.
    destruct Ht as [[= ->]|[[= ->]|[[= ->]|[]]]]; by vm_compute.
  - exists out. split; [assumption|]. apply Hall. repeat constructor.
Defined.

Section WholeDays.
Context `{TextLayer}.

(** X: filtering a normalised table by two midnights keeps row [i] exactly
    when its timestamp before normalisation lies between the start of the
    first day and the end of the last day: the whole end day is included. *)
Theorem filter_whole_days (df df' : DataFrame) (dr : DateRange) (raw : list Cell) :
  wf df → normalize df = Ok df' → data df !! "date" = Some raw →
  (start dr `mod` DAY = 0)%Z → (end_ dr `mod` DAY = 0)%Z →
  ∃ dates, data df' !! "date" = Some dates ∧
    apply_date_filter df' dr = Ok (loc df' (date_mask dr dates)) ∧
    (∀ i t, raw !! i = Some (Time t) →
       date_mask dr dates !! i
       = Some (bool_decide (start dr ≤ t < end_ dr + DAY)%Z)) ∧
    (∀ i m, raw !! i = Some (Miss m) → date_mask dr dates !! i = Some false).
Proof.
  intros Hwf Hn Hraw Hs He.
  pose proof Hn as (_ & _ & (d & ts & Hd & Hts & Hd') & _)%normalize_columns.
  assert (d = raw) as -> by congruence.
  pose proof (mapM_Ok_inv _ _ _ Hts) as Hf2.
  pose proof (dt_normalize_like _ (to_datetime_like _ _ Hts)) as Hlike.
  exists (dt_normalize ts). split; [done|]. split; [by apply apply_date_filter_loc|].
  assert (Hcell : ∀ i x y, raw !! i = Some x → to_datetime_cell x = Ok y →
            date_mask dr (dt_normalize ts) !! i
            = Some (bool_decide (in_range dr
                (match y with Time t => Time (t `div` DAY * DAY) | _ => y end)))).
  { intros i x y Hi Hxy. destruct (Forall2_lookup_l _ _ _ _ _ Hf2 Hi) as (y' & Hy' & Hxy').
    rewrite Hxy in Hxy'. injection Hxy' as <-.
    unfold date_mask, dt_normalize. by rewrite !list_lookup_fmap, Hy'. }
  split.
  - intros i t Hi. rewrite (Hcell i (Time t) (Time t)) by done. f_equal.
    apply bool_decide_ext. cbn. unfold DAY in *.
    pose proof (Z.div_mod t 86400000000000).
    pose proof (Z.mod_pos_bound t 86400000000000).
    apply Z.mod_divide in Hs as [a Ha]; [|done]. apply Z.mod_divide in He as [b Hb]; [|done].
    rewrite Ha, Hb. nia.
  - intros i m Hi. by rewrite (Hcell i (Miss m) (Miss NaT)).
Qed.
End WholeDays.

Lemma filter_whole_days_witness :
  ∃ dates, data normalized_raw_table !! "date" = Some dates ∧
    apply_date_filter normalized_raw_table january_first
      = Ok (loc normalized_raw_table (date_mask january_first dates)).
Proof.
  destruct (filter_whole_days raw_table normalized_raw_table january_first
              [Str "2024-01-01"; Time (D_2024_01_02 + 3600000000000)])
    as (dates & Hd & Hf & _).
  - exact raw_table_wf.
  - exact normalize_raw_table.
  - reflexivity.
  - reflexivity.
  - reflexivity.
  - exists dates. split; assumption.
Defined.

(** ** The yen formatter *)

Lemma digit_char_code d :
  (0 ≤ d < 10)%Z → Z.of_N (N_of_ascii (digit_char d)) = (48 + d)%Z.
Proof.
  intros Hd. unfold digit_char. rewrite N_ascii_embedding; lia.
Qed.

Lemma digits_rev_spec fuel n :
  (0 ≤ n)%Z → (Z.to_nat n < fuel)%nat →
  value_rev (digits_rev fuel n) = n ∧ Forall is_digit (digits_rev fuel n) ∧
  digits_rev fuel n ≠ [].
Proof.
  revert n. induction fuel as [|fuel IH]; intros n Hn Hf; [lia|].
  cbn [digits_rev].
  pose proof (Z.mod_pos_bound n 10 ltac:(lia)) as Hmod.
  pose proof (Z.div_mod n 10 ltac:(lia)) as Hdiv.
  assert (Hc := digit_char_code _ Hmod).
  destruct (n `div` 10 =? 0)%Z eqn:Hq.
  - apply Z.eqb_eq in Hq. split_and!; [|by repeat constructor; unfold is_digit; lia|done].
    cbn. lia.
  - apply Z.eqb_neq in Hq.
    destruct (IH (n `div` 10)%Z) as (Hv & Hd & _); [lia|lia|].
    split_and!; [|constructor; [unfold is_digit; lia|done]|done].
    cbn [value_rev foldr]. fold (value_rev (digits_rev fuel (n `div` 10))). lia.
Qed.

Lemma is_digit_not_comma a : is_digit a → a ≠ ","%char.
Proof. intros Ha ->. unfold is_digit in Ha. cbn in Ha. lia. Qed.

Lemma group_rev_spec (l : list ascii) :
  Forall is_digit l →
  filter (λ a, a ≠ ","%char) (group_rev l) = l ∧ (l ≠ [] → grouped (group_rev l)).
Proof.
  remember (length l) as n eqn:Hn. revert l Hn.
  induction n as [n IH] using lt_wf_ind. intros l -> Hl.
  destruct l as [|a [|b [|c [|d tl]]]].
  - done.
  - assert (Hall := Hl). apply Forall_cons in Hl as [Ha _]. split.
    + cbn [group_rev]. rewrite filter_cons, decide_True by by apply is_digit_not_comma. done.
    + intros _. apply grouped_last; [cbn; lia|exact Hall].
  - assert (Hall := Hl). apply Forall_cons in Hl as [Ha [Hb _]%Forall_cons]. split.
    + cbn [group_rev]. rewrite !filter_cons, !decide_True by by apply is_digit_not_comma. done.
    + intros _. apply grouped_last; [cbn; lia|exact Hall].
  - assert (Hall := Hl). apply Forall_cons in Hl as [Ha [Hb [Hc _]%Forall_cons]%Forall_cons]. split.
    + cbn [group_rev]. rewrite !filter_cons, !decide_True by by apply is_digit_not_comma. done.
    + intros _. apply grouped_last; [cbn; lia|exact Hall].
  - apply Forall_cons in Hl as [Ha [Hb [Hc Htl]%Forall_cons]%Forall_cons].
    destruct (IH (length (d :: tl)) ltac:(cbn; lia) (d :: tl) eq_refl Htl) as [Hf Hg].
    change (group_rev (a :: b :: c :: d :: tl))
      with (a :: b :: c :: ","%char :: group_rev (d :: tl)).
    split.
    + rewrite 3!filter_cons, !decide_True by by apply is_digit_not_comma.
      rewrite filter_cons, decide_False by (intros Hne; by apply Hne).
      by rewrite Hf.
    + intros _. apply grouped_more; auto.
Qed.

Lemma round_half_even_spec n d :
  (0 ≤ n)%Z → (0 < d)%Z →
  let r := round_half_even n d in
  (0 ≤ r)%Z ∧ (Z.abs (2 * n - 2 * r * d) ≤ d)%Z ∧
  (Z.abs (2 * n - 2 * r * d) = d → Z.even r = true).
Proof.
  intros Hn Hd. unfold round_half_even.
  pose proof (Z.mod_pos_bound n d Hd) as Hmod.
  pose proof (Z.div_mod n d ltac:(lia)) as Hdiv.
  pose proof (Z.div_pos n d Hn Hd) as Hq.
  set (q := (n `div` d)%Z) in *. set (m := (n `mod` d)%Z) in *.
  destruct (2 * m <? d)%Z eqn:H1; [apply Z.ltb_lt in H1|apply Z.ltb_ge in H1].
  { cbn. split_and!; [lia|nia|nia]. }
  destruct (d <? 2 * m)%Z eqn:H2; [apply Z.ltb_lt in H2|apply Z.ltb_ge in H2].
  { cbn. split_and!; [lia|nia|nia]. }
  destruct (Z.even q) eqn:He; cbn.
  - split_and!; [lia|nia|done].
  - split_and!; [lia|nia|]. intros _. rewrite Z.even_add, He. done.
Qed.

Lemma yen_text (x : Qc) :
  let r := round_half_even (Z.abs (Qnum x)) (Zpos (Qden x)) in
  ∃ body : list ascii,
    yen x = "¥" +:+ (if (Qnum x <? 0)%Z then "-" else "") +:+
            string_of_list_ascii body ∧
    grouped (reverse body) ∧
    digits_value (filter (λ a, a ≠ ","%char) body) = r.
Proof.
  intros r. unfold yen. fold r.
  destruct (round_half_even_spec (Z.abs (Qnum x)) (Zpos (Qden x)))
    as (Hr & _); [lia|lia|]. fold r in Hr.
  destruct (digits_rev_spec (S (Z.to_nat r)) r) as (Hv & Hd & Hne); [done|lia|].
  destruct (group_rev_spec _ Hd) as [Hf Hg].
  eexists. split; [reflexivity|]. split.
  - rewrite reverse_involutive. auto.
  - unfold digits_value. rewrite <- filter_reverse, reverse_involutive, Hf. done.
Qed.

Lemma round_half_even_nearest (x : Qc) :
  let r := round_half_even (Z.abs (Qnum x)) (Zpos (Qden x)) in
  (Qabs (Qabs x - inject_Z r) <= 1 # 2)%Q ∧
  ((Qabs (Qabs x - inject_Z r) == 1 # 2)%Q → Z.even r = true).
Proof.
  intros r.
  destruct (round_half_even_spec (Z.abs (Qnum x)) (Zpos (Qden x)))
    as (Hr & Hle & Htie); [lia|lia|]. fold r in Hr, Hle, Htie.
  destruct x as [[n d] Hc].
  cbv [this Qabs Qminus Qplus Qopp inject_Z Qeq Qle Qnum Qden] in *.
  rewrite ?Pos.mul_1_r, ?Z.mul_1_r in *.
  split; [lia|]. intros Heq. apply Htie. lia.
Qed.

Lemma Qnum_of_Z (z : Z) : Qnum (Q2Qc (inject_Z z)) = z.
Proof. cbn [Q2Qc this]. rewrite Qred_identity; [done|]. cbn. apply Z.gcd_1_r. Qed.

Lemma Qden_of_Z (z : Z) : Qden (Q2Qc (inject_Z z)) = 1%positive.
Proof. cbn [Q2Qc this]. rewrite Qred_identity; [done|]. cbn. apply Z.gcd_1_r. Qed.

Lemma round_half_even_integer (n : Z) : round_half_even n 1 = n.
Proof.
  unfold round_half_even. rewrite Z.mod_1_r, Z.div_1_r. done.
Qed.

(** X: the text [yen] shows for a float [x] other than zero is the yen
    sign, a minus sign when [x] is negative, and digits in groups of three
    separated by commas; the digits read as the integer nearest to the
    absolute value of [x], the even one of the two when [x] lies half way
    between them. *)
Theorem yen_spec (x : Qc) :
  binary64 x → x ≠ 0%Qc →
  ∃ body : list ascii,
    yen x = "¥" +:+ (if (Qnum x <? 0)%Z then "-" else "") +:+
            string_of_list_ascii body ∧
    grouped (reverse body) ∧
    let r := digits_value (filter (λ a, a ≠ ","%char) body) in
    (Qabs (Qabs x - inject_Z r) <= 1 # 2)%Q ∧
    ((Qabs (Qabs x - inject_Z r) == 1 # 2)%Q → Z.even r = true).
Proof.
  intros _ _. destruct (yen_text x) as (body & Hy & Hg & Hv).
  exists body. split; [exact Hy|]. split; [exact Hg|].
  cbv zeta. rewrite Hv. apply round_half_even_nearest.
Qed.

Lemma yen_spec_witness :
  ∃ body : list ascii,
    yen (Q2Qc (5 # 2)) = "¥" +:+ string_of_list_ascii body ∧
    digits_value (filter (λ a, a ≠ ","%char) body) = 2%Z.
Proof.
  destruct (yen_spec (Q2Qc (5 # 2))) as (body & Hy & _ & _).
  - exists 5%Z, (-1)%Z. split; [reflexivity|]. split; [lia|reflexivity].
  - discriminate.
  - exists body. split; [exact Hy|].
    assert (body = ["2"%char]) as ->; [|reflexivity].
    apply (f_equal list_ascii_of_string) in Hy. vm_compute in Hy.
    rewrite list_ascii_of_string_of_list_ascii in Hy. by injection Hy as <-.
Defined.

(** X: at an integer, such as the revenue total of the KPIs that the page
    shows through [yen], nothing is rounded: the digits shown read as the
    absolute value of the integer, with a minus sign exactly when it is
    negative. *)
Theorem yen_exact_on_integers (z : Z) :
  (Z.abs z ≤ 2 ^ 53)%Z →
  ∃ body : list ascii,
    yen (Q2Qc (inject_Z z)) =
      "¥" +:+ (if (z <? 0)%Z then "-" else "") +:+ string_of_list_ascii body ∧
    grouped (reverse body) ∧
    digits_value (filter (λ a, a ≠ ","%char) body) = Z.abs z.
Proof.
  intros _. destruct (yen_text (Q2Qc (inject_Z z))) as (body & Hy & Hg & Hv).
  rewrite Qnum_of_Z, Qden_of_Z, ?round_half_even_integer in *.
  exists body. split; [exact Hy|]. split; [exact Hg|exact Hv].
Qed.

Lemma yen_exact_on_integers_witness :
  (Z.abs 1234567 ≤ 2 ^ 53)%Z ∧
  ∃ body : list ascii,
    yen (Q2Qc (inject_Z 1234567)) =
      "¥" +:+ (if (1234567 <? 0)%Z then "-" else "") +:+
      string_of_list_ascii body ∧
    grouped (reverse body) ∧
    digits_value (filter (λ a, a ≠ ","%char) body) = Z.abs 1234567.
Proof.
  split; [vm_compute; discriminate|].
  apply (yen_exact_on_integers 1234567). vm_compute. discriminate.
Defined.

(** ** The script sample_error.py *)

Section SampleErrorFacts.
Context `{TextLayer}.

Lemma read_csv_created_at_data file df c :
  read_csv_created_at file = Ok df →
  data df !! c =
    (if decide (c = "created_at") then date_column else inferred_column)
      <$> column_texts file c.
Proof.
  unfold read_csv_created_at. case_decide; [|done]. intros [= <-]. cbn [data].
  rewrite (lookup_imap_columns
             (λ j c, (if decide (c = "created_at") then date_column
                      else inferred_column) (field j <$> lines file))).
  unfold column_texts. by destruct (header_index c (header file)).
Qed.

Lemma read_csv_created_at_lookup file df c :
  read_csv_created_at file = Ok df →
  (c ∈ header file → ∃ xs, data df !! c = Some xs ∧ length xs = length (lines file)) ∧
  (c ∉ header file → data df !! c = None).
Proof.
  intros Hr. rewrite (read_csv_created_at_data file df c Hr). unfold column_texts.
  split.
  - intros [j Hj]%header_index_is_Some. rewrite Hj. cbn. eexists. split; [done|].
    unfold date_column, inferred_column, object_column.
    repeat case_decide; repeat case_match; by rewrite !length_fmap.
  - intros Hc. destruct (header_index c (header file)) as [j|] eqn:Hj; [|done].
    destruct Hc. apply header_index_is_Some. by eexists.
Qed.

Lemma sample_error_cases fs :
  match fs !! DATA_PATH with
  | None => sample_error fs = Raise (FileNotFoundError DATA_PATH)
  | Some file =>
      if decide ("created_at" ∈ header file) then
        if decide ("category_name" ∈ header file) then
          if decide ("revenue_total" ∈ header file) then
            ∃ keys vals, sample_error fs = Ok (keys, vals) ∧
              length keys = length (lines file) ∧
              length vals = length (lines file)
          else sample_error fs = Raise (KeyError "Column not found: revenue_total")
        else sample_error fs = Raise (KeyError "category_name")
      else sample_error fs = Raise (ValueError (MissingParseDates "created_at"))
  end.
Proof.
  unfold sample_error. change "data/sample_sales.csv" with DATA_PATH.
  destruct (fs !! DATA_PATH) as [file|]; [|done].
  destruct (read_csv_created_at file) as [df|e] eqn:Hr.
  - assert ("created_at" ∈ header file) as Hc.
    { unfold read_csv_created_at in Hr. by case_decide. }
    rewrite decide_True by done. cbn [mbind Result_bind]. unfold getitem.
    destruct (read_csv_created_at_lookup file df "category_name" Hr) as [Hk1 Hk0].
    destruct (read_csv_created_at_lookup file df "revenue_total" Hr) as [Hv1 Hv0].
    case_decide as Hk.
    + destruct (Hk1 Hk) as (keys & -> & Hlk). cbn [mbind Result_bind].
      case_decide as Hv.
      * destruct (Hv1 Hv) as (vals & -> & Hlv). cbn [mbind Result_bind].
        by exists keys, vals.
      * by rewrite (Hv0 Hv).
    + by rewrite (Hk0 Hk).
  - unfold read_csv_created_at in Hr. case_decide; [done|]. by injection Hr as <-.
Qed.


(** X: a file that holds only columns of the dashboard's schema, which is
    all [load_data] asks of its input, cannot be charted by sample_error.py:
    the read of the file raises ValueError for the column "created_at". *)
Theorem sample_error_rejects_dashboard_columns fs file :
  fs !! DATA_PATH = Some file →
  (∀ c, c ∈ header file → c ∈ REQUIRED_COLUMNS) →
  sample_error fs = Raise (ValueError (MissingParseDates "created_at")).
Proof.
  intros Hfile Hcols. pose proof (sample_error_cases fs) as Hcases.
  rewrite Hfile in Hcases. case_decide as Hc; [|done].
  apply Hcols in Hc. exfalso. revert Hc. compute_done.
Qed.

End SampleErrorFacts.


Lemma sample_error_rejects_dashboard_columns_witness :
  sample_error (H := iso_text) {[ DATA_PATH := dashboard_file ]}
  = Raise (ValueError (MissingParseDates "created_at")).
Proof.
  apply (sample_error_rejects_dashboard_columns
           {[ DATA_PATH := dashboard_file ]} dashboard_file).
  - by vm_compute.
  - apply (proj1 (Forall_forall (λ c, c ∈ REQUIRED_COLUMNS)
                    (header dashboard_file))).
    compute_done.
Defined.

(** ** The download of the filtered table *)

Section Download.
Context `{TextLayer}.

Lemma rows_of_seq (n : nat) (d : gmap string (list Cell)) :
  rows_of n d = (λ i, (λ xs, nth i xs (Miss NaN)) <$> d) <$> seq 0 n.
Proof.
  revert d. induction n as [|n IH]; intros d; [done|].
  cbn [rows_of seq fmap list_fmap]. f_equal.
  - apply map_fmap_ext. by intros c [|x xs] _.
  - rewrite IH, <- fmap_S_seq, <- list_fmap_compose. apply list_fmap_ext.
    intros _ i _. cbn. rewrite <- map_fmap_compose. apply map_fmap_ext.
    by intros c [|x xs] _; destruct i.
Qed.

Lemma to_csv_lines_records (df : DataFrame) :
  lines (to_csv df) =
  (λ r : gmap string Cell,
     (λ c, to_csv_cell (default (Miss NaN) (r !! c))) <$> columns df)
    <$> records df.
Proof.
  unfold to_csv, records. cbn [lines]. rewrite rows_of_seq, <- list_fmap_compose.
  apply list_fmap_ext. intros _ i _. cbn. apply list_fmap_ext. intros _ c _.
  f_equal. unfold iat. rewrite lookup_fmap.
  destruct (data df !! c) as [xs|]; [|done]. cbn. apply eq_sym, nth_lookup.
Qed.

Lemma select_fmap {A B} (f : A → B) (mask : list bool) (xs : list A) :
  select mask (f <$> xs) = f <$> select mask xs.
Proof.
  revert xs. induction mask as [|b mask IH]; intros [|x xs]; try done.
  cbn. destruct b; cbn; by rewrite IH.
Qed.

Lemma records_loc (df : DataFrame) (mask : list bool) :
  wf df → length mask = nrows df →
  records (loc df mask) = select mask (records df).
Proof.
  intros Hwf Hlen. unfold records, loc. cbn [nrows data]. rewrite <- Hlen.
  apply rows_of_select. intros c xs Hc. rewrite Hlen. by eapply wf_len.
Qed.

Lemma to_csv_loc (df : DataFrame) (mask : list bool) :
  wf df → length mask = nrows df →
  header (to_csv (loc df mask)) = header (to_csv df) ∧
  lines (to_csv (loc df mask)) = select mask (lines (to_csv df)).
Proof.
  intros Hwf Hlen. split; [done|].
  rewrite !to_csv_lines_records, records_loc by done. cbn [columns loc].
  by rewrite select_fmap.
Qed.

(** X: on a table whose timestamps are all midnights, as the date column of
    a loaded table is, the CSV offered for download after filtering is the
    CSV of the whole table with the lines out of the range left out: it has
    the same header, and its lines are the lines of the export of the whole
    table whose date lies in the range, in the same order and unchanged. *)
Theorem filtered_download (df : DataFrame) (dr : DateRange) (dates : list Cell) :
  wf df → data df !! "date" = Some dates → Forall datetime_like dates →
  (∀ c xs, data df !! c = Some xs → Forall without_time xs) →
  ∃ fdf, apply_date_filter df dr = Ok fdf ∧
    header (to_csv fdf) = header (to_csv df) ∧
    lines (to_csv fdf) = select (date_mask dr dates) (lines (to_csv df)).
Proof.
  intros Hwf Hd Hlike _. exists (loc df (date_mask dr dates)).
  split; [by apply apply_date_filter_loc|].
  apply to_csv_loc; [done|].
  unfold date_mask. rewrite length_fmap. by eapply wf_len.
Qed.

End Download.

Lemma filtered_download_witness :
  ∃ fdf, apply_date_filter spec_rows january_first = Ok fdf ∧
    lines (to_csv (H := iso_text) fdf) =
    select (date_mask january_first
              [Time D_2024_01_01; Time D_2024_01_01; Time D_2024_01_02])
           (lines (to_csv (H := iso_text) spec_rows)).
Proof.
  destruct (filtered_download (H := iso_text) spec_rows january_first
              [Time D_2024_01_01; Time D_2024_01_01; Time D_2024_01_02])
    as (fdf & Hf & _ & Hl).
  - apply wf_frame; [compute_done | repeat constructor].
  - reflexivity.
  - repeat constructor.
  - intros c xs Hxs. apply elem_of_list_to_map_2 in Hxs. cbn in Hxs.
    rewrite !elem_of_cons, elem_of_nil in Hxs.
    repeat destruct Hxs as [Hxs|Hxs]; simplify_eq; try done; repeat constructor.
  - exists fdf. split; assumption.
Defined.
